(** * Personal finance tracker: ledger and reporting engine

    A shallow embedding of the class [PersonalFinanceTracker] of
    [personalfinancetracker.py] together with the properties of its ledger,
    budget monitor, goal tracker and reporting operations.

    The program keeps all of its state in five SQLite tables and reaches it
    through SQL statements.  The embedding follows that shape:

    - a table is the list of its rows in rowid order, a row is a record with
      one field per column, and a join scans the rows in that order;
    - a [REAL] value is an IEEE-754 binary64 number ([spec_float] with
      precision 53 and maximal exponent 1024), the arithmetic of both SQLite
      and Python floats; a [REAL] column that the program can leave NULL is
      an [option]; [SUM] adds the values up from zero in row order;
    - a [TEXT] value is a byte string compared byte-wise, as SQLite compares
      text;
    - a date is held as the text that was given.  The columns declared
      [DATE] have NUMERIC affinity, so SQLite keeps a date as text unless
      the text reads as a number; the dates that the program writes itself,
      [YYYY-MM-DD], are kept as text, and the properties that compare or
      return dates are stated for such dates ([Sql.iso_date]);
    - a Python [int] is an integer of any size; the sqlite3 module binds an
      [int] as a 64-bit integer and raises [OverflowError] beyond it, which
      the inserts do here, and the properties of the reads and of
      [update_goal_progress] are stated for ids within that range
      ([Sql.int64]);
    - a method is a function from the database to the database after the
      call and either the returned value or the raised Python exception;
      the clock ([date.today()], [date('now')], [CURRENT_TIMESTAMP]) is an
      argument.

    [import_data] is embedded on the rows that [csv.DictReader] yields for
    a file.  [export_data], which writes files, and the graphical and the
    command line front ends are not part of the embedding. *)

From Stdlib Require Import ZArith List String Ascii Bool Lia Permutation Sorted.
From Stdlib Require Import DecimalString.
From Stdlib Require Import Floats.SpecFloat.
Import ListNotations.

Local Open Scope Z_scope.

(** ** Python exceptions and results *)

Inductive exn : Type :=
| TypeError
| ValueError
| OverflowError
| ZeroDivisionError
| IntegrityError.

Inductive outcome (A : Type) : Type :=
| Ok (a : A)
| Raise (e : exn).

Arguments Ok {A} a.
Arguments Raise {A} e.

Definition bind {A B : Type} (m : outcome A) (k : A -> outcome B) : outcome B :=
  match m with
  | Ok a => k a
  | Raise e => Raise e
  end.

Notation "x <- m ;; k" := (bind m (fun x => k))
  (at level 100, m at next level, right associativity).

(** ** Binary64 numbers *)

Module Float.

Definition prec : Z := 53.
Definition emax : Z := 1024.

Definition float : Type := spec_float.

Definition of_Z (z : Z) : float := binary_normalize prec emax z 0 false.

Definition zero : float := S754_zero false.

Definition add : float -> float -> float := SFadd prec emax.
Definition sub : float -> float -> float := SFsub prec emax.
Definition mul : float -> float -> float := SFmul prec emax.
Definition div : float -> float -> float := SFdiv prec emax.

Definition eqb : float -> float -> bool := SFeqb.
Definition ltb : float -> float -> bool := SFltb.
Definition leb : float -> float -> bool := SFleb.

Definition is_nan (x : float) : bool :=
  match x with
  | S754_nan => true
  | _ => false
  end.

Definition is_zero (x : float) : bool :=
  match x with
  | S754_zero _ => true
  | _ => false
  end.

(** Python's [x / y] on floats: a zero divisor raises. *)
Definition truediv (x y : float) : outcome float :=
  if is_zero y then Raise ZeroDivisionError else Ok (div x y).

End Float.

(** ** SQL values of type REAL

    SQLite has no NaN: a NaN that is bound as a parameter or that an
    arithmetic operator produces becomes NULL, NULL propagates through the
    operators, and dividing by zero gives NULL. *)

Module Sql.

Definition real : Type := option Float.float.

Definition of_float (x : Float.float) : real :=
  if Float.is_nan x then None else Some x.

Definition lift2 (op : Float.float -> Float.float -> Float.float) (a b : real) : real :=
  match a, b with
  | Some x, Some y => of_float (op x y)
  | _, _ => None
  end.

Definition add : real -> real -> real := lift2 Float.add.
Definition sub : real -> real -> real := lift2 Float.sub.
Definition mul : real -> real -> real := lift2 Float.mul.

Definition div (a b : real) : real :=
  match a, b with
  | Some x, Some y => if Float.is_zero y then None else of_float (Float.div x y)
  | _, _ => None
  end.

(** [a >= b] as a WHERE condition: a NULL comparison selects nothing. *)
Definition geb (a b : real) : bool :=
  match a, b with
  | Some x, Some y => Float.leb y x
  | _, _ => false
  end.

(** [COALESCE(SUM(x), 0)] over the selected values of a [REAL NOT NULL]
    column: the values are accumulated from zero in row order; no row at
    all, or a sum that is not a number, gives NULL and so the default. *)
Definition sum (xs : list Float.float) : real :=
  match xs with
  | [] => None
  | _ => of_float (fold_left Float.add xs Float.zero)
  end.

Definition coalesce (a : real) (dflt : Float.float) : Float.float :=
  match a with
  | Some x => x
  | None => dflt
  end.

Definition coalesce_sum (xs : list Float.float) : Float.float :=
  coalesce (sum xs) Float.zero.

(** A parameter that is a Python [int] is bound as a 64-bit integer; the
    sqlite3 module raises [OverflowError] for an [int] beyond it, before the
    statement runs. *)
Definition int64 (z : Z) : bool := (- 2 ^ 63 <=? z) && (z <? 2 ^ 63).

(** A REAL column holds a number without a fractional part as an integer
    and gives it back as a float: the number that is read is the number
    that was written, except that the sign of a zero is lost. *)
Definition store_real (x : Float.float) : Float.float :=
  match x with
  | S754_zero _ => S754_zero false
  | _ => x
  end.

(** Text comparison is byte-wise. *)
Definition text_leb (a b : string) : bool := String.leb a b.

(** The dates [YYYY-MM-DD].  A DATE column keeps such a text as it is: it
    does not read as a number. *)
Definition is_digit (c : ascii) : bool :=
  (48 <=? nat_of_ascii c)%nat && (nat_of_ascii c <=? 57)%nat.

Definition iso_date (x : string) : bool :=
  match list_ascii_of_string x with
  | [y1; y2; y3; y4; h1; m1; m2; h2; d1; d2] =>
      forallb is_digit [y1; y2; y3; y4; m1; m2; d1; d2]
      && Ascii.eqb h1 "-" && Ascii.eqb h2 "-"
  | _ => false
  end.

Definition between (x lo hi : string) : bool :=
  text_leb lo x && text_leb x hi.

(** [LIMIT n]: a negative bound means no bound. *)
Definition limit {A : Type} (n : Z) (rows : list A) : list A :=
  if n <? 0 then rows else firstn (Z.to_nat n) rows.

(** AUTOINCREMENT: one more than the largest rowid the table has ever
    held. *)
Definition next_rowid (largest : Z) (ids : list Z) : Z :=
  fold_left Z.max ids largest + 1.

(** [ORDER BY]: a stable insertion sort; [leb a b] says that [a] may
    stand before [b]. *)
Section Order.
Context {A : Type} (leb : A -> A -> bool).

Fixpoint insert_row (x : A) (rows : list A) : list A :=
  match rows with
  | [] => [x]
  | y :: rest => if leb x y then x :: rows else y :: insert_row x rest
  end.

Definition order_by (rows : list A) : list A :=
  fold_right insert_row [] rows.
End Order.

End Sql.

(** ** Formatting integers as Python's f-strings do *)

Definition str_of_Z (n : Z) : string :=
  NilZero.string_of_int (Z.to_int n).

(** [format(n, '0{width}d')]: zeros are inserted between the sign and the
    digits until the text is [width] characters long. *)
Definition fmt_0d (width : nat) (n : Z) : string :=
  let sign := if n <? 0 then "-"%string else EmptyString in
  let digits := NilZero.string_of_uint (N.to_uint (Z.abs_N n)) in
  let pad := (width - String.length sign - String.length digits)%nat in
  (sign ++ string_of_list_ascii (repeat "0"%char pad) ++ digits)%string.

(** ** Dates, after Python's [datetime.date] *)

Module datetime.

Record date : Type := mkdate { year : Z; month : Z; day : Z }.

Definition MINYEAR : Z := 1.
Definition MAXYEAR : Z := 9999.
Definition MAXORDINAL : Z := 3652059.

Definition DAYS_IN_MONTH : list Z :=
  [-1; 31; 28; 31; 30; 31; 30; 31; 31; 30; 31; 30; 31].

Definition DAYS_BEFORE_MONTH : list Z :=
  [-1; 0; 31; 59; 90; 120; 151; 181; 212; 243; 273; 304; 334].

Definition is_leap (y : Z) : bool :=
  (y mod 4 =? 0) && (negb (y mod 100 =? 0) || (y mod 400 =? 0)).

Definition days_before_year (y : Z) : Z :=
  let y := y - 1 in
  y * 365 + y / 4 - y / 100 + y / 400.

Definition days_in_month (y m : Z) : Z :=
  if (m =? 2) && is_leap y then 29 else nth (Z.to_nat m) DAYS_IN_MONTH 0.

Definition days_before_month (y m : Z) : Z :=
  nth (Z.to_nat m) DAYS_BEFORE_MONTH 0
  + (if (2 <? m) && is_leap y then 1 else 0).

Definition ymd2ord (y m d : Z) : Z :=
  days_before_year y + days_before_month y m + d.

Definition DI400Y : Z := days_before_year 401.
Definition DI100Y : Z := days_before_year 101.
Definition DI4Y : Z := days_before_year 5.

Definition ord2ymd (n : Z) : date :=
  let n := n - 1 in
  let n400 := n / DI400Y in
  let n := n mod DI400Y in
  let y := n400 * 400 + 1 in
  let n100 := n / DI100Y in
  let n := n mod DI100Y in
  let n4 := n / DI4Y in
  let n := n mod DI4Y in
  let n1 := n / 365 in
  let n := n mod 365 in
  let y := y + n100 * 100 + n4 * 4 + n1 in
  if (n1 =? 4) || (n100 =? 4) then mkdate (y - 1) 12 31
  else
    let leapyear := (n1 =? 3) && (negb (n4 =? 24) || (n100 =? 3)) in
    let m := Z.shiftr (n + 50) 5 in
    let preceding :=
      nth (Z.to_nat m) DAYS_BEFORE_MONTH 0
      + (if (2 <? m) && leapyear then 1 else 0) in
    if n <? preceding then
      let m := m - 1 in
      let preceding :=
        preceding
        - (nth (Z.to_nat m) DAYS_IN_MONTH 0
           + (if (m =? 2) && leapyear then 1 else 0)) in
      mkdate y m (n - preceding + 1)
    else mkdate y m (n - preceding + 1).

(** The arguments of [datetime.date] are read as C integers of 32 bits. *)
Definition c_int (z : Z) : bool := (- 2 ^ 31 <=? z) && (z <? 2 ^ 31).

(** [datetime.date(y, m, d)]: an argument that is no C integer raises
    [OverflowError], before any argument is checked against its range. *)
Definition new (y m d : Z) : outcome date :=
  if negb (c_int y && c_int m && c_int d) then Raise OverflowError
  else if negb ((MINYEAR <=? y) && (y <=? MAXYEAR)) then Raise ValueError
  else if negb ((1 <=? m) && (m <=? 12)) then Raise ValueError
  else if negb ((1 <=? d) && (d <=? days_in_month y m)) then Raise ValueError
  else Ok (mkdate y m d).

Definition toordinal (d : date) : Z := ymd2ord (year d) (month d) (day d).

(** [d - datetime.timedelta(days=n)] *)
Definition sub_days (d : date) (n : Z) : outcome date :=
  let o := toordinal d - n in
  if (0 <? o) && (o <=? MAXORDINAL) then Ok (ord2ymd o)
  else Raise OverflowError.

(** [d.replace(day=1)] on a date that was built by [new]. *)
Definition replace_day1 (d : date) : date := mkdate (year d) (month d) 1.

Definition isoformat (d : date) : string :=
  (fmt_0d 4 (year d) ++ "-" ++ fmt_0d 2 (month d) ++ "-" ++ fmt_0d 2 (day d))%string.

End datetime.

(** ** The database

    One record per table of [init_database], one field per column.  The
    [type] of a category is restricted by a CHECK constraint to the two
    texts ['income'] and ['expense']. *)

Inductive kind : Type := income | expense.

Definition kind_eqb (a b : kind) : bool :=
  match a, b with
  | income, income | expense, expense => true
  | _, _ => false
  end.

Record category : Type := mkcategory {
  category_id : Z;
  category_name : string;
  category_type : kind;
  category_color : string;
  category_budget_limit : Sql.real;
  category_created_at : string
}.

Record transaction : Type := mktransaction {
  transaction_id : Z;
  transaction_amount : Float.float;
  transaction_description : string;
  transaction_category_id : Z;
  transaction_date : string;
  transaction_payment_method : string;
  transaction_location : string;
  transaction_tags : string;
  transaction_recurring : bool;
  transaction_recurring_frequency : option string;
  transaction_created_at : string
}.

Record budget : Type := mkbudget {
  budget_id : Z;
  budget_category_id : Z;
  budget_amount : Float.float;
  budget_period : string;
  budget_start_date : string;
  budget_end_date : string;
  budget_alert_threshold : Float.float;
  budget_created_at : string
}.

Record goal : Type := mkgoal {
  goal_id : Z;
  goal_name : string;
  goal_target_amount : Float.float;
  goal_current_amount : Sql.real;
  goal_target_date : option string;
  goal_description : string;
  goal_priority : Z;
  goal_achieved : bool;
  goal_created_at : string
}.

Record account : Type := mkaccount {
  account_id : Z;
  account_name : string;
  account_type : string;
  account_balance : Sql.real;
  account_currency : string;
  account_bank : option string;
  account_created_at : string
}.

(** The [sqlite_sequence] table of the AUTOINCREMENT keys. *)
Record sequence : Type := mksequence {
  seq_categories : Z;
  seq_transactions : Z;
  seq_budgets : Z;
  seq_goals : Z
}.

Record db : Type := mkdb {
  categories : list category;
  transactions : list transaction;
  budgets : list budget;
  goals : list goal;
  accounts : list account;
  sqlite_sequence : sequence
}.

(** The database right after the CREATE TABLE statements of a new file. *)
Definition empty_db : db :=
  mkdb [] [] [] [] [] (mksequence 0 0 0 0).

(** What the program reads from the clock: Python's [date.today()],
    SQLite's [date('now')] and SQLite's [CURRENT_TIMESTAMP]. *)
Record clock : Type := mkclock {
  today : datetime.date;
  sql_date_now : string;
  current_timestamp : string
}.

(** ** Methods: database in, database and result out *)

Definition Tracker (A : Type) : Type := db -> db * outcome A.

Definition ret {A : Type} (a : A) : Tracker A := fun s => (s, Ok a).

Definition raise {A : Type} (e : exn) : Tracker A := fun s => (s, Raise e).

Definition and_then {A B : Type} (m : Tracker A) (k : A -> Tracker B) : Tracker B :=
  fun s =>
    match m s with
    | (s', Ok a) => k a s'
    | (s', Raise e) => (s', Raise e)
    end.

Definition query {A : Type} (q : db -> A) : Tracker A := fun s => (s, Ok (q s)).

Definition execute (stmt : db -> outcome db) : Tracker unit :=
  fun s =>
    match stmt s with
    | Ok s' => (s', Ok tt)
    | Raise e => (s, Raise e)
    end.

Declare Scope tracker_scope.
Delimit Scope tracker_scope with tracker.
Notation "x <~ m ;; k" := (and_then m (fun x => k))
  (at level 100, m at next level, right associativity) : tracker_scope.
Notation "m ;;; k" := (and_then m (fun _ => k))
  (at level 100, right associativity) : tracker_scope.

(** [executemany]: the statement once per parameter row, stopping at the
    first failure. *)
Fixpoint executemany {P : Type} (stmt : P -> db -> outcome db) (params : list P)
  : Tracker unit :=
  match params with
  | [] => ret tt
  | p :: rest => and_then (execute (stmt p)) (fun _ => executemany stmt rest)
  end.

(** [cursor.fetchone()] *)
Definition fetchone {A : Type} (rows : list A) : option A := hd_error rows.

(** [row[0]] on what [fetchone] gave: indexing [None] raises. *)
Definition subscript {A : Type} (row : option A) : Tracker A :=
  match row with
  | Some a => ret a
  | None => raise TypeError
  end.

(** ** Category registry *)

Definition default_categories : list (string * kind * string) :=
  [ ("Зарплата", income, "#28a745");
    ("Фриланс", income, "#17a2b8");
    ("Инвестиции", income, "#ffc107");
    ("Еда и развлечения", expense, "#dc3545");
    ("Транспорт", expense, "#6f42c1");
    ("Покупки", expense, "#fd7e14");
    ("Развлечения", expense, "#e83e8c");
    ("Счета и коммунальные", expense, "#6c757d");
    ("Здоровье", expense, "#20c997");
    ("Образование", expense, "#0d6efd") ]%string.

Definition set_categories (s : db) (cs : list category) (n : Z) : db :=
  mkdb cs (transactions s) (budgets s) (goals s) (accounts s)
       (mksequence n (seq_transactions (sqlite_sequence s))
                   (seq_budgets (sqlite_sequence s)) (seq_goals (sqlite_sequence s))).

(** [INSERT INTO categories (name, type, color) VALUES (?, ?, ?)]: the name
    is UNIQUE, the other columns take their defaults. *)
Definition insert_category (now : string) (p : string * kind * string) (s : db)
  : outcome db :=
  let '(name, type, color) := p in
  if existsb (fun c => String.eqb (category_name c) name) (categories s)
  then Raise IntegrityError
  else
    let id := Sql.next_rowid (seq_categories (sqlite_sequence s))
                             (map category_id (categories s)) in
    Ok (set_categories s
          (categories s ++ [mkcategory id name type color (Some Float.zero) now])%list
          id).

Definition count_categories (s : db) : Z := Z.of_nat (List.length (categories s)).

Definition populate_default_categories (clk : clock) : Tracker unit :=
  (n <~ query count_categories ;;
   if n =? 0
   then executemany (insert_category (current_timestamp clk)) default_categories
   else ret tt)%tracker.

(** [init_database]: the tables are created if they do not exist, which
    leaves an existing database as it is, and the default categories are
    seeded. *)
Definition init_database (clk : clock) : Tracker unit :=
  populate_default_categories clk.

(** ** Transaction ledger *)

Definition set_transactions (s : db) (ts : list transaction) (n : Z) : db :=
  mkdb (categories s) ts (budgets s) (goals s) (accounts s)
       (mksequence (seq_categories (sqlite_sequence s)) n
                   (seq_budgets (sqlite_sequence s)) (seq_goals (sqlite_sequence s))).

Definition set_accounts (s : db) (acs : list account) : db :=
  mkdb (categories s) (transactions s) (budgets s) (goals s) acs (sqlite_sequence s).

(** [INSERT INTO transactions (amount, description, category_id, date,
    payment_method, location, tags) VALUES (?, ?, ?, ?, ?, ?, ?)].  The
    amount is [REAL NOT NULL]; the foreign key on [category_id] is declared
    but the connection never turns foreign key enforcement on, so the
    statement does not look at the categories. *)
Definition insert_transaction (now : string) (amount : Float.float)
    (description : string) (category_id : Z) (date payment_method location tags : string)
    (s : db) : outcome db :=
  if negb (Sql.int64 category_id) then Raise OverflowError
  else
    match Sql.of_float amount with
    | None => Raise IntegrityError
    | Some a =>
        let id := Sql.next_rowid (seq_transactions (sqlite_sequence s))
                                 (map transaction_id (transactions s)) in
        Ok (set_transactions s
              (transactions s
               ++ [mktransaction id (Sql.store_real a) description category_id date
                                 payment_method location tags false None now])%list
              id)
    end.

(** [cursor.lastrowid] after an insert into the transactions. *)
Definition lastrowid_transactions (s : db) : Z := seq_transactions (sqlite_sequence s).

(** [SELECT type FROM categories WHERE id = ?] *)
Definition select_category_type (id : Z) (s : db) : list kind :=
  map category_type (filter (fun c => category_id c =? id) (categories s)).

(** The index that [name TEXT UNIQUE] gives the accounts holds the names in
    ascending order, each with the id of its row. *)
Definition by_name (a b : account) : bool :=
  Sql.text_leb (account_name a) (account_name b).

(** [SELECT id FROM accounts LIMIT 1]: the ids are read from the index of
    the names, which holds all that the statement asks for, so the first id
    is that of the account whose name is the least. *)
Definition select_primary_account (s : db) : list Z :=
  Sql.limit 1 (map account_id (Sql.order_by by_name (accounts s))).

Definition with_balance (a : account) (b : Sql.real) : account :=
  mkaccount (account_id a) (account_name a) (account_type a) b
            (account_currency a) (account_bank a) (account_created_at a).

(** [UPDATE accounts SET balance = balance op ? WHERE id = ?] *)
Definition update_balance (op : Sql.real -> Sql.real -> Sql.real)
    (amount : Float.float) (id : Z) (s : db) : outcome db :=
  Ok (set_accounts s
        (map (fun a => if account_id a =? id
                       then with_balance a (op (account_balance a) (Sql.of_float amount))
                       else a)
             (accounts s))).

Definition update_balance_after_transaction (amount : Float.float) (category_id : Z)
  : Tracker unit :=
  if negb (Sql.int64 category_id) then raise OverflowError
  else
    (row <~ query (fun s => fetchone (select_category_type category_id s)) ;;
     category_type <~ subscript row ;;
     account <~ query (fun s => fetchone (select_primary_account s)) ;;
     match account with
     | Some id =>
         match category_type with
         | income => execute (update_balance Sql.add amount id)
         | expense => execute (update_balance Sql.sub amount id)
         end
     | None => ret tt
     end)%tracker.

Definition add_transaction (clk : clock) (amount : Float.float) (description : string)
    (category_id : Z) (date : option string) (payment_method location tags : string)
  : Tracker Z :=
  let date := match date with
              | None => datetime.isoformat (today clk)
              | Some d => d
              end in
  (execute (insert_transaction (current_timestamp clk) amount description category_id
                               date payment_method location tags) ;;;
   transaction_id <~ query lastrowid_transactions ;;
   update_balance_after_transaction amount category_id ;;;
   ret transaction_id)%tracker.

(** [FROM transactions t JOIN categories c ON t.category_id = c.id] *)
Definition join_categories (s : db) : list (transaction * category) :=
  flat_map (fun t => map (pair t)
                         (filter (fun c => category_id c =? transaction_category_id t)
                                 (categories s)))
           (transactions s).

(** A row of [get_transactions]: [(t.id, t.amount, t.description, c.name,
    c.type, t.date, t.payment_method, t.location, t.tags)]. *)
Record transaction_row : Type := mkrow {
  row_id : Z;
  row_amount : Float.float;
  row_description : string;
  row_category : string;
  row_type : kind;
  row_date : string;
  row_payment_method : string;
  row_location : string;
  row_tags : string
}.

Definition select_row (r : transaction * category) : transaction_row :=
  let (t, c) := r in
  mkrow (transaction_id t) (transaction_amount t) (transaction_description t)
        (category_name c) (category_type c) (transaction_date t)
        (transaction_payment_method t) (transaction_location t) (transaction_tags t).

(** Python's [''], the default of the optional text arguments. *)
Definition blank : string := EmptyString.

(** Python's truth value of a text and of an integer. *)
Definition str_true (x : string) : bool := negb (String.eqb x EmptyString).
Definition int_true (x : Z) : bool := negb (x =? 0).

(** [if param: conditions.append(cond); params.append(param)] for an
    optional argument whose default is [None]. *)
Definition append_if {P C : Type} (truth : P -> bool) (param : option P)
    (cond : P -> C) (conditions : list C) : list C :=
  match param with
  | Some p => if truth p then (conditions ++ [cond p])%list else conditions
  | None => conditions
  end.

(** [" WHERE " + " AND ".join(conditions)], nothing for no condition. *)
Definition where_all {R : Type} (conditions : list (R -> bool)) (rows : list R) : list R :=
  match conditions with
  | [] => rows
  | _ => filter (fun r => forallb (fun cond => cond r) conditions) rows
  end.

(** [ORDER BY t.date DESC, t.created_at DESC] *)
Definition newest_first (a b : transaction * category) : bool :=
  if String.eqb (transaction_date (fst a)) (transaction_date (fst b))
  then Sql.text_leb (transaction_created_at (fst b)) (transaction_created_at (fst a))
  else Sql.text_leb (transaction_date (fst b)) (transaction_date (fst a)).

(** [get_transactions], on dates that are kept as texts and with a
    [category_id] and a [limit] that SQLite takes as integers. *)
Definition get_transactions (start_date end_date : option string)
    (category_id limit : option Z) : Tracker (list transaction_row) :=
  query (fun s =>
    let conditions : list (transaction * category -> bool) := [] in
    let conditions :=
      append_if str_true start_date
        (fun d r => Sql.text_leb d (transaction_date (fst r))) conditions in
    let conditions :=
      append_if str_true end_date
        (fun d r => Sql.text_leb (transaction_date (fst r)) d) conditions in
    let conditions :=
      append_if int_true category_id
        (fun id r => transaction_category_id (fst r) =? id) conditions in
    let rows := Sql.order_by newest_first (where_all conditions (join_categories s)) in
    let rows := match limit with
                | Some n => if int_true n then Sql.limit n rows else rows
                | None => rows
                end in
    map select_row rows).

(** ** Reporting engine: balance summary *)

Record summary : Type := mksummary {
  total_income : Float.float;
  total_expenses : Float.float;
  net_worth : Float.float;
  monthly_income : Float.float;
  monthly_expenses : Float.float;
  monthly_savings : Float.float
}.

(** [SELECT COALESCE(SUM(t.amount), 0) FROM transactions t JOIN categories c
    ON t.category_id = c.id WHERE c.type = ?] *)
Definition select_total (k : kind) (s : db) : Float.float :=
  Sql.coalesce_sum
    (map (fun r => transaction_amount (fst r))
         (filter (fun r => kind_eqb (category_type (snd r)) k) (join_categories s))).

(** The same with [AND t.date >= ?], on dates that are kept as texts. *)
Definition select_total_since (k : kind) (since : string) (s : db) : Float.float :=
  Sql.coalesce_sum
    (map (fun r => transaction_amount (fst r))
         (filter (fun r => kind_eqb (category_type (snd r)) k
                           && Sql.text_leb since (transaction_date (fst r)))
                 (join_categories s))).

Definition get_balance_summary (clk : clock) : Tracker summary :=
  (total_income <~ query (select_total income) ;;
   total_expenses <~ query (select_total expense) ;;
   let net_worth := Float.sub total_income total_expenses in
   let current_month := datetime.isoformat (datetime.replace_day1 (today clk)) in
   monthly_income <~ query (select_total_since income current_month) ;;
   monthly_expenses <~ query (select_total_since expense current_month) ;;
   ret (mksummary total_income total_expenses net_worth monthly_income
                  monthly_expenses (Float.sub monthly_income monthly_expenses)))%tracker.

(** ** Budget monitor *)

Definition set_budgets (s : db) (bs : list budget) (n : Z) : db :=
  mkdb (categories s) (transactions s) bs (goals s) (accounts s)
       (mksequence (seq_categories (sqlite_sequence s))
                   (seq_transactions (sqlite_sequence s)) n
                   (seq_goals (sqlite_sequence s))).

(** The column default [0.8]: the binary64 number nearest to 8/10. *)
Definition default_alert_threshold : Float.float :=
  Float.div (Float.of_Z 8) (Float.of_Z 10).

Definition period_ok (period : string) : bool :=
  String.eqb period "weekly" || String.eqb period "monthly" || String.eqb period "yearly".

(** [INSERT INTO budgets (category_id, amount, period, start_date, end_date)
    VALUES (?, ?, ?, ?, ?)] *)
Definition insert_budget (now : string) (category_id : Z) (amount : Float.float)
    (period start_date end_date : string) (s : db) : outcome db :=
  if negb (Sql.int64 category_id) then Raise OverflowError
  else
    match Sql.of_float amount with
    | None => Raise IntegrityError
    | Some a =>
        if negb (period_ok period) then Raise IntegrityError
        else
          let id := Sql.next_rowid (seq_budgets (sqlite_sequence s))
                                   (map budget_id (budgets s)) in
          Ok (set_budgets s
                (budgets s
                 ++ [mkbudget id category_id (Sql.store_real a) period start_date end_date
                              default_alert_threshold now])%list
                id)
    end.

Definition create_budget (clk : clock) (category_id : Z) (amount : Float.float)
    (period start_date end_date : string) : Tracker Z :=
  (execute (insert_budget (current_timestamp clk) category_id amount period
                          start_date end_date) ;;;
   query (fun s => seq_budgets (sqlite_sequence s)))%tracker.

(** [SELECT b.id, b.amount, b.period, b.alert_threshold, c.name, b.start_date,
    b.end_date FROM budgets b JOIN categories c ON b.category_id = c.id
    WHERE b.end_date >= date('now')] *)
Definition select_active_budgets (clk : clock) (s : db) : list (budget * category) :=
  filter (fun r => Sql.text_leb (sql_date_now clk) (budget_end_date (fst r)))
         (flat_map (fun b => map (pair b)
                                 (filter (fun c => category_id c =? budget_category_id b)
                                         (categories s)))
                   (budgets s)).

(** [SELECT COALESCE(SUM(t.amount), 0) FROM transactions t JOIN categories c
    ON t.category_id = c.id WHERE c.name = ? AND t.date BETWEEN ? AND ?], on
    dates that are kept as texts. *)
Definition select_spent (category start_date end_date : string) (s : db) : Float.float :=
  Sql.coalesce_sum
    (map (fun r => transaction_amount (fst r))
         (filter (fun r => String.eqb (category_name (snd r)) category
                           && Sql.between (transaction_date (fst r)) start_date end_date)
                 (join_categories s))).

Record budget_status : Type := mkstatus {
  status_category : string;
  status_budget : Float.float;
  status_spent : Float.float;
  status_remaining : Float.float;
  status_percentage : Float.float;
  status_alert : bool;
  status_period : string
}.

Definition hundred : Float.float := Float.of_Z 100.

(** The body of the loop over the selected budgets. *)
Definition budget_status_of (s : db) (row : budget * category) : outcome budget_status :=
  let (b, c) := row in
  let amount := budget_amount b in
  let threshold := budget_alert_threshold b in
  let category := category_name c in
  let spent := select_spent category (budget_start_date b) (budget_end_date b) s in
  percentage <-
    (if Float.ltb Float.zero amount
     then q <- Float.truediv spent amount ;; Ok (Float.mul q hundred)
     else Ok Float.zero) ;;
  Ok (mkstatus category amount spent (Float.sub amount spent) percentage
               (Float.leb (Float.mul threshold hundred) percentage)
               (budget_period b)).

Fixpoint for_each {A B : Type} (body : A -> outcome B) (xs : list A) : outcome (list B) :=
  match xs with
  | [] => Ok []
  | x :: rest =>
      y <- body x ;;
      ys <- for_each body rest ;;
      Ok (y :: ys)
  end.

Definition check_budget_status (clk : clock) : Tracker (list budget_status) :=
  fun s => (s, for_each (budget_status_of s) (select_active_budgets clk s)).

(** ** Goal tracker *)

Definition set_goals (s : db) (gs : list goal) (n : Z) : db :=
  mkdb (categories s) (transactions s) (budgets s) gs (accounts s)
       (mksequence (seq_categories (sqlite_sequence s))
                   (seq_transactions (sqlite_sequence s))
                   (seq_budgets (sqlite_sequence s)) n).

(** [INSERT INTO goals (name, target_amount, target_date, description,
    priority) VALUES (?, ?, ?, ?, ?)] *)
Definition insert_goal (now : string) (name : string) (target_amount : Float.float)
    (target_date : option string) (description : string) (priority : Z) (s : db)
  : outcome db :=
  if negb (Sql.int64 priority) then Raise OverflowError
  else
    match Sql.of_float target_amount with
    | None => Raise IntegrityError
    | Some target =>
        let id := Sql.next_rowid (seq_goals (sqlite_sequence s)) (map goal_id (goals s)) in
        Ok (set_goals s
              (goals s
               ++ [mkgoal id name (Sql.store_real target) (Some Float.zero) target_date
                          description priority false now])%list
              id)
    end.

Definition add_goal (clk : clock) (name : string) (target_amount : Float.float)
    (target_date : option string) (description : string) (priority : Z) : Tracker Z :=
  (execute (insert_goal (current_timestamp clk) name target_amount target_date
                        description priority) ;;;
   query (fun s => seq_goals (sqlite_sequence s)))%tracker.

Definition with_current_amount (g : goal) (x : Sql.real) : goal :=
  mkgoal (goal_id g) (goal_name g) (goal_target_amount g) x (goal_target_date g)
         (goal_description g) (goal_priority g) (goal_achieved g) (goal_created_at g).

Definition with_achieved (g : goal) : goal :=
  mkgoal (goal_id g) (goal_name g) (goal_target_amount g) (goal_current_amount g)
         (goal_target_date g) (goal_description g) (goal_priority g) true
         (goal_created_at g).

(** [UPDATE goals SET current_amount = current_amount + ? WHERE id = ?] *)
Definition update_current_amount (amount : Float.float) (id : Z) (g : goal) : goal :=
  if goal_id g =? id
  then with_current_amount g (Sql.add (goal_current_amount g) (Sql.of_float amount))
  else g.

(** [UPDATE goals SET achieved = 1 WHERE id = ? AND current_amount >=
    target_amount] *)
Definition update_achieved (id : Z) (g : goal) : goal :=
  if (goal_id g =? id)
     && Sql.geb (goal_current_amount g) (Some (goal_target_amount g))
  then with_achieved g
  else g.

Definition update_goals (f : goal -> goal) (s : db) : outcome db :=
  Ok (set_goals s (map f (goals s)) (seq_goals (sqlite_sequence s))).

(** [update_goal_progress], with a [goal_id] that SQLite takes as an
    integer. *)
Definition update_goal_progress (goal_id : Z) (amount : Float.float) : Tracker unit :=
  (execute (update_goals (update_current_amount amount goal_id)) ;;;
   execute (update_goals (update_achieved goal_id)))%tracker.

(** A row of [get_goals]: the columns of the goal and its progress. *)
Record goal_row : Type := mkgoal_row {
  goal_of : goal;
  goal_progress : Sql.real
}.

(** [ORDER BY priority, target_date], on target dates that are kept as
    texts; NULL sorts before every text. *)
Definition by_priority (a b : goal) : bool :=
  if goal_priority a =? goal_priority b
  then match goal_target_date a, goal_target_date b with
       | None, _ => true
       | Some _, None => false
       | Some x, Some y => Sql.text_leb x y
       end
  else goal_priority a <? goal_priority b.

Section Goals.

(** SQLite's [ROUND(x, digits)] on a number; it goes through the decimal
    text of [x] and stays a parameter here. *)
Variable ROUND : Float.float -> Z -> Float.float.

(** [ROUND((current_amount / target_amount) * 100, 2)] *)
Definition progress (g : goal) : Sql.real :=
  option_map (fun x => ROUND x 2)
    (Sql.mul (Sql.div (goal_current_amount g) (Some (goal_target_amount g)))
             (Some hundred)).

Definition get_goals : Tracker (list goal_row) :=
  query (fun s =>
    map (fun g => mkgoal_row g (progress g)) (Sql.order_by by_priority (goals s))).

End Goals.

(** ** Reporting engine: monthly report *)

(** The window of [generate_monthly_report]: [start_date] and [end_date],
    the two bounds of every query of the report. *)
Definition report_window (year month : Z) : outcome (string * string) :=
  let start_date := (str_of_Z year ++ "-" ++ fmt_0d 2 month ++ "-01")%string in
  next_month <-
    (if month =? 12
     then datetime.new (year + 1) 1 1
     else datetime.new year (month + 1) 1) ;;
  last <- datetime.sub_days next_month 1 ;;
  let last_day := datetime.day last in
  let end_date :=
    (str_of_Z year ++ "-" ++ fmt_0d 2 month ++ "-" ++ fmt_0d 2 last_day)%string in
  Ok (start_date, end_date).

(** [last_day] as [generate_monthly_report] computes it: the day number of
    the day before the first day of the next month. *)
Definition window_last_day (year month : Z) : outcome Z :=
  next_month <-
    (if month =? 12
     then datetime.new (year + 1) 1 1
     else datetime.new year (month + 1) 1) ;;
  last <- datetime.sub_days next_month 1 ;;
  Ok (datetime.day last).

(** [WHERE t.date BETWEEN ? AND ?] over the joined rows. *)
Definition in_window (start_date end_date : string) (s : db)
  : list (transaction * category) :=
  filter (fun r => Sql.between (transaction_date (fst r)) start_date end_date)
         (join_categories s).

(** [GROUP BY]: the distinct keys in the order of their first row, each
    with its rows. *)
Fixpoint distinct {K : Type} (eqb : K -> K -> bool) (ks : list K) : list K :=
  match ks with
  | [] => []
  | k :: rest => k :: filter (fun k' => negb (eqb k' k)) (distinct eqb rest)
  end.

Definition group_by {R K : Type} (eqb : K -> K -> bool) (key : R -> K) (rows : list R)
  : list (K * list R) :=
  map (fun k => (k, filter (fun r => eqb (key r) k) rows)) (distinct eqb (map key rows)).

Definition sum_amounts (rows : list (transaction * category)) : Sql.real :=
  Sql.sum (map (fun r => transaction_amount (fst r)) rows).

(** [SELECT c.type, SUM(t.amount) ... GROUP BY c.type], then
    [dict(...).get(k, 0)]: the sum of the group, Python's [None] for a NULL
    sum, and 0 for a missing group. *)
Definition totals_get (k : kind) (rows : list (transaction * category)) : Sql.real :=
  match filter (fun g => kind_eqb (fst g) k)
               (group_by kind_eqb (fun r => category_type (snd r)) rows) with
  | g :: _ => sum_amounts (snd g)
  | [] => Some Float.zero
  end.

(** Python arithmetic on what the cursor returned: [None] is no number. *)
Definition number (x : Sql.real) : outcome Float.float :=
  match x with
  | Some v => Ok v
  | None => Raise TypeError
  end.

(** NULL is smaller than every number, so it comes last in [DESC]. *)
Definition real_geb (a b : Sql.real) : bool :=
  match a, b with
  | _, None => true
  | None, Some _ => false
  | Some x, Some y => Float.leb y x
  end.

Definition category_key_eqb (a b : Z * string * kind) : bool :=
  let '(i, n, k) := a in
  let '(j, m, l) := b in
  (i =? j) && String.eqb n m && kind_eqb k l.

(** [SELECT c.name, SUM(t.amount), c.type ... GROUP BY c.id, c.name, c.type
    ORDER BY SUM(t.amount) DESC] *)
Definition select_categories (rows : list (transaction * category))
  : list (string * Sql.real * kind) :=
  Sql.order_by (fun a b => real_geb (snd (fst a)) (snd (fst b)))
    (map (fun g => let '(_, n, k) := fst g in (n, sum_amounts (snd g), k))
         (group_by category_key_eqb
            (fun r => (category_id (snd r), category_name (snd r), category_type (snd r)))
            rows)).

(** [SUM(CASE WHEN c.type = ? THEN t.amount ELSE 0 END)] *)
Definition sum_case (k : kind) (rows : list (transaction * category)) : Sql.real :=
  Sql.sum (map (fun r => if kind_eqb (category_type (snd r)) k
                         then transaction_amount (fst r)
                         else Float.zero)
               rows).

(** [SELECT t.date, SUM(CASE ... 'expense' ...), SUM(CASE ... 'income' ...)
    ... GROUP BY t.date ORDER BY t.date] *)
Definition select_daily (rows : list (transaction * category))
  : list (string * Sql.real * Sql.real) :=
  Sql.order_by (fun a b => Sql.text_leb (fst (fst a)) (fst (fst b)))
    (map (fun g => (fst g, sum_case expense (snd g), sum_case income (snd g)))
         (group_by String.eqb (fun r => transaction_date (fst r)) rows)).

Record report : Type := mkreport {
  report_period : string;
  report_income : Float.float;
  report_expenses : Float.float;
  report_savings : Float.float;
  report_categories : list (string * Sql.real * kind);
  report_daily_data : list (string * Sql.real * Sql.real);
  report_savings_rate : Float.float
}.

Definition monthly_report_of (year month : Z) (s : db) : outcome report :=
  window <- report_window year month ;;
  let (start_date, end_date) := window in
  let rows := in_window start_date end_date s in
  let income := totals_get income rows in
  let expenses := totals_get expense rows in
  let categories := select_categories rows in
  let daily_data := select_daily rows in
  let period := (str_of_Z year ++ "-" ++ fmt_0d 2 month)%string in
  i <- number income ;;
  e <- number expenses ;;
  let savings := Float.sub i e in
  savings_rate <-
    (if Float.ltb Float.zero i
     then q <- Float.truediv (Float.sub i e) i ;; Ok (Float.mul q hundred)
     else Ok Float.zero) ;;
  Ok (mkreport period i e savings categories daily_data savings_rate).

Definition generate_monthly_report (year month : Z) : Tracker report :=
  fun s => (s, monthly_report_of year month s).

(** ** Reporting engine: spending by category *)

(** [d.replace(month=1, day=1)] on a date that was built by [new]. *)
Definition replace_month1_day1 (d : datetime.date) : datetime.date :=
  datetime.mkdate (datetime.year d) 1 1.

(** A row of [get_category_spending]: [(c.name, c.color, total, c.type)]. *)
Record spending_row : Type := mkspending {
  spending_name : string;
  spending_color : string;
  spending_total : Sql.real;
  spending_type : kind
}.

Definition spending_key_eqb (a b : Z * string * string * kind) : bool :=
  let '(i, n, c, k) := a in
  let '(j, m, d, l) := b in
  (i =? j) && String.eqb n m && String.eqb c d && kind_eqb k l.

(** [SELECT c.name, c.color, SUM(t.amount) as total, c.type FROM
    transactions t JOIN categories c ON t.category_id = c.id WHERE t.date >= ?
    GROUP BY c.id, c.name, c.color, c.type ORDER BY total DESC], on dates
    that are kept as texts. *)
Definition select_spending (start_date : string) (s : db) : list spending_row :=
  Sql.order_by (fun a b => real_geb (spending_total a) (spending_total b))
    (map (fun g => let '(_, n, c, k) := fst g in mkspending n c (sum_amounts (snd g)) k)
         (group_by spending_key_eqb
            (fun r => (category_id (snd r), category_name (snd r),
                       category_color (snd r), category_type (snd r)))
            (filter (fun r => Sql.text_leb start_date (transaction_date (fst r)))
                    (join_categories s)))).

Definition get_category_spending (clk : clock) (period : string)
  : Tracker (list spending_row) :=
  let start_date :=
    if String.eqb period "monthly"
    then datetime.isoformat (datetime.replace_day1 (today clk))
    else if String.eqb period "yearly"
         then datetime.isoformat (replace_month1_day1 (today clk))
         else "1900-01-01"%string in
  query (select_spending start_date).

(** ** Insight generator *)

Record insights : Type := mkinsights {
  spending_habits : list string;
  recommendations : list string;
  warnings : list string;
  achievements : list string
}.

(** [insights[key].append(message)] *)
Definition append_habit (i : insights) (m : string) : insights :=
  mkinsights (spending_habits i ++ [m]) (recommendations i) (warnings i) (achievements i).
Definition append_recommendation (i : insights) (m : string) : insights :=
  mkinsights (spending_habits i) (recommendations i ++ [m]) (warnings i) (achievements i).
Definition append_warning (i : insights) (m : string) : insights :=
  mkinsights (spending_habits i) (recommendations i) (warnings i ++ [m]) (achievements i).
Definition append_achievement (i : insights) (m : string) : insights :=
  mkinsights (spending_habits i) (recommendations i) (warnings i) (achievements i ++ [m]).

(** Python's [a > b] on two totals of the cursor: [None] does not compare. *)
Definition total_gt (a b : Sql.real) : outcome bool :=
  match a, b with
  | Some x, Some y => Ok (Float.ltb y x)
  | _, _ => Raise TypeError
  end.

(** [max(rows, key=lambda x: x[2], default=None)]: the first row whose
    total no other row exceeds; one row alone is compared with nothing. *)
Fixpoint max_from (best : spending_row) (rows : list spending_row) : outcome spending_row :=
  match rows with
  | [] => Ok best
  | x :: rest =>
      greater <- total_gt (spending_total x) (spending_total best) ;;
      max_from (if greater then x else best) rest
  end.

Definition max_total (rows : list spending_row) : outcome (option spending_row) :=
  match rows with
  | [] => Ok None
  | x :: rest => best <- max_from x rest ;; Ok (Some best)
  end.

Section Insights.

(** Python's [format(x, '.1f')] and [format(x, '.2f')] on a float: the
    decimal text of a binary number stays a parameter. *)
Variable format_f : nat -> Float.float -> string.

Definition insights_of (summary : summary) (category_spending : list spending_row)
  : outcome insights :=
  let insights := mkinsights [] [] [] [] in
  let insights :=
    if Float.ltb (monthly_income summary) (monthly_expenses summary)
    then append_recommendation
           (append_warning insights
              "⚠️ Вы тратите больше, чем зарабатываете в этом месяце!")
           "💡 Просмотрите свои расходы и определите места, где можно сэкономить"
    else insights in
  insights <-
    (if Float.ltb Float.zero (monthly_income summary)
     then
       q <- Float.truediv (monthly_savings summary) (monthly_income summary) ;;
       let savings_rate := Float.mul q hundred in
       if Float.leb (Float.of_Z 20) savings_rate
       then Ok (append_achievement insights
                  ("🎉 Отлично! Вы экономите " ++ format_f 1 savings_rate
                   ++ "% вашего дохода"))
       else if Float.leb (Float.of_Z 10) savings_rate
            then Ok (append_achievement insights
                       ("👍 Хорошая работа! Вы экономите " ++ format_f 1 savings_rate
                        ++ "% вашего дохода"))
            else Ok (append_recommendation insights
                       ("💰 Попробуйте увеличить норму сбережений (сейчас "
                        ++ format_f 1 savings_rate ++ "%)"))
     else Ok insights) ;;
  match category_spending with
  | [] => Ok insights
  | _ =>
      top_expense <-
        max_total (filter (fun cat => kind_eqb (spending_type cat) expense)
                          category_spending) ;;
      match top_expense with
      | Some top =>
          total <- number (spending_total top) ;;
          Ok (append_habit insights
                ("🛒 Ваша самая большая категория расходов - " ++ spending_name top
                 ++ " ($" ++ format_f 2 total ++ ")"))
      | None => Ok insights
      end
  end.

Definition get_financial_insights (clk : clock) : Tracker insights :=
  (summary <~ get_balance_summary clk ;;
   category_spending <~ get_category_spending clk "monthly" ;;
   fun s => (s, insights_of summary category_spending))%tracker.

End Insights.

(** ** Import *)

(** A row of [csv.DictReader] that is as long as the header: the text of
    the row under each name of the header, nothing under any other name.  (A
    row that is shorter than the header has [None] for the cells it lacks;
    such rows are not embedded.) *)
Definition csv_row : Type := string -> option string.

(** What stops an import: a name that the header lacks, or what a
    statement or a conversion raised. *)
Inductive import_error : Type :=
| KeyError (key : string)
| Raised (e : exn).

(** The type of a category as a text: the CHECK constraint admits the two
    texts only. *)
Definition kind_of_text (type : string) : option kind :=
  if String.eqb type "income" then Some income
  else if String.eqb type "expense" then Some expense
  else None.

(** The column default of [color]. *)
Definition default_color : string := "#007bff".

(** [SELECT id FROM categories WHERE name = ?] *)
Definition select_category_id (name : string) (s : db) : list Z :=
  map category_id (filter (fun c => String.eqb (category_name c) name) (categories s)).

(** [INSERT INTO categories (name, type) VALUES (?, ?)] *)
Definition insert_imported_category (now name type : string) (s : db) : outcome db :=
  match kind_of_text type with
  | Some k => insert_category now (name, k, default_color) s
  | None => Raise IntegrityError
  end.

(** [row.get(key, default)] *)
Definition row_get (row : csv_row) (key default : string) : string :=
  match row key with
  | Some text => text
  | None => default
  end.

Section ImportRows.

(** Python's [float(text)]; [None] stands for [ValueError]. *)
Variable float_of_text : string -> option Float.float.

(** The call of [add_transaction] for a row, its arguments evaluated from
    left to right. *)
Definition import_transaction (clk : clock) (row : csv_row) (category_id : Z) (s : db)
  : db * option import_error :=
  match row "Amount"%string with
  | None => (s, Some (KeyError "Amount"))
  | Some amount_text =>
      match float_of_text amount_text with
      | None => (s, Some (Raised ValueError))
      | Some amount =>
          match row "Description"%string with
          | None => (s, Some (KeyError "Description"))
          | Some description =>
              match row "Date"%string with
              | None => (s, Some (KeyError "Date"))
              | Some date =>
                  match add_transaction clk amount description category_id (Some date)
                          (row_get row "Payment Method" "cash")
                          (row_get row "Location" blank)
                          (row_get row "Tags" blank) s with
                  | (s', Ok _) => (s', None)
                  | (s', Raise e) => (s', Some (Raised e))
                  end
              end
          end
      end
  end.

(** The body of the loop over the rows: find or create the category, then
    add the transaction. *)
Definition import_row (clk : clock) (row : csv_row) (s : db) : db * option import_error :=
  match row "Category"%string with
  | None => (s, Some (KeyError "Category"))
  | Some name =>
      match fetchone (select_category_id name s) with
      | Some category_id => import_transaction clk row category_id s
      | None =>
          match insert_imported_category (current_timestamp clk) name
                  (row_get row "Type" "expense") s with
          | Ok s' => import_transaction clk row (seq_categories (sqlite_sequence s')) s'
          | Raise e => (s, Some (Raised e))
          end
      end
  end.

(** [import_data] on the rows of the file: the loop stops at the first
    exception, which [except Exception] catches and prints; the result is
    the exception that was printed, if any. *)
Fixpoint import_data (clk : clock) (rows : list csv_row) (s : db)
  : db * option import_error :=
  match rows with
  | [] => (s, None)
  | row :: rest =>
      match import_row clk row s with
      | (s', None) => import_data clk rest s'
      | (s', Some e) => (s', Some e)
      end
  end.

End ImportRows.

(** * Specification

    What the operations are to do, said over the tables without the SQL
    statements, and the data of the examples. *)

(** The state after a call, and its result. *)
Definition state_after {A : Type} (m : Tracker A) (s : db) : db := fst (m s).
Definition result_of {A : Type} (m : Tracker A) (s : db) : outcome A := snd (m s).

(** ** Categories *)

Definition category_names (s : db) : list string := map category_name (categories s).

Definition category_triple (c : category) : string * kind * string :=
  (category_name c, category_type c, category_color c).

(** The category with a given id, if there is one. *)
Definition category_of (s : db) (id : Z) : option category :=
  find (fun c => category_id c =? id) (categories s).

(** Category ids are a primary key. *)
Definition category_ids_unique (s : db) : Prop := NoDup (map category_id (categories s)).

(** ** Appending a transaction *)

(** The row that [add_transaction] appends to the ledger. *)
Definition new_transaction (clk : clock) (amount : Float.float) (description : string)
    (category_id : Z) (date : option string) (payment_method location tags : string)
    (s : db) : transaction :=
  mktransaction
    (Sql.next_rowid (seq_transactions (sqlite_sequence s))
                    (map transaction_id (transactions s)))
    (Sql.store_real amount) description category_id
    (match date with
     | None => datetime.isoformat (today clk)
     | Some d => d
     end)
    payment_method location tags false None (current_timestamp clk).

(** The database once the row is in and committed. *)
Definition with_new_transaction (s : db) (t : transaction) : db :=
  set_transactions s (transactions s ++ [t])%list (transaction_id t).

(** The signed posting of an amount to a balance. *)
Definition post (k : kind) (balance : Sql.real) (amount : Float.float) : Sql.real :=
  match k with
  | income => Sql.add balance (Some amount)
  | expense => Sql.sub balance (Some amount)
  end.

Definition post_to (id : Z) (k : kind) (amount : Float.float) (a : account) : account :=
  if account_id a =? id
  then with_balance a (post k (account_balance a) amount)
  else a.

(** Two states of one account: everything but the balance is the same. *)
Definition same_account (a a' : account) : Prop :=
  account_id a' = account_id a /\ account_name a' = account_name a /\
  account_type a' = account_type a /\ account_currency a' = account_currency a /\
  account_bank a' = account_bank a /\ account_created_at a' = account_created_at a.

(** An account before and after a posting to the account of id [p]: the
    balance of the account of that id has moved by the amount, and nothing
    else is different. *)
Definition posted (p : Z) (k : kind) (amount : Float.float) (a a' : account) : Prop :=
  same_account a a' /\
  account_balance a'
  = (if account_id a =? p
     then match k with
          | income => Sql.add (account_balance a) (Some amount)
          | expense => Sql.sub (account_balance a) (Some amount)
          end
     else account_balance a).

(** The database after an append to a category of kind [k] that succeeded:
    the row is in, and the amount is posted if there is an account. *)
Definition appended (k : kind) (amount : Float.float) (s : db) (t : transaction) : db :=
  match fetchone (select_primary_account s) with
  | Some p => set_accounts (with_new_transaction s t)
                           (map (post_to p k amount) (accounts s))
  | None => with_new_transaction s t
  end.

(** The account that the postings go to: one whose name is the least of
    all. *)
Definition least_name (s : db) (p : account) : Prop :=
  In p (accounts s) /\
  forall a, In a (accounts s) -> Sql.text_leb (account_name p) (account_name a) = true.

(** ** Queries *)

(** An optional filter: no argument, or one that Python takes for false,
    lets every row through. *)
Definition optional {P : Type} (truth : P -> bool) (param : option P) (cond : P -> bool)
  : bool :=
  match param with
  | Some p => if truth p then cond p else true
  | None => true
  end.

(** The dates and integers for which the reads are stated.  The dates of
    the ledger, of the budgets and of the goals are texts [YYYY-MM-DD],
    which SQLite keeps and compares as texts; a date argument is such a
    text, or absent or empty; an integer argument is within SQLite's
    integers or absent. *)
Definition ledger_dates (s : db) : bool :=
  forallb (fun t => Sql.iso_date (transaction_date t)) (transactions s).

Definition budget_dates (s : db) : bool :=
  forallb (fun b => Sql.iso_date (budget_start_date b) && Sql.iso_date (budget_end_date b))
          (budgets s).

Definition goal_dates (s : db) : bool :=
  forallb (fun g => match goal_target_date g with
                    | Some d => Sql.iso_date d
                    | None => true
                    end)
          (goals s).

Definition date_argument (d : option string) : bool :=
  match d with
  | Some x => negb (str_true x) || Sql.iso_date x
  | None => true
  end.

Definition int_argument (z : option Z) : bool :=
  match z with
  | Some n => Sql.int64 n
  | None => true
  end.

(** The rows a query is after: the conjunction of its optional filters. *)
Definition matching (start_date end_date : option string) (category_id : option Z)
    (r : transaction * category) : bool :=
  optional str_true start_date (fun d => Sql.text_leb d (transaction_date (fst r)))
  && optional str_true end_date (fun d => Sql.text_leb (transaction_date (fst r)) d)
  && optional int_true category_id (fun id => transaction_category_id (fst r) =? id).

(** ** Budgets *)

(** The ledger amounts that count for a category name in a window: those of
    the transactions whose category has that name and whose date lies in
    [[start_date, end_date]], in ledger order. *)
Definition ledger_amounts (name start_date end_date : string) (s : db) : list Float.float :=
  map transaction_amount
      (filter (fun t => match category_of s (transaction_category_id t) with
                        | Some c => String.eqb (category_name c) name
                                    && Sql.between (transaction_date t) start_date end_date
                        | None => false
                        end)
              (transactions s)).

(** A budget counts while its end date has not passed. *)
Definition active (clk : clock) (b : budget) : bool :=
  Sql.text_leb (sql_date_now clk) (budget_end_date b).

(** The status the budget [b] of the category [c] is to have. *)
Definition expected_status (s : db) (b : budget) (c : category) : budget_status :=
  let amount := budget_amount b in
  let spent :=
    Sql.coalesce_sum
      (ledger_amounts (category_name c) (budget_start_date b) (budget_end_date b) s) in
  let percentage :=
    if Float.ltb Float.zero amount
    then Float.mul (Float.div spent amount) hundred
    else Float.zero in
  mkstatus (category_name c) amount spent (Float.sub amount spent) percentage
           (Float.leb (Float.mul (budget_alert_threshold b) hundred) percentage)
           (budget_period b).

(** ** Goals *)

(** The row that [add_goal] appends to the goals. *)
Definition new_goal (clk : clock) (name : string) (target_amount : Float.float)
    (target_date : option string) (description : string) (priority : Z) (s : db) : goal :=
  mkgoal (Sql.next_rowid (seq_goals (sqlite_sequence s)) (map goal_id (goals s)))
         name (Sql.store_real target_amount) (Some Float.zero) target_date description
         priority false (current_timestamp clk).

(** The goal after a progress update of [amount]: the amount is added, and
    the flag is set when the new amount reaches the target. *)
Definition progressed (amount : Float.float) (g : goal) : goal :=
  let current := Sql.add (goal_current_amount g) (Sql.of_float amount) in
  mkgoal (goal_id g) (goal_name g) (goal_target_amount g) current (goal_target_date g)
         (goal_description g) (goal_priority g)
         (goal_achieved g || Sql.geb current (Some (goal_target_amount g)))
         (goal_created_at g).

Definition progress_of (id : Z) (amount : Float.float) (g : goal) : goal :=
  if goal_id g =? id then progressed amount g else g.

(** ** The calendar *)

(** The Gregorian leap years, and the number of the last day of a month. *)
Definition gregorian_leap (y : Z) : bool :=
  if y mod 400 =? 0 then true else if y mod 100 =? 0 then false else y mod 4 =? 0.

Definition last_calendar_day (year month : Z) : Z :=
  match month with
  | 1 | 3 | 5 | 7 | 8 | 10 | 12 => 31
  | 4 | 6 | 9 | 11 => 30
  | 2 => if gregorian_leap year then 29 else 28
  | _ => 0
  end.

(** The calendar repeats every 400 years: the year of the cycle, and the day
    number of the day before the first of a month, read off one cycle. *)
Definition cycle_year (y : Z) : Z := (y - 1) mod 400 + 1.

Definition cycle_day (r m : Z) : Z :=
  datetime.day
    (datetime.ord2ymd ((datetime.ymd2ord r m 1 - 2) mod datetime.DI400Y + 1)).

Definition months : list Z := [1; 2; 3; 4; 5; 6; 7; 8; 9; 10; 11; 12].

Definition cycle_years : list Z := map Z.of_nat (List.seq 1 400).

(** ** Sample data

    A clock on 15 June 2024 and the database of a new file after
    [init_database] has run. *)

Definition clock0 : clock :=
  mkclock (datetime.mkdate 2024 6 15) "2024-06-15" "2024-06-15 10:00:00".

Definition seeded_db : db := state_after (init_database clock0) empty_db.

(** Two accounts, the first with a balance of 1000. *)
Definition main_account : account :=
  mkaccount 1 "Main" "checking" (Some (Float.of_Z 1000)) "USD" None "2024-06-01 09:00:00".

Definition savings_account : account :=
  mkaccount 2 "Savings" "savings" (Some (Float.of_Z 50)) "USD" None "2024-06-01 09:00:00".

Definition db_with_accounts : db := set_accounts seeded_db [main_account; savings_account].

(** A small ledger: the categories Salary (1) and Food (2) and one expense
    of 300 for Food on 10 June 2024. *)
Definition two_categories_db : db :=
  match (s1 <- insert_category "2024-06-01 09:00:00" ("Salary", income, "#28a745")%string
                               empty_db ;;
         insert_category "2024-06-01 09:00:00" ("Food", expense, "#dc3545")%string s1) with
  | Ok s => s
  | Raise _ => empty_db
  end.

Definition food_db : db :=
  state_after (add_transaction clock0 (Float.of_Z 300) "lunch" 2 (Some "2024-06-10"%string)
                               "cash" blank blank)
              two_categories_db.

(** The same with a salary of 1000 on 1 June 2024. *)
Definition salary_food_db : db :=
  state_after (add_transaction clock0 (Float.of_Z 1000) "salary" 1
                               (Some "2024-06-01"%string) "bank_transfer" blank blank)
              food_db.

(** The ledger with the one expense and a budget for June 2024: 200 for
    Food, -200 for Food, and 200 for a category 7 that does not exist. *)
Definition budget_db : db :=
  state_after (create_budget clock0 2 (Float.of_Z 200) "monthly" "2024-06-01" "2024-06-30")
              food_db.

Definition negative_budget_db : db :=
  state_after (create_budget clock0 2 (Float.of_Z (-200)) "monthly" "2024-06-01" "2024-06-30")
              food_db.

Definition dangling_budget_db : db :=
  state_after (create_budget clock0 7 (Float.of_Z 200) "monthly" "2024-06-01" "2024-06-30")
              food_db.

(** One goal with target 500, then 500 of progress, then -100. *)
Definition goal_db : db :=
  state_after (add_goal clock0 "Vacation" (Float.of_Z 500) None blank 1) empty_db.



(** Two June expenses in two categories. *)
Definition two_expenses_db : db :=
  state_after (add_transaction clock0 (Float.of_Z 40) "bus" 5 (Some "2024-06-12"%string)
                               "card" blank blank)
    (state_after (add_transaction clock0 (Float.of_Z 300) "lunch" 4
                                  (Some "2024-06-10"%string) "cash" blank blank)
                 seeded_db).

(** ** Keys *)

(** Primary keys and the UNIQUE name hold in every table. *)
Definition keys_unique (s : db) : Prop :=
  NoDup (map category_id (categories s)) /\
  NoDup (map category_name (categories s)) /\
  NoDup (map transaction_id (transactions s)) /\
  NoDup (map budget_id (budgets s)) /\
  NoDup (map goal_id (goals s)) /\
  NoDup (map account_id (accounts s)).

(** The row that [create_budget] appends to the budgets. *)
Definition new_budget (clk : clock) (category_id : Z) (amount : Float.float)
    (period start_date end_date : string) (s : db) : budget :=
  mkbudget (Sql.next_rowid (seq_budgets (sqlite_sequence s)) (map budget_id (budgets s)))
           category_id (Sql.store_real amount) period start_date end_date
           default_alert_threshold (current_timestamp clk).

(** A run of progress updates, each a goal id and an amount. *)
Definition record_all (updates : list (Z * Float.float)) (s : db) : db :=
  fold_left (fun s u => state_after (update_goal_progress (fst u) (snd u)) s) updates s.

(** The order of [get_goals]: by priority, then goals without a target date,
    then by target date. *)
Definition goal_before (a b : goal) : Prop :=
  goal_priority a < goal_priority b \/
  (goal_priority a = goal_priority b /\
   match goal_target_date a, goal_target_date b with
   | None, _ => True
   | Some _, None => False
   | Some x, Some y => Sql.text_leb x y = true
   end).

(** Two states of one goal: everything but the current amount and the flag
    is the same, and the flag has not been taken back. *)
Definition same_goal (g g' : goal) : Prop :=
  goal_id g' = goal_id g /\ goal_name g' = goal_name g /\
  goal_target_amount g' = goal_target_amount g /\
  goal_target_date g' = goal_target_date g /\
  goal_description g' = goal_description g /\
  goal_priority g' = goal_priority g /\
  (goal_achieved g = true -> goal_achieved g' = true).

(** The ledger amounts of one kind, all of them or those dated from [since]
    on, in ledger order. *)
Definition kind_amounts (k : kind) (since : option string) (s : db) : list Float.float :=
  map transaction_amount
      (filter (fun t => match category_of s (transaction_category_id t) with
                        | Some c => kind_eqb (category_type c) k
                                    && match since with
                                       | Some d => Sql.text_leb d (transaction_date t)
                                       | None => true
                                       end
                        | None => false
                        end)
              (transactions s)).

(** The figures of a summary by kind. *)
Definition total_of (k : kind) (r : summary) : Float.float :=
  match k with
  | income => total_income r
  | expense => total_expenses r
  end.

Definition monthly_of (k : kind) (r : summary) : Float.float :=
  match k with
  | income => monthly_income r
  | expense => monthly_expenses r
  end.

Definition other_kind (k : kind) : kind :=
  match k with
  | income => expense
  | expense => income
  end.

(** The first day of the month of the clock, as the summary writes it. *)
Definition current_month (clk : clock) : string :=
  datetime.isoformat (datetime.replace_day1 (today clk)).

Definition days : list Z := map Z.of_nat (List.seq 1 31).

(** The total of one kind over the rows of a window, as the report shows
    it: the sum of the rows of the kind, 0 when there is none. *)
Definition window_total (k : kind) (rows : list (transaction * category)) : Sql.real :=
  match filter (fun r => kind_eqb (category_type (snd r)) k) rows with
  | [] => Some Float.zero
  | of_kind => sum_amounts of_kind
  end.

(** The date of a row of [daily_data]. *)
Definition daily_date (row : string * Sql.real * Sql.real) : string := fst (fst row).

(** The first date of a period of [get_category_spending]: the first day
    of the month or of the year of the clock, and 1 January 1900 for every
    other period text. *)
Definition period_start (clk : clock) (period : string) : string :=
  if String.eqb period "monthly"
  then datetime.isoformat (datetime.replace_day1 (today clk))
  else if String.eqb period "yearly"
       then datetime.isoformat (replace_month1_day1 (today clk))
       else "1900-01-01"%string.

(** The transactions of a category dated from [start_date] on, in ledger
    order, and the row that stands for them. *)
Definition dated_since (start_date : string) (s : db) (c : category) : list transaction :=
  filter (fun t => (transaction_category_id t =? category_id c)
                   && Sql.text_leb start_date (transaction_date t))
         (transactions s).

Definition has_spending (start_date : string) (s : db) (c : category) : bool :=
  match dated_since start_date s c with
  | [] => false
  | _ :: _ => true
  end.

Definition spending_of (start_date : string) (s : db) (c : category) : spending_row :=
  mkspending (category_name c) (category_color c)
             (Sql.sum (map transaction_amount (dated_since start_date s c)))
             (category_type c).

(** Descending by total, a total that is NULL last. *)
Definition total_geb (a b : spending_row) : bool :=
  real_geb (spending_total a) (spending_total b).

(** The category that [import_data] creates for a name it does not find,
    and the database with it. *)
Definition imported_category (clk : clock) (name : string) (k : kind) (s : db) : category :=
  mkcategory (Sql.next_rowid (seq_categories (sqlite_sequence s))
                             (map category_id (categories s)))
             name k default_color (Some Float.zero) (current_timestamp clk).

Definition with_imported_category (clk : clock) (name : string) (k : kind) (s : db) : db :=
  set_categories s (categories s ++ [imported_category clk name k s])%list
                 (category_id (imported_category clk name k s)).

(** How the import loop sees a call of [add_transaction]: it goes on after
    a return and stops with what was raised. *)
Definition imported (run : db * outcome Z) : db * option import_error :=
  match run with
  | (s', Ok _) => (s', None)
  | (s', Raise e) => (s', Some (Raised e))
  end.

(** ** More sample data *)

(** A budget of 200 for Food on a ledger without transactions. *)
Definition untouched_budget_db : db :=
  state_after (create_budget clock0 2 (Float.of_Z 200) "monthly" "2024-06-01" "2024-06-30")
              two_categories_db.

(** The report of June 2024 on the ledger with the salary and the lunch. *)
Definition june_report : report :=
  match monthly_report_of 2024 6 salary_food_db with
  | Ok r => r
  | Raise _ => mkreport blank Float.zero Float.zero Float.zero [] [] Float.zero
  end.

(** Three goals: Vacation with priority 2, Laptop with priority 1 and the
    target date 2024-12-31, Car with priority 1 and no target date. *)
Definition three_goals_db : db :=
  state_after (add_goal clock0 "Car" (Float.of_Z 9000) None blank 1)
    (state_after (add_goal clock0 "Laptop" (Float.of_Z 1200) (Some "2024-12-31"%string)
                           blank 1)
       (state_after (add_goal clock0 "Vacation" (Float.of_Z 500) None blank 2) empty_db)).

(** A row of a file with the columns Category, Amount, Description and
    Date, and a reader of amounts that reads the text 12 only. *)
Definition tea_row : csv_row :=
  fun key =>
    if String.eqb key "Category" then Some "Food"%string
    else if String.eqb key "Amount" then Some "12"%string
    else if String.eqb key "Description" then Some "tea"%string
    else if String.eqb key "Date" then Some "2024-06-11"%string
    else None.

(** A row of a file that has all the columns. *)
Definition cafe_row : csv_row :=
  fun key =>
    if String.eqb key "Category" then Some "Food"%string
    else if String.eqb key "Type" then Some "expense"%string
    else if String.eqb key "Amount" then Some "12"%string
    else if String.eqb key "Description" then Some "tea"%string
    else if String.eqb key "Date" then Some "2024-06-11"%string
    else if String.eqb key "Payment Method" then Some "card"%string
    else if String.eqb key "Location" then Some "cafe"%string
    else if String.eqb key "Tags" then Some "drinks"%string
    else None.

Definition read_twelve (text : string) : option Float.float :=
  if String.eqb text "12" then Some (Float.of_Z 12) else None.

Definition read_nothing (text : string) : option Float.float := None.

(** The ledger with the lunch and then a bus fare of 40 booked on Food, on
    the day of the clock. *)
Definition two_expenses_in_food_db : db :=
  state_after (add_transaction clock0 (Float.of_Z 40) "bus" 2 None "card" blank blank)
              food_db.

(** * Properties *)

(** Conjunctions of closed equations are settled by evaluating both sides. *)
Ltac by_evaluation :=
  repeat match goal with
         | |- _ /\ _ => split
         end;
  vm_compute; reflexivity.

(** ** Numbers, texts and dates *)

Example fmt_examples :
  fmt_0d 2 5 = "05"%string /\ fmt_0d 2 12 = "12"%string /\
  fmt_0d 2 (-5) = "-5"%string /\ fmt_0d 3 (-5) = "-05"%string /\
  str_of_Z 2024 = "2024"%string /\ str_of_Z 0 = "0"%string /\
  fmt_0d 2 0 = "00"%string /\ str_of_Z (-7) = "-7"%string.
Proof. by_evaluation. Qed.

Example ordinal_examples :
  datetime.ymd2ord 1 1 1 = 1 /\
  datetime.ymd2ord 9999 12 31 = datetime.MAXORDINAL /\
  datetime.ord2ymd 1 = datetime.mkdate 1 1 1 /\
  datetime.ord2ymd datetime.MAXORDINAL = datetime.mkdate 9999 12 31 /\
  datetime.ord2ymd (datetime.ymd2ord 2024 2 29) = datetime.mkdate 2024 2 29 /\
  datetime.ord2ymd (datetime.ymd2ord 2024 12 31) = datetime.mkdate 2024 12 31 /\
  datetime.isoformat (datetime.mkdate 2024 3 1) = "2024-03-01"%string.
Proof. by_evaluation. Qed.

Example float_examples :
  Float.mul (Float.div (Float.of_Z 300) (Float.of_Z 200)) hundred = Float.of_Z 150 /\
  Float.sub (Float.of_Z 200) (Float.of_Z 300) = Float.of_Z (-100) /\
  Float.mul default_alert_threshold hundred = Float.of_Z 80 /\
  Float.sub Float.zero Float.zero = Float.zero /\
  Float.of_Z 0 = Float.zero.
Proof. by_evaluation. Qed.

Lemma leb_not_nan (x y : Float.float) : Float.leb x y = true -> Float.is_nan x = false.
Proof. destruct x; simpl; intros H; try reflexivity. discriminate H. Qed.

Lemma ltb_not_nan_r (x y : Float.float) : Float.ltb x y = true -> Float.is_nan y = false.
Proof.
  destruct y; simpl; intros H; try reflexivity.
  destruct x; discriminate H.
Qed.

Lemma ltb_zero_not_zero (y : Float.float) :
  Float.ltb Float.zero y = true -> Float.is_zero y = false.
Proof. destruct y; simpl; intros H; try reflexivity. discriminate H. Qed.

Lemma of_float_number (x : Float.float) :
  Float.is_nan x = false -> Sql.of_float x = Some x.
Proof. unfold Sql.of_float. intros ->. reflexivity. Qed.

(** ** Text order *)

Lemma ascii_compare_lt (a b : ascii) :
  Ascii.compare a b = Lt <-> (N_of_ascii a < N_of_ascii b)%N.
Proof. unfold Ascii.compare. apply N.compare_lt_iff. Qed.

Lemma ascii_compare_gt (a b : ascii) :
  Ascii.compare a b = Gt <-> (N_of_ascii b < N_of_ascii a)%N.
Proof. unfold Ascii.compare. apply N.compare_gt_iff. Qed.

Lemma ascii_compare_eq (a b : ascii) : Ascii.compare a b = Eq <-> a = b.
Proof.
  split; [apply Ascii.compare_eq_iff |].
  intros ->. unfold Ascii.compare. apply N.compare_refl.
Qed.

Lemma text_leb_refl (a : string) : Sql.text_leb a a = true.
Proof.
  unfold Sql.text_leb. destruct (String.leb_total a a); assumption.
Qed.

Lemma text_leb_total (a b : string) : Sql.text_leb a b = false -> Sql.text_leb b a = true.
Proof.
  intros H. destruct (String.leb_total a b) as [Hab | Hba]; [| exact Hba].
  unfold Sql.text_leb in H. congruence.
Qed.

Lemma text_leb_trans (a b c : string) :
  Sql.text_leb a b = true -> Sql.text_leb b c = true -> Sql.text_leb a c = true.
Proof.
  unfold Sql.text_leb, String.leb. revert b c.
  induction a as [| x a IH]; intros [| y b] [| z c]; simpl; try congruence.
  destruct (Ascii.compare x y) eqn:Hxy; try congruence;
    destruct (Ascii.compare y z) eqn:Hyz; try congruence; intros Hab Hbc.
  - apply ascii_compare_eq in Hxy. apply ascii_compare_eq in Hyz. subst.
    replace (Ascii.compare z z) with Eq by (symmetry; apply ascii_compare_eq; reflexivity).
    exact (IH b c Hab Hbc).
  - apply ascii_compare_eq in Hxy. subst. rewrite Hyz. reflexivity.
  - apply ascii_compare_eq in Hyz. subst. rewrite Hxy. reflexivity.
  - assert (Hxy' : (N_of_ascii x < N_of_ascii y)%N) by (apply ascii_compare_lt; exact Hxy).
    assert (Hyz' : (N_of_ascii y < N_of_ascii z)%N) by (apply ascii_compare_lt; exact Hyz).
    replace (Ascii.compare x z) with Lt; [reflexivity |].
    symmetry. apply ascii_compare_lt. lia.
Qed.

(** ** ORDER BY sorts *)

Section OrderBy.

Context {A : Type} (leb : A -> A -> bool).
Hypothesis leb_total : forall a b, leb a b = false -> leb b a = true.

Lemma insert_row_hd (x : A) (rows : list A) (R : A -> A -> Prop) (a : A) :
  R a x -> HdRel R a rows -> HdRel R a (Sql.insert_row leb x rows).
Proof.
  intros Hx Hrows. destruct rows as [| y rows]; simpl.
  - constructor. exact Hx.
  - destruct (leb x y); constructor; [exact Hx |].
    inversion Hrows. assumption.
Qed.

Lemma insert_row_sorted (x : A) (rows : list A) :
  Sorted (fun a b => leb a b = true) rows ->
  Sorted (fun a b => leb a b = true) (Sql.insert_row leb x rows).
Proof.
  induction rows as [| y rows IH]; simpl; intros Hs.
  - repeat constructor.
  - destruct (leb x y) eqn:Hxy.
    + constructor; [exact Hs |]. constructor. exact Hxy.
    + inversion Hs as [| ? ? Hrows Hhd]. subst.
      constructor; [apply IH; exact Hrows |].
      apply insert_row_hd; [apply leb_total; exact Hxy | exact Hhd].
Qed.

Lemma order_by_sorted (rows : list A) :
  Sorted (fun a b => leb a b = true) (Sql.order_by leb rows).
Proof.
  unfold Sql.order_by. induction rows as [| x rows IH]; simpl.
  - constructor.
  - apply insert_row_sorted. exact IH.
Qed.

End OrderBy.

Lemma Sorted_map {A B : Type} (f : A -> B) (R : A -> A -> Prop) (Q : B -> B -> Prop)
    (l : list A) :
  (forall a b, R a b -> Q (f a) (f b)) -> Sorted R l -> Sorted Q (map f l).
Proof.
  intros H Hs. induction Hs as [| a l Hs IH Hhd]; simpl; constructor; [exact IH |].
  destruct Hhd; simpl; constructor. apply H. assumption.
Qed.

Lemma StronglySorted_firstn {A : Type} (R : A -> A -> Prop) (n : nat) (l : list A) :
  StronglySorted R l -> StronglySorted R (firstn n l).
Proof.
  revert l. induction n as [| n IH]; intros l Hs; simpl; [constructor |].
  destruct l as [| a l]; [constructor |].
  inversion Hs as [| ? ? Hl Hall]. subst.
  constructor; [apply IH; exact Hl |].
  rewrite Forall_forall in *. intros x Hx. apply Hall.
  rewrite <- (firstn_skipn n l). apply in_or_app. left. exact Hx.
Qed.

(** ** ORDER BY keeps the rows *)

Lemma insert_row_perm {A : Type} (leb : A -> A -> bool) (x : A) (rows : list A) :
  Permutation (Sql.insert_row leb x rows) (x :: rows).
Proof.
  induction rows as [| y rows IH]; simpl; [reflexivity |].
  destruct (leb x y); [reflexivity |].
  rewrite IH. apply perm_swap.
Qed.

Lemma order_by_perm {A : Type} (leb : A -> A -> bool) (rows : list A) :
  Permutation (Sql.order_by leb rows) rows.
Proof.
  unfold Sql.order_by.
  induction rows as [| x rows IH]; simpl; [reflexivity |].
  rewrite insert_row_perm. constructor. exact IH.
Qed.

(** ** C1: balance summary *)

Lemma get_balance_summary_eq (clk : clock) (s : db) :
  get_balance_summary clk s =
  (s, Ok (let current_month := datetime.isoformat (datetime.replace_day1 (today clk)) in
          mksummary (select_total income s) (select_total expense s)
                    (Float.sub (select_total income s) (select_total expense s))
                    (select_total_since income current_month s)
                    (select_total_since expense current_month s)
                    (Float.sub (select_total_since income current_month s)
                               (select_total_since expense current_month s)))).
Proof. reflexivity. Qed.

Lemma join_categories_no_transactions (s : db) :
  transactions s = [] -> join_categories s = [].
Proof. unfold join_categories. intros ->. reflexivity. Qed.

(** C1.  In every state of the database, the empty ledger included,
    [get_balance_summary] returns (it raises nothing, and it holds no
    division) a summary whose net worth is the total income minus the total
    expenses and whose monthly savings are the monthly income minus the
    monthly expenses; the totals are the sums of the ledger by category
    kind.  With no transaction in the ledger all six fields are 0. *)
Theorem balance_summary_net_worth :
  (forall (clk : clock) (s : db),
      exists r : summary,
        get_balance_summary clk s = (s, Ok r) /\
        net_worth r = Float.sub (total_income r) (total_expenses r) /\
        monthly_savings r = Float.sub (monthly_income r) (monthly_expenses r) /\
        total_income r = select_total income s /\
        total_expenses r = select_total expense s) /\
  (forall (clk : clock) (cs : list category) (bs : list budget) (gs : list goal)
          (acs : list account) (sq : sequence),
      get_balance_summary clk (mkdb cs [] bs gs acs sq) =
      (mkdb cs [] bs gs acs sq,
       Ok (mksummary Float.zero Float.zero Float.zero Float.zero Float.zero Float.zero))).
Proof.
  split.
  - intros clk s. rewrite get_balance_summary_eq.
    eexists. split; [reflexivity |]. cbn. repeat split; reflexivity.
  - intros clk cs bs gs acs sq. rewrite get_balance_summary_eq.
    unfold select_total, select_total_since.
    rewrite join_categories_no_transactions by reflexivity.
    reflexivity.
Qed.

Example balance_summary_scenario :
  result_of (get_balance_summary clock0) salary_food_db
  = Ok (mksummary (Float.of_Z 1000) (Float.of_Z 300) (Float.of_Z 700)
                  (Float.of_Z 1000) (Float.of_Z 300) (Float.of_Z 700)).
Proof. by_evaluation. Qed.

(** ** C9: default categories *)

Lemma default_names_NoDup : NoDup (map (fun p => fst (fst p)) default_categories).
Proof.
  assert (H : nodup string_dec (map (fun p => fst (fst p)) default_categories)
              = map (fun p : string * kind * string => fst (fst p)) default_categories)
    by (vm_compute; reflexivity).
  rewrite <- H. apply NoDup_nodup.
Qed.

Lemma populate_nonempty (clk : clock) (s : db) :
  categories s <> [] -> populate_default_categories clk s = (s, Ok tt).
Proof.
  intros H. unfold populate_default_categories, and_then, query, count_categories.
  destruct (categories s) as [| c cs] eqn:E; [contradiction |].
  reflexivity.
Qed.

Lemma name_taken_false (name : string) (cs : list category) :
  ~ In name (map category_name cs) ->
  existsb (fun c => String.eqb (category_name c) name) cs = false.
Proof.
  induction cs as [| c cs IH]; simpl; intros H; [reflexivity |].
  destruct (String.eqb_spec (category_name c) name) as [Heq | Hne].
  - exfalso. apply H. left. exact Heq.
  - simpl. apply IH. intros Hin. apply H. right. exact Hin.
Qed.

Lemma insert_category_fresh (now : string) (p : string * kind * string) (s : db) :
  ~ In (fst (fst p)) (category_names s) ->
  exists s', insert_category now p s = Ok s' /\
             map category_triple (categories s')
             = (map category_triple (categories s) ++ [p])%list /\
             transactions s' = transactions s /\ budgets s' = budgets s /\
             goals s' = goals s /\ accounts s' = accounts s.
Proof.
  destruct p as [[name type] color]. simpl. intros Hfresh.
  unfold insert_category. rewrite (name_taken_false name (categories s) Hfresh).
  eexists. split; [reflexivity |]. simpl.
  rewrite map_app. simpl. repeat split; reflexivity.
Qed.

(** [executemany] of the category insert over rows with fresh, pairwise
    distinct names appends the rows and fails nowhere. *)
Lemma executemany_insert_category (now : string) (ps : list (string * kind * string)) :
  forall s : db,
    NoDup (map (fun p => fst (fst p)) ps) ->
    (forall p, In p ps -> ~ In (fst (fst p)) (category_names s)) ->
    exists s', executemany (insert_category now) ps s = (s', Ok tt) /\
               map category_triple (categories s')
               = (map category_triple (categories s) ++ ps)%list /\
               transactions s' = transactions s /\ budgets s' = budgets s /\
               goals s' = goals s /\ accounts s' = accounts s.
Proof.
  induction ps as [| p ps IH]; intros s Hnd Hfresh.
  - exists s. simpl. rewrite app_nil_r. repeat split; reflexivity.
  - simpl in Hnd. apply NoDup_cons_iff in Hnd. destruct Hnd as [Hp Hnd].
    destruct (insert_category_fresh now p s (Hfresh p (or_introl eq_refl)))
      as (s1 & Hins & Hcats & Ht & Hb & Hg & Ha).
    destruct (IH s1 Hnd) as (s2 & Hrun & Hcats2 & Ht2 & Hb2 & Hg2 & Ha2).
    + intros q Hq Hin. unfold category_names in Hin.
      assert (Hin' : In (fst (fst q)) (map (fun x => fst (fst x))
                                           (map category_triple (categories s1)))).
      { rewrite map_map. exact Hin. }
      rewrite Hcats, map_app, in_app_iff in Hin'. destruct Hin' as [Hin' | Hin'].
      * rewrite map_map in Hin'. exact (Hfresh q (or_intror Hq) Hin').
      * simpl in Hin'. destruct Hin' as [Heq | []].
        apply Hp. rewrite Heq.
        exact (in_map (fun x : string * kind * string => fst (fst x)) ps q Hq).
    + exists s2. simpl. unfold and_then, execute. rewrite Hins. rewrite Hrun.
      rewrite Hcats2, Hcats, <- app_assoc. simpl.
      repeat split; congruence.
Qed.

Lemma populate_empty (clk : clock) (s : db) :
  categories s = [] ->
  exists s', populate_default_categories clk s = (s', Ok tt) /\
             map category_triple (categories s') = default_categories /\
             transactions s' = transactions s /\ budgets s' = budgets s /\
             goals s' = goals s /\ accounts s' = accounts s.
Proof.
  intros E.
  destruct (executemany_insert_category (current_timestamp clk) default_categories s
              default_names_NoDup) as (s' & Hrun & Hcats & Hrest).
  - intros p _. unfold category_names. rewrite E. simpl. tauto.
  - exists s'. unfold populate_default_categories, and_then, query, count_categories.
    rewrite E. cbn [List.length Z.of_nat Z.eqb]. rewrite Hrun.
    rewrite Hcats, E.
    split; [reflexivity |]. split; [reflexivity |]. exact Hrest.
Qed.

(** C9.  [populate_default_categories] never fails.  On a database with no
    category it inserts the ten default categories, in their order, and
    touches no other table; on a database with a category it changes
    nothing.  So a second run is always a no-op, and running it twice
    leaves category names without duplicates whenever they were so
    before. *)
Theorem populate_default_categories_idempotent (clk clk' : clock) (s : db) :
  result_of (populate_default_categories clk) s = Ok tt /\
  (categories s = [] ->
   map category_triple (categories (state_after (populate_default_categories clk) s))
   = default_categories) /\
  (categories s <> [] -> state_after (populate_default_categories clk) s = s) /\
  populate_default_categories clk' (state_after (populate_default_categories clk) s)
  = (state_after (populate_default_categories clk) s, Ok tt) /\
  (NoDup (category_names s) ->
   NoDup (category_names
            (state_after (populate_default_categories clk')
               (state_after (populate_default_categories clk) s)))).
Proof.
  unfold result_of, state_after.
  destruct (categories s) as [| c cs] eqn:E.
  - destruct (populate_empty clk s E) as (s' & Hrun & Hcats & _).
    rewrite Hrun. simpl.
    assert (Hne : categories s' <> []).
    { intros Hnil. rewrite Hnil in Hcats. discriminate Hcats. }
    rewrite (populate_nonempty clk' s' Hne). simpl.
    split; [reflexivity |]. split; [intros _; exact Hcats |].
    split; [intros Hc; congruence |]. split; [reflexivity |].
    intros _. unfold category_names.
    replace (map category_name (categories s'))
      with (map (fun p : string * kind * string => fst (fst p))
                (map category_triple (categories s')))
      by (rewrite map_map; reflexivity).
    rewrite Hcats. apply default_names_NoDup.
  - assert (Hne : categories s <> []) by (rewrite E; discriminate).
    rewrite (populate_nonempty clk s Hne). simpl.
    rewrite (populate_nonempty clk' s Hne). simpl.
    split; [reflexivity |]. split; [intros Hc; congruence |].
    split; [reflexivity |]. split; [reflexivity |].
    intros H; exact H.
Qed.

Lemma populate_default_categories_idempotent_witness :
  state_after (populate_default_categories clock0) seeded_db = seeded_db /\
  NoDup (category_names
           (state_after (populate_default_categories clock0)
              (state_after (populate_default_categories clock0) empty_db))).
Proof.
  split.
  - apply (populate_default_categories_idempotent clock0 clock0 seeded_db).
    vm_compute. discriminate.
  - apply (populate_default_categories_idempotent clock0 clock0 empty_db).
    vm_compute. constructor.
Defined.

(** ** C2, C3, C4: appending a transaction *)

Lemma store_real_number (x : Float.float) :
  Float.is_nan x = false -> Float.is_nan (Sql.store_real x) = false.
Proof. destruct x; intros H; try reflexivity. discriminate H. Qed.

Lemma store_real_not_zero (x : Float.float) :
  Float.is_zero x = false -> Sql.store_real x = x.
Proof. destruct x; intros H; try reflexivity. discriminate H. Qed.

Lemma store_real_leb (x y : Float.float) :
  Float.leb (Sql.store_real x) y = Float.leb x y.
Proof. destruct x as [[|] | | |]; reflexivity. Qed.

Lemma primary_account_none (s : db) :
  accounts s = [] -> fetchone (select_primary_account s) = None.
Proof. unfold select_primary_account. intros ->. reflexivity. Qed.

Lemma primary_account_least (s : db) :
  accounts s <> [] ->
  exists p : account,
    least_name s p /\ fetchone (select_primary_account s) = Some (account_id p).
Proof.
  intros Hany. unfold select_primary_account, least_name.
  pose proof (order_by_perm by_name (accounts s)) as Hperm.
  pose proof (order_by_sorted by_name (fun a b => text_leb_total _ _) (accounts s))
    as Hsorted.
  destruct (Sql.order_by by_name (accounts s)) as [| p rest].
  - exfalso. apply Hany. apply Permutation_nil. exact Hperm.
  - exists p. split; [| reflexivity]. split.
    + apply (Permutation_in _ Hperm). left. reflexivity.
    + intros a Ha.
      apply (Permutation_in _ (Permutation_sym Hperm)) in Ha.
      destruct Ha as [<- | Ha]; [apply text_leb_refl |].
      apply Sorted_StronglySorted in Hsorted;
        [| intros x y z Hxy Hyz; exact (text_leb_trans _ _ _ Hxy Hyz)].
      inversion Hsorted as [| ? ? _ Hall]. subst.
      rewrite Forall_forall in Hall. exact (Hall a Ha).
Qed.

Lemma post_to_posted (p : Z) (k : kind) (amount : Float.float) (a : account) :
  posted p k amount a (post_to p k amount a).
Proof.
  unfold posted, same_account, post_to, post.
  destruct (account_id a =? p); destruct k; cbn; repeat split; reflexivity.
Qed.

Lemma map_post_to_posted (p : Z) (k : kind) (amount : Float.float) (acs : list account) :
  Forall2 (posted p k amount) acs (map (post_to p k amount) acs).
Proof.
  induction acs as [| a acs IH]; constructor; [apply post_to_posted | exact IH].
Qed.

Lemma update_balance_after_transaction_eq (amount : Float.float) (category_id : Z)
    (k : kind) (s : db) :
  Sql.int64 category_id = true ->
  Float.is_nan amount = false ->
  fetchone (select_category_type category_id s) = Some k ->
  update_balance_after_transaction amount category_id s
  = (match fetchone (select_primary_account s) with
     | Some p => set_accounts s (map (post_to p k amount) (accounts s))
     | None => s
     end,
     Ok tt).
Proof.
  intros Hid Hnum Hcat.
  unfold update_balance_after_transaction. rewrite Hid. cbn [negb].
  cbv beta iota delta [and_then query].
  rewrite Hcat. cbv beta iota delta [subscript ret].
  destruct (fetchone (select_primary_account s)) as [p |]; [| reflexivity].
  destruct k; unfold execute, update_balance, post_to, post;
    rewrite (of_float_number amount Hnum); reflexivity.
Qed.

Section AddTransaction.

Variables (clk : clock) (amount : Float.float) (description : string) (category_id : Z).
Variables (date : option string) (payment_method location tags : string).
Variable s : db.

Let t : transaction :=
  new_transaction clk amount description category_id date payment_method location tags s.

Lemma add_transaction_out_of_range :
  Sql.int64 category_id = false ->
  add_transaction clk amount description category_id date payment_method location tags s
  = (s, Raise OverflowError).
Proof.
  intros Hid. unfold add_transaction, and_then, execute, insert_transaction.
  rewrite Hid. reflexivity.
Qed.

Lemma add_transaction_not_a_number :
  Sql.int64 category_id = true ->
  Float.is_nan amount = true ->
  add_transaction clk amount description category_id date payment_method location tags s
  = (s, Raise IntegrityError).
Proof.
  intros Hid Hnan.
  unfold add_transaction, and_then, execute, insert_transaction, Sql.of_float.
  rewrite Hid, Hnan. reflexivity.
Qed.

Lemma add_transaction_eq :
  Sql.int64 category_id = true ->
  Float.is_nan amount = false ->
  add_transaction clk amount description category_id date payment_method location tags s
  = match update_balance_after_transaction amount category_id (with_new_transaction s t) with
    | (s', Ok _) => (s', Ok (transaction_id t))
    | (s', Raise e) => (s', Raise e)
    end.
Proof.
  intros Hid Hnum.
  unfold add_transaction, and_then, execute, insert_transaction, query.
  rewrite Hid, (of_float_number amount Hnum). reflexivity.
Qed.

Lemma add_transaction_unknown_category :
  Sql.int64 category_id = true ->
  Float.is_nan amount = false ->
  select_category_type category_id s = [] ->
  add_transaction clk amount description category_id date payment_method location tags s
  = (with_new_transaction s t, Raise TypeError).
Proof.
  intros Hid Hnum Hcat. rewrite (add_transaction_eq Hid Hnum).
  unfold update_balance_after_transaction. rewrite Hid. cbn [negb].
  cbv beta iota delta [and_then query].
  change (select_category_type category_id (with_new_transaction s t))
    with (select_category_type category_id s).
  rewrite Hcat. reflexivity.
Qed.

Lemma add_transaction_known_category (k : kind) :
  Sql.int64 category_id = true ->
  Float.is_nan amount = false ->
  fetchone (select_category_type category_id s) = Some k ->
  add_transaction clk amount description category_id date payment_method location tags s
  = (appended k amount s t, Ok (transaction_id t)).
Proof.
  intros Hid Hnum Hcat. rewrite (add_transaction_eq Hid Hnum).
  rewrite (update_balance_after_transaction_eq amount category_id k
             (with_new_transaction s t) Hid Hnum Hcat).
  unfold appended.
  change (select_primary_account (with_new_transaction s t))
    with (select_primary_account s).
  destruct (fetchone (select_primary_account s)); reflexivity.
Qed.

End AddTransaction.

Lemma appended_tables (k : kind) (amount : Float.float) (s : db) (t : transaction) :
  transactions (appended k amount s t) = (transactions s ++ [t])%list /\
  categories (appended k amount s t) = categories s /\
  budgets (appended k amount s t) = budgets s /\
  goals (appended k amount s t) = goals s.
Proof.
  unfold appended. destruct (fetchone (select_primary_account s)); repeat split; reflexivity.
Qed.

Lemma posted_same_account (p : Z) (k : kind) (amount : Float.float) (acs acs' : list account) :
  Forall2 (posted p k amount) acs acs' -> Forall2 same_account acs acs'.
Proof.
  intros H. induction H as [| a a' acs acs' [Hsame _] _ IH]; constructor; assumption.
Qed.

Lemma same_account_ids (acs acs' : list account) :
  Forall2 same_account acs acs' -> map account_id acs' = map account_id acs.
Proof.
  intros H. induction H as [| a a' acs acs' (Hid & _) _ IH]; [reflexivity |].
  cbn [map]. rewrite Hid, IH. reflexivity.
Qed.

Lemma same_account_refl (acs : list account) : Forall2 same_account acs acs.
Proof.
  induction acs as [| a acs IH]; constructor; [| exact IH].
  unfold same_account. repeat split; reflexivity.
Qed.

Lemma appended_accounts (k : kind) (amount : Float.float) (s : db) (t : transaction) :
  (accounts s = [] /\ accounts (appended k amount s t) = []) \/
  (exists p : account,
      least_name s p /\
      Forall2 (posted (account_id p) k amount) (accounts s)
              (accounts (appended k amount s t))).
Proof.
  unfold appended. destruct (accounts s) as [| a rest] eqn:Ha.
  - left. split; [reflexivity |].
    rewrite (primary_account_none s Ha). cbn. exact Ha.
  - right.
    destruct (primary_account_least s) as (p & Hleast & Hp);
      [rewrite Ha; discriminate |].
    exists p. split; [exact Hleast |].
    rewrite Hp. cbn [accounts set_accounts].
    apply map_post_to_posted.
Qed.

(** C2, the claim fails.  On the seeded database an append with amount -5,
    and one with amount 0, to the existing category 1 raise nothing: both
    return the new id and the ledger holds the row with that amount. *)
Lemma add_transaction_nonpositive_amount_stored :
  Float.leb (Float.of_Z (-5)) Float.zero = true /\
  add_transaction clock0 (Float.of_Z (-5)) "refund" 1 None "cash" blank blank seeded_db
  = (with_new_transaction seeded_db
       (mktransaction 1 (Float.of_Z (-5)) "refund" 1 "2024-06-15" "cash" blank blank false None
                      "2024-06-15 10:00:00"),
     Ok 1) /\
  Float.leb Float.zero Float.zero = true /\
  add_transaction clock0 Float.zero "nothing" 1 None "cash" blank blank seeded_db
  = (with_new_transaction seeded_db
       (mktransaction 1 Float.zero "nothing" 1 "2024-06-15" "cash" blank blank false None
                      "2024-06-15 10:00:00"),
     Ok 1).
Proof. by_evaluation. Qed.

(** C2, amended.  [add_transaction] holds no check of the amount: for every
    amount that is zero or negative and every category id that resolves,
    the call raises nothing, returns the id of the new row, and the ledger
    afterwards is the ledger before followed by one new row with that id,
    the description and the category id given, and the amount as a REAL
    column holds it: the amount given, or 0.0 for the amount -0.0.  The
    stored amount is zero or negative as well. *)
Theorem add_transaction_accepts_nonpositive_amount
    (clk : clock) (amount : Float.float) (description : string) (category_id : Z)
    (date : option string) (payment_method location tags : string) (s : db) (k : kind) :
  Float.leb amount Float.zero = true ->
  Sql.int64 category_id = true ->
  fetchone (select_category_type category_id s) = Some k ->
  exists (s' : db) (t : transaction),
    add_transaction clk amount description category_id date payment_method location tags s
    = (s', Ok (transaction_id t)) /\
    transactions s' = (transactions s ++ [t])%list /\
    transaction_description t = description /\
    transaction_category_id t = category_id /\
    transaction_amount t = Sql.store_real amount /\
    (Float.is_zero amount = false -> transaction_amount t = amount) /\
    (Float.is_zero amount = true -> transaction_amount t = Float.zero) /\
    Float.leb (transaction_amount t) Float.zero = true.
Proof.
  intros Hle Hid Hcat.
  pose proof (leb_not_nan amount Float.zero Hle) as Hnum.
  rewrite (add_transaction_known_category clk amount description category_id date
             payment_method location tags s k Hid Hnum Hcat).
  eexists. eexists. split; [reflexivity |].
  split; [apply appended_tables |].
  cbn [new_transaction transaction_description transaction_category_id transaction_amount].
  split; [reflexivity |]. split; [reflexivity |]. split; [reflexivity |].
  split; [apply store_real_not_zero |].
  split; [destruct amount; intros H; try discriminate H; reflexivity |].
  rewrite store_real_leb. exact Hle.
Qed.

Lemma add_transaction_accepts_nonpositive_amount_witness :
  exists s' : db,
    add_transaction clock0 (Float.of_Z (-5)) "refund" 1 None "cash" blank blank seeded_db
    = (s', Ok 1) /\
    map transaction_amount (transactions s') = [Float.of_Z (-5)].
Proof.
  assert (Hle : Float.leb (Float.of_Z (-5)) Float.zero = true) by (vm_compute; reflexivity).
  assert (Hid : Sql.int64 1 = true) by reflexivity.
  assert (Hcat : fetchone (select_category_type 1 seeded_db) = Some income)
    by (vm_compute; reflexivity).
  destruct (add_transaction_accepts_nonpositive_amount clock0 (Float.of_Z (-5)) "refund" 1
              None "cash" blank blank seeded_db income Hle Hid Hcat)
    as (s' & t & Hrun & Hts & _ & _ & Hamount & _).
  exists s'. split.
  - rewrite Hrun. f_equal. f_equal.
    assert (E : snd (add_transaction clock0 (Float.of_Z (-5)) "refund" 1 None "cash"
                                     blank blank seeded_db) = Ok 1)
      by (vm_compute; reflexivity).
    rewrite Hrun in E. cbn [snd] in E. injection E as E. exact E.
  - assert (Hnone : transactions seeded_db = []) by (vm_compute; reflexivity).
    rewrite Hts, Hnone. cbn [app map]. rewrite Hamount. vm_compute. reflexivity.
Defined.

(** C3, what the code does.  Category 11 does not exist in the seeded
    database.  An append to it stores and commits the row and then raises
    [TypeError] out of [update_balance_after_transaction]; the reads join
    the categories and do not show the row, until a category is created:
    it gets id 11 and the stored row shows up under it. *)
Theorem add_transaction_unknown_category_commits :
  let orphan := mktransaction 1 (Float.of_Z 100) "rent" 11 "2024-06-15" "cash" blank blank
                              false None "2024-06-15 10:00:00" in
  let s1 := with_new_transaction seeded_db orphan in
  select_category_type 11 seeded_db = [] /\
  add_transaction clock0 (Float.of_Z 100) "rent" 11 None "cash" blank blank seeded_db
  = (s1, Raise TypeError) /\
  transactions s1 = [orphan] /\
  result_of (get_transactions None None None None) s1 = Ok [] /\
  (s2 <- insert_category "2024-06-16 08:00:00" ("Rent", expense, "#007bff")%string s1 ;;
   result_of (get_transactions None None None None) s2)
  = Ok [mkrow 1 (Float.of_Z 100) "rent" "Rent" expense "2024-06-15" "cash" blank blank].
Proof. cbv zeta. by_evaluation. Qed.

(** C4.  Take an append to a category that resolves, of kind [k], with an
    id within SQLite's integers.  It succeeds whenever the amount is a
    number, with or without an account.  After every successful append the
    accounts are the accounts before, row by row, and no account has
    another id, name, type, currency, bank or creation time than before.
    The posting goes to the account of the least name, the one that
    [SELECT id FROM accounts LIMIT 1] reads from the index of the names:
    its balance is its balance plus the amount when [k] is income and its
    balance minus the amount when [k] is expense, and every account of
    another id has the balance it had.  With no account there is still
    none. *)
Theorem add_transaction_posts_to_primary_account
    (clk : clock) (amount : Float.float) (description : string) (category_id : Z)
    (date : option string) (payment_method location tags : string) (s : db) (k : kind) :
  Sql.int64 category_id = true ->
  fetchone (select_category_type category_id s) = Some k ->
  (Float.is_nan amount = false ->
   exists (s' : db) (id : Z),
     add_transaction clk amount description category_id date payment_method location tags s
     = (s', Ok id)) /\
  (forall (s' : db) (id : Z),
     add_transaction clk amount description category_id date payment_method location tags s
     = (s', Ok id) ->
     (accounts s = [] /\ accounts s' = []) \/
     (exists p : account,
         least_name s p /\
         Forall2 (posted (account_id p) k amount) (accounts s) (accounts s'))).
Proof.
  intros Hid Hcat. split.
  - intros Hnum.
    rewrite (add_transaction_known_category clk amount description category_id date
               payment_method location tags s k Hid Hnum Hcat).
    eexists. eexists. reflexivity.
  - intros s' id Hrun.
    destruct (Float.is_nan amount) eqn:Hnum.
    + rewrite (add_transaction_not_a_number clk amount description category_id date
                 payment_method location tags s Hid Hnum) in Hrun.
      discriminate Hrun.
    + rewrite (add_transaction_known_category clk amount description category_id date
                 payment_method location tags s k Hid Hnum Hcat) in Hrun.
      injection Hrun as Hs' _. subst s'.
      apply appended_accounts.
Qed.

Lemma add_transaction_posts_to_primary_account_witness :
  exists s' : db,
    add_transaction clock0 (Float.of_Z 300) "groceries" 4 None "card" blank blank
                    db_with_accounts
    = (s', Ok 1) /\
    map (fun a => (account_name a, account_balance a)) (accounts s')
    = [("Main"%string, Some (Float.of_Z 700)); ("Savings"%string, Some (Float.of_Z 50))].
Proof.
  set (call := add_transaction clock0 (Float.of_Z 300) "groceries" 4 None "card" blank blank).
  assert (Hid : Sql.int64 4 = true) by reflexivity.
  assert (Hcat : fetchone (select_category_type 4 db_with_accounts) = Some expense)
    by (vm_compute; reflexivity).
  assert (Hrun : call db_with_accounts = (state_after call db_with_accounts, Ok 1))
    by (vm_compute; reflexivity).
  destruct (add_transaction_posts_to_primary_account clock0 (Float.of_Z 300) "groceries" 4
              None "card" blank blank db_with_accounts expense Hid Hcat) as [_ H].
  specialize (H _ _ Hrun).
  exists (state_after call db_with_accounts). split; [exact Hrun |].
  destruct H as [[Hnone _] | (p & _ & _)]; vm_compute; reflexivity.
Defined.

(** The posting follows the names, not the order of the rows: with the
    accounts Savings (id 1) and Main (id 2), an expense of 300 is taken
    from Main. *)
Example posting_follows_the_names :
  map (fun a => (account_id a, account_name a, account_balance a))
      (accounts (state_after
                   (add_transaction clock0 (Float.of_Z 300) "groceries" 4 None "card"
                                    blank blank)
                   (set_accounts seeded_db
                      [mkaccount 1 "Savings" "savings" (Some (Float.of_Z 50)) "USD" None
                                 "2024-06-01 09:00:00";
                       mkaccount 2 "Main" "checking" (Some (Float.of_Z 1000)) "USD" None
                                 "2024-06-01 09:00:00"])))
  = [(1, "Savings"%string, Some (Float.of_Z 50));
     (2, "Main"%string, Some (Float.of_Z 700))].
Proof. vm_compute. reflexivity. Qed.

(** ** C5: budget status *)

Lemma next_rowid_above (largest : Z) (ids : list Z) (id : Z) :
  In id ids -> id < Sql.next_rowid largest ids.
Proof.
  unfold Sql.next_rowid.
  assert (Hmax : forall (l : list Z) (a : Z),
             a <= fold_left Z.max l a /\ (forall x, In x l -> x <= fold_left Z.max l a)).
  { induction l as [| y l IH]; intros a; simpl; [split; [lia | tauto] |].
    destruct (IH (Z.max a y)) as [Ha Hl]. split; [lia |].
    intros x [-> | Hx]; [lia | apply Hl; exact Hx]. }
  intros Hin. pose proof (proj2 (Hmax ids largest) id Hin). lia.
Qed.

(** The primary key of the categories stays a key when a category is
    inserted. *)
Lemma insert_category_ids_unique (now : string) (p : string * kind * string) (s s' : db) :
  insert_category now p s = Ok s' -> category_ids_unique s -> category_ids_unique s'.
Proof.
  destruct p as [[name type] color]. unfold insert_category, category_ids_unique.
  destruct (existsb _ (categories s)); [discriminate |].
  intros H Hu. injection H as <-. cbn [categories set_categories].
  rewrite map_app. cbn [map category_id].
  apply NoDup_app.
  - exact Hu.
  - repeat constructor. simpl. tauto.
  - intros id Hin [Heq | []].
    pose proof (next_rowid_above (seq_categories (sqlite_sequence s)) _ id Hin). lia.
Qed.

Lemma filter_by_id (cs : list category) (id : Z) :
  NoDup (map category_id cs) ->
  filter (fun c => category_id c =? id) cs
  = match find (fun c => category_id c =? id) cs with
    | Some c => [c]
    | None => []
    end.
Proof.
  induction cs as [| c cs IH]; simpl; intros Hnd; [reflexivity |].
  apply NoDup_cons_iff in Hnd. destruct Hnd as [Hc Hnd].
  destruct (Z.eqb_spec (category_id c) id) as [Heq | Hne].
  - f_equal. rewrite (IH Hnd).
    destruct (find (fun c0 => category_id c0 =? id) cs) as [c' |] eqn:Hfind;
      [| reflexivity].
    apply find_some in Hfind. destruct Hfind as [Hin Hid].
    apply Z.eqb_eq in Hid. exfalso. apply Hc. rewrite Heq, <- Hid.
    apply in_map. exact Hin.
  - apply IH. exact Hnd.
Qed.

Lemma join_categories_by_id (s : db) :
  category_ids_unique s ->
  join_categories s
  = flat_map (fun t => match category_of s (transaction_category_id t) with
                       | Some c => [(t, c)]
                       | None => []
                       end)
             (transactions s).
Proof.
  intros Hu. unfold join_categories, category_of.
  apply flat_map_ext. intros t.
  rewrite (filter_by_id (categories s) (transaction_category_id t) Hu).
  destruct (find _ (categories s)); reflexivity.
Qed.

Lemma select_spent_ledger (name start_date end_date : string) (s : db) :
  category_ids_unique s ->
  select_spent name start_date end_date s
  = Sql.coalesce_sum (ledger_amounts name start_date end_date s).
Proof.
  intros Hu. unfold select_spent, ledger_amounts. f_equal.
  rewrite (join_categories_by_id s Hu).
  induction (transactions s) as [| t ts IH]; [reflexivity |].
  cbn [flat_map]. rewrite filter_app, map_app, IH. cbn [filter].
  destruct (category_of s (transaction_category_id t)) as [c |]; [| reflexivity].
  cbn [filter fst snd].
  destruct (String.eqb (category_name c) name
            && Sql.between (transaction_date t) start_date end_date); reflexivity.
Qed.

Lemma budget_status_of_expected (s : db) (b : budget) (c : category) :
  category_ids_unique s ->
  budget_status_of s (b, c) = Ok (expected_status s b c).
Proof.
  intros Hu. unfold budget_status_of, expected_status.
  rewrite (select_spent_ledger _ _ _ s Hu).
  destruct (Float.ltb Float.zero (budget_amount b)) eqn:Hpos; [| reflexivity].
  unfold Float.truediv. rewrite (ltb_zero_not_zero _ Hpos). reflexivity.
Qed.

Lemma for_each_map {A B : Type} (body : A -> outcome B) (f : A -> B) (xs : list A) :
  (forall x, In x xs -> body x = Ok (f x)) -> for_each body xs = Ok (map f xs).
Proof.
  induction xs as [| x xs IH]; intros H; [reflexivity |].
  cbn [for_each map]. rewrite (H x (or_introl eq_refl)). cbn [bind].
  rewrite IH; [reflexivity |]. intros y Hy. apply H. right. exact Hy.
Qed.

Lemma select_active_budgets_by_id (clk : clock) (s : db) :
  category_ids_unique s ->
  select_active_budgets clk s
  = flat_map (fun b => match category_of s (budget_category_id b) with
                       | Some c => [(b, c)]
                       | None => []
                       end)
             (filter (active clk) (budgets s)).
Proof.
  intros Hu. unfold select_active_budgets, category_of.
  induction (budgets s) as [| b bs IH]; [reflexivity |].
  cbn [flat_map filter]. rewrite filter_app, IH.
  rewrite (filter_by_id (categories s) (budget_category_id b) Hu).
  unfold active at 2.
  destruct (Sql.text_leb (sql_date_now clk) (budget_end_date b)) eqn:Hact.
  - cbn [flat_map].
    destruct (find _ (categories s)); cbn [map filter fst]; [rewrite Hact |]; reflexivity.
  - destruct (find _ (categories s)); cbn [map filter fst]; [rewrite Hact |]; reflexivity.
Qed.

(** C5, the claim fails.  A budget of -200 for Food is accepted and is
    active; with the 300 expense in its window its percentage is 0, not
    300 / -200 * 100 = -150.  A budget for a category id that does not
    resolve is accepted and active too, and gets no status at all. *)
Lemma check_budget_status_negative_or_dangling :
  map budget_amount (filter (active clock0) (budgets negative_budget_db))
  = [Float.of_Z (-200)] /\
  result_of (check_budget_status clock0) negative_budget_db
  = Ok [mkstatus "Food" (Float.of_Z (-200)) (Float.of_Z 300) (Float.of_Z (-500))
                 Float.zero false "monthly"] /\
  Float.mul (Float.div (Float.of_Z 300) (Float.of_Z (-200))) hundred = Float.of_Z (-150) /\
  Float.eqb (Float.of_Z (-150)) Float.zero = false /\
  map budget_category_id (filter (active clock0) (budgets dangling_budget_db)) = [7] /\
  result_of (check_budget_status clock0) dangling_budget_db = Ok [].
Proof. by_evaluation. Qed.

(** C5, amended.  While category ids are unique and the dates of the
    ledger and of the budgets are texts [YYYY-MM-DD], [check_budget_status]
    raises nothing (it never divides by zero) and returns, in the order of
    the budgets, one status per budget whose end date is not before today
    and whose category id resolves.  In that status [spent] is the sum of
    the ledger amounts of the category's name within the window of the
    budget, [percentage] is [spent / amount * 100] when the amount is above
    0 and 0 otherwise, [alert] says whether [percentage >= threshold * 100],
    and [remaining] is [amount - spent].  A budget of 200 for Food whose
    window holds an expense of 300 gets percentage 150, alert true and
    remaining -100. *)
Theorem check_budget_status_expected :
  (forall (clk : clock) (s : db),
      category_ids_unique s ->
      ledger_dates s = true -> budget_dates s = true ->
      check_budget_status clk s
      = (s, Ok (flat_map (fun b => match category_of s (budget_category_id b) with
                                   | Some c => [expected_status s b c]
                                   | None => []
                                   end)
                         (filter (active clk) (budgets s))))) /\
  result_of (check_budget_status clock0) budget_db
  = Ok [mkstatus "Food" (Float.of_Z 200) (Float.of_Z 300) (Float.of_Z (-100))
                 (Float.of_Z 150) true "monthly"].
Proof.
  split; [| by_evaluation].
  intros clk s Hu _ _. unfold check_budget_status. f_equal.
  rewrite (select_active_budgets_by_id clk s Hu).
  rewrite (for_each_map (budget_status_of s)
                        (fun r => expected_status s (fst r) (snd r))).
  - f_equal. induction (filter (active clk) (budgets s)) as [| b bs IH]; [reflexivity |].
    cbn [flat_map]. rewrite map_app, IH.
    destruct (category_of s (budget_category_id b)); reflexivity.
  - intros [b c] _. apply budget_status_of_expected. exact Hu.
Qed.

Lemma check_budget_status_expected_witness :
  category_ids_unique budget_db /\
  result_of (check_budget_status clock0) budget_db
  = Ok [expected_status budget_db
          (mkbudget 1 2 (Float.of_Z 200) "monthly" "2024-06-01" "2024-06-30"
                    default_alert_threshold "2024-06-15 10:00:00")
          (mkcategory 2 "Food" expense "#dc3545" (Some Float.zero) "2024-06-01 09:00:00")].
Proof.
  assert (Hu : category_ids_unique budget_db).
  { unfold category_ids_unique.
    change (map category_id (categories budget_db)) with [1; 2].
    repeat constructor; simpl; intuition discriminate. }
  split; [exact Hu |].
  assert (Hledger : ledger_dates budget_db = true) by (vm_compute; reflexivity).
  assert (Hbudgets : budget_dates budget_db = true) by (vm_compute; reflexivity).
  unfold result_of.
  rewrite (proj1 check_budget_status_expected clock0 budget_db Hu Hledger Hbudgets).
  vm_compute. reflexivity.
Defined.

(** ** C6: the window of the monthly report *)

Section MonthlyWindow.

Import datetime.

Lemma report_window_last_day (year month : Z) :
  report_window year month
  = (d <- window_last_day year month ;;
     Ok ((str_of_Z year ++ "-" ++ fmt_0d 2 month ++ "-01")%string,
         (str_of_Z year ++ "-" ++ fmt_0d 2 month ++ "-" ++ fmt_0d 2 d)%string)).
Proof.
  unfold report_window, window_last_day.
  destruct (if month =? 12 then new (year + 1) 1 1 else new year (month + 1) 1)
    as [next_month | e]; [| reflexivity].
  cbn [bind]. destruct (sub_days next_month 1); reflexivity.
Qed.

(** One cycle, checked month by month. *)
Lemma cycle_table :
  forallb (fun r =>
             forallb (fun m => cycle_day r m
                               =? (if m =? 1 then 31 else last_calendar_day r (m - 1)))
                     months)
          cycle_years
  = true.
Proof. vm_compute. reflexivity. Qed.

Lemma in_cycle_years (r : Z) : 1 <= r <= 400 -> In r cycle_years.
Proof.
  intros Hr. unfold cycle_years.
  replace r with (Z.of_nat (Z.to_nat r)) by lia.
  apply in_map. apply in_seq. lia.
Qed.

Lemma in_months (m : Z) : 1 <= m <= 12 -> In m months.
Proof. intros Hm. unfold months. simpl. lia. Qed.

Lemma cycle_day_calendar (r m : Z) :
  1 <= r <= 400 -> 1 <= m <= 12 ->
  cycle_day r m = if m =? 1 then 31 else last_calendar_day r (m - 1).
Proof.
  intros Hr Hm.
  pose proof cycle_table as H. rewrite forallb_forall in H.
  specialize (H r (in_cycle_years r Hr)). rewrite forallb_forall in H.
  specialize (H m (in_months m Hm)). cbv beta in H.
  apply Z.eqb_eq in H. exact H.
Qed.

Lemma day_ord2ymd_cycle (n : Z) :
  day (ord2ymd n) = day (ord2ymd ((n - 1) mod DI400Y + 1)).
Proof.
  unfold ord2ymd. cbv zeta.
  replace ((n - 1) mod DI400Y + 1 - 1) with ((n - 1) mod DI400Y) by lia.
  rewrite Z.mod_mod by discriminate.
  repeat match goal with
         | |- context [if ?c then _ else _] => destruct c
         end; reflexivity.
Qed.

Lemma is_leap_cycle (y : Z) : is_leap (cycle_year y) = is_leap y.
Proof.
  unfold is_leap, cycle_year.
  assert (H4 : ((y - 1) mod 400 + 1) mod 4 = y mod 4)
    by (Z.to_euclidean_division_equations; lia).
  assert (H100 : ((y - 1) mod 400 + 1) mod 100 = y mod 100)
    by (Z.to_euclidean_division_equations; lia).
  assert (H400 : ((y - 1) mod 400 + 1) mod 400 = y mod 400)
    by (Z.to_euclidean_division_equations; lia).
  rewrite H4, H100, H400. reflexivity.
Qed.

Lemma days_before_year_cycle (y : Z) :
  days_before_year y = DI400Y * ((y - 1) / 400) + days_before_year (cycle_year y).
Proof.
  change DI400Y with 146097. unfold days_before_year, cycle_year. cbv zeta.
  replace ((y - 1) mod 400 + 1 - 1) with ((y - 1) mod 400) by lia.
  Z.to_euclidean_division_equations. lia.
Qed.

Lemma days_before_month_cycle (y m : Z) :
  days_before_month (cycle_year y) m = days_before_month y m.
Proof. unfold days_before_month. rewrite is_leap_cycle. reflexivity. Qed.

Lemma ymd2ord_cycle (y m : Z) :
  (ymd2ord y m 1 - 2) mod DI400Y = (ymd2ord (cycle_year y) m 1 - 2) mod DI400Y.
Proof.
  unfold ymd2ord. rewrite days_before_month_cycle, (days_before_year_cycle y).
  replace (DI400Y * ((y - 1) / 400) + days_before_year (cycle_year y)
           + days_before_month y m + 1 - 2)
    with (days_before_year (cycle_year y) + days_before_month y m + 1 - 2
          + (y - 1) / 400 * DI400Y) by lia.
  apply Z.mod_add. discriminate.
Qed.

Lemma month_cases (m : Z) :
  1 <= m <= 12 ->
  m = 1 \/ m = 2 \/ m = 3 \/ m = 4 \/ m = 5 \/ m = 6 \/
  m = 7 \/ m = 8 \/ m = 9 \/ m = 10 \/ m = 11 \/ m = 12.
Proof. lia. Qed.

Ltac each_month H :=
  destruct (month_cases _ H) as [-> | [-> | [-> | [-> | [-> | [-> |
                                [-> | [-> | [-> | [-> | [-> | ->]]]]]]]]]]].

Lemma days_before_month_bounds (y m : Z) :
  1 <= m <= 12 ->
  0 <= days_before_month y m <= 335 /\ (2 <= m -> 31 <= days_before_month y m).
Proof.
  intros Hm. unfold days_before_month.
  each_month Hm; destruct (is_leap y); simpl; lia.
Qed.

Lemma days_in_month_positive (y m : Z) : 1 <= m <= 12 -> 1 <= days_in_month y m.
Proof.
  intros Hm. unfold days_in_month.
  each_month Hm; destruct (is_leap y); simpl; lia.
Qed.

Lemma days_before_year_bounds (y : Z) :
  1 <= y <= 9999 ->
  0 <= days_before_year y <= 3651694 /\ (2 <= y -> 365 <= days_before_year y).
Proof.
  intros Hy. unfold days_before_year. cbv zeta.
  Z.to_euclidean_division_equations. lia.
Qed.

Lemma c_int_range (z : Z) : -2147483648 <= z < 2147483648 -> c_int z = true.
Proof.
  intros H. unfold c_int.
  change (- 2 ^ 31) with (-2147483648). change (2 ^ 31) with 2147483648.
  apply andb_true_iff. split; [apply Z.leb_le | apply Z.ltb_lt]; lia.
Qed.

Lemma new_first_of_month (y m : Z) :
  1 <= y <= 9999 -> 1 <= m <= 12 -> new y m 1 = Ok (mkdate y m 1).
Proof.
  intros Hy Hm. unfold new, MINYEAR, MAXYEAR.
  pose proof (days_in_month_positive y m Hm) as Hd.
  rewrite !c_int_range by lia. cbn [andb negb].
  replace (1 <=? y) with true by (symmetry; apply Z.leb_le; lia).
  replace (y <=? 9999) with true by (symmetry; apply Z.leb_le; lia).
  replace (1 <=? m) with true by (symmetry; apply Z.leb_le; lia).
  replace (m <=? 12) with true by (symmetry; apply Z.leb_le; lia).
  replace (1 <=? days_in_month y m) with true by (symmetry; apply Z.leb_le; lia).
  reflexivity.
Qed.

Lemma day_before_first_of_month (y m : Z) :
  1 <= y <= 9999 -> 1 <= m <= 12 -> 2 <= y \/ 2 <= m ->
  sub_days (mkdate y m 1) 1
  = Ok (ord2ymd (ymd2ord y m 1 - 1)) /\
  day (ord2ymd (ymd2ord y m 1 - 1)) = cycle_day (cycle_year y) m.
Proof.
  intros Hy Hm Hnot_first. split.
  - unfold sub_days, toordinal, MAXORDINAL. cbn [year month day].
    pose proof (days_before_year_bounds y Hy) as [Hby Hby2].
    pose proof (days_before_month_bounds y m Hm) as [Hbm Hbm2].
    assert (Hord : 2 <= ymd2ord y m 1 <= 3652060) by (unfold ymd2ord; lia).
    replace (0 <? ymd2ord y m 1 - 1) with true by (symmetry; apply Z.ltb_lt; lia).
    replace (ymd2ord y m 1 - 1 <=? 3652059) with true by (symmetry; apply Z.leb_le; lia).
    reflexivity.
  - rewrite day_ord2ymd_cycle. unfold cycle_day.
    replace (ymd2ord y m 1 - 1 - 1) with (ymd2ord y m 1 - 2) by lia.
    rewrite ymd2ord_cycle. reflexivity.
Qed.

Lemma cycle_year_range (y : Z) : 1 <= cycle_year y <= 400.
Proof. unfold cycle_year. Z.to_euclidean_division_equations. lia. Qed.

Lemma gregorian_leap_cycle (y : Z) : gregorian_leap (cycle_year y) = gregorian_leap y.
Proof.
  unfold gregorian_leap, cycle_year.
  assert (H4 : ((y - 1) mod 400 + 1) mod 4 = y mod 4)
    by (Z.to_euclidean_division_equations; lia).
  assert (H100 : ((y - 1) mod 400 + 1) mod 100 = y mod 100)
    by (Z.to_euclidean_division_equations; lia).
  assert (H400 : ((y - 1) mod 400 + 1) mod 400 = y mod 400)
    by (Z.to_euclidean_division_equations; lia).
  rewrite H4, H100, H400. reflexivity.
Qed.

Lemma last_calendar_day_cycle (y m : Z) :
  last_calendar_day (cycle_year y) m = last_calendar_day y m.
Proof.
  unfold last_calendar_day. rewrite gregorian_leap_cycle. reflexivity.
Qed.

Lemma window_last_day_calendar (year month : Z) :
  1 <= year <= 9999 -> 1 <= month <= 12 -> year < 9999 \/ month < 12 ->
  window_last_day year month = Ok (last_calendar_day year month).
Proof.
  intros Hy Hm Hmax. unfold window_last_day.
  destruct (Z.eqb_spec month 12) as [-> | Hne].
  - rewrite new_first_of_month by lia. cbn [bind].
    destruct (day_before_first_of_month (year + 1) 1) as [Hsub Hday]; try lia.
    rewrite Hsub. cbn [bind]. rewrite Hday.
    rewrite cycle_day_calendar by (apply cycle_year_range || lia).
    reflexivity.
  - rewrite new_first_of_month by lia. cbn [bind].
    destruct (day_before_first_of_month year (month + 1)) as [Hsub Hday]; try lia.
    rewrite Hsub. cbn [bind]. rewrite Hday.
    rewrite cycle_day_calendar by (apply cycle_year_range || lia).
    replace (month + 1 =? 1) with false by (symmetry; apply Z.eqb_neq; lia).
    replace (month + 1 - 1) with month by lia.
    rewrite last_calendar_day_cycle. reflexivity.
Qed.

End MonthlyWindow.

(** C6, the claim fails.  For December 9999 the step to the first day of
    the next month asks for 1 January 10000, which [datetime.date] does not
    hold: the call raises [ValueError] and there is no window. *)
Lemma report_window_december_9999 :
  report_window 9999 12 = Raise ValueError /\
  result_of (generate_monthly_report 9999 12) seeded_db = Raise ValueError.
Proof. by_evaluation. Qed.

(** C6, amended.  For every year from 1 to 9999 and month from 1 to 12,
    December 9999 apart, the window of the monthly report is computed
    without error and runs from the first day of the month to its last
    calendar day, both written as [{year}-{month:02d}-{day:02d}].  The
    window of (2024, 12) ends on 2024-12-31 and the window of (2023, 2) on
    2023-02-28. *)
Theorem report_window_calendar_month :
  (forall year month : Z,
      1 <= year <= 9999 -> 1 <= month <= 12 -> year < 9999 \/ month < 12 ->
      report_window year month
      = Ok ((str_of_Z year ++ "-" ++ fmt_0d 2 month ++ "-01")%string,
            (str_of_Z year ++ "-" ++ fmt_0d 2 month ++ "-"
             ++ fmt_0d 2 (last_calendar_day year month))%string)) /\
  report_window 2024 12 = Ok ("2024-12-01", "2024-12-31")%string /\
  report_window 2023 2 = Ok ("2023-02-01", "2023-02-28")%string.
Proof.
  split; [| by_evaluation].
  intros year month Hy Hm Hmax.
  rewrite report_window_last_day.
  rewrite (window_last_day_calendar year month Hy Hm Hmax).
  reflexivity.
Qed.

Lemma report_window_calendar_month_witness :
  report_window 2024 2 = Ok ("2024-02-01", "2024-02-29")%string.
Proof.
  assert (Hy : 1 <= 2024 <= 9999) by lia.
  assert (Hm : 1 <= 2 <= 12) by lia.
  assert (Hmax : 2024 < 9999 \/ 2 < 12) by (left; lia).
  rewrite (proj1 report_window_calendar_month 2024 2 Hy Hm Hmax).
  vm_compute. reflexivity.
Defined.

(** ** C7: progress of a goal *)

Lemma two_updates (id : Z) (amount : Float.float) (g : goal) :
  update_achieved id (update_current_amount amount id g) = progress_of id amount g.
Proof.
  unfold update_achieved, update_current_amount, progress_of, progressed.
  destruct (goal_id g =? id) eqn:Hid.
  - cbn [goal_id with_current_amount goal_current_amount goal_target_amount].
    rewrite Hid. cbn [andb].
    destruct (Sql.geb _ _).
    + rewrite orb_true_r. reflexivity.
    + rewrite orb_false_r. reflexivity.
  - rewrite Hid. cbn [andb]. reflexivity.
Qed.

Lemma update_goal_progress_eq (id : Z) (amount : Float.float) (s : db) :
  update_goal_progress id amount s
  = (set_goals s (map (progress_of id amount) (goals s)) (seq_goals (sqlite_sequence s)),
     Ok tt).
Proof.
  destruct s as [cs ts bs gs acs [n1 n2 n3 n4]].
  cbv beta iota delta [update_goal_progress and_then execute update_goals set_goals
                       goals categories transactions budgets accounts sqlite_sequence
                       seq_categories seq_transactions seq_budgets seq_goals].
  rewrite map_map.
  rewrite (map_ext _ _ (two_updates id amount)). reflexivity.
Qed.



(** ** C8: a goal with target 0 *)

(** C8, the claim fails.  [add_goal] with target 0 on a new database raises
    nothing: it returns the id 1 and the goal is stored with target 0. *)
Lemma add_goal_zero_target_stored :
  add_goal clock0 "Car" Float.zero None blank 1 empty_db
  = (set_goals empty_db
       [mkgoal 1 "Car" Float.zero (Some Float.zero) None blank 1 false "2024-06-15 10:00:00"]
       1,
     Ok 1).
Proof. by_evaluation. Qed.

(** C8, amended.  [add_goal] holds no check of the target: with a target
    of 0, of either sign, and a priority within SQLite's integers it raises
    nothing, returns the id of the new row and appends one goal with the
    name given, target 0.0, current amount 0 and the flag unset.
    [get_goals] never fails on a division all the same: SQL division by
    zero gives NULL, so the progress of every goal with target 0 is NULL,
    and [get_goals] returns one row per goal whatever the targets are. *)
Theorem add_goal_accepts_zero_target
    (ROUND : Float.float -> Z -> Float.float) (clk : clock) (name : string)
    (negative : bool) (target_date : option string) (description : string)
    (priority : Z) (s : db) :
  Sql.int64 priority = true ->
  exists (s' : db) (g : goal),
    add_goal clk name (S754_zero negative) target_date description priority s
    = (s', Ok (goal_id g)) /\
    goals s' = (goals s ++ [g])%list /\
    goal_name g = name /\
    goal_target_amount g = Float.zero /\
    goal_current_amount g = Some Float.zero /\
    goal_achieved g = false /\
    progress ROUND g = None /\
    (forall g' : goal,
        Float.is_zero (goal_target_amount g') = true -> progress ROUND g' = None) /\
    (forall s'' : db,
        exists rows : list goal_row,
          get_goals ROUND s'' = (s'', Ok rows) /\
          Permutation (map goal_of rows) (goals s'')).
Proof.
  intros Hpriority.
  assert (Hzero : forall g' : goal,
             Float.is_zero (goal_target_amount g') = true -> progress ROUND g' = None).
  { intros g' Hz. unfold progress, Sql.div.
    destruct (goal_current_amount g') as [x |]; [rewrite Hz |]; reflexivity. }
  exists (set_goals s
            (goals s ++ [new_goal clk name (S754_zero negative) target_date description
                                  priority s])%list
            (goal_id (new_goal clk name (S754_zero negative) target_date description
                               priority s))).
  exists (new_goal clk name (S754_zero negative) target_date description priority s).
  split.
  { unfold add_goal, and_then, execute, insert_goal, query. rewrite Hpriority.
    reflexivity. }
  split; [reflexivity |]. split; [reflexivity |]. split; [reflexivity |].
  split; [reflexivity |]. split; [reflexivity |].
  split; [apply Hzero; reflexivity |]. split; [exact Hzero |].
  intros s''. eexists. split; [reflexivity |].
  rewrite map_map. cbn [goal_of]. rewrite map_id. apply order_by_perm.
Qed.

Lemma add_goal_accepts_zero_target_witness :
  progress (fun (x : Float.float) (_ : Z) => x)
           (mkgoal 1 "Car" Float.zero (Some (Float.of_Z 50)) None blank 1 false
                   "2024-06-15 10:00:00")
  = None.
Proof.
  assert (Hpriority : Sql.int64 1 = true) by (vm_compute; reflexivity).
  destruct (add_goal_accepts_zero_target (fun (x : Float.float) (_ : Z) => x) clock0 "Car"
              false None blank 1 empty_db Hpriority)
    as (s' & g & _ & _ & _ & _ & _ & _ & _ & Hzero & _).
  apply Hzero. reflexivity.
Defined.

(** ** C10: query arguments that are zero *)

Lemma where_all_filter {R : Type} (conditions : list (R -> bool)) (rows : list R) :
  where_all conditions rows = filter (fun r => forallb (fun cond => cond r) conditions) rows.
Proof.
  destruct conditions as [| c cs]; [| reflexivity].
  cbn [where_all forallb]. induction rows as [| r rows IH]; [reflexivity |].
  cbn [filter]. rewrite <- IH. reflexivity.
Qed.

Lemma forallb_append_if {P R : Type} (truth : P -> bool) (param : option P)
    (cond : P -> R -> bool) (conditions : list (R -> bool)) (r : R) :
  forallb (fun c => c r) (append_if truth param cond conditions)
  = forallb (fun c => c r) conditions && optional truth param (fun p => cond p r).
Proof.
  unfold append_if, optional.
  destruct param as [p |]; [| rewrite andb_true_r; reflexivity].
  destruct (truth p); [| rewrite andb_true_r; reflexivity].
  rewrite forallb_app. cbn [forallb]. rewrite andb_true_r. reflexivity.
Qed.

Lemma get_transactions_unlimited (start_date end_date : option string)
    (category_id : option Z) (s : db) :
  get_transactions start_date end_date category_id None s
  = (s, Ok (map select_row
              (Sql.order_by newest_first
                 (filter (matching start_date end_date category_id) (join_categories s))))).
Proof.
  unfold get_transactions, query. f_equal. f_equal. f_equal. f_equal.
  rewrite where_all_filter. apply filter_ext. intros r.
  rewrite !forallb_append_if. reflexivity.
Qed.


(** * Further properties *)

(** ** Queries of the ledger *)

Lemma get_transactions_limited (start_date end_date : option string)
    (category_id limit : option Z) (s : db) :
  get_transactions start_date end_date category_id limit s
  = (s, Ok (let all :=
              map select_row
                  (Sql.order_by newest_first
                     (filter (matching start_date end_date category_id)
                             (join_categories s))) in
            match limit with
            | Some n => if 0 <? n then firstn (Z.to_nat n) all else all
            | None => all
            end)).
Proof.
  destruct limit as [n |]; [| apply get_transactions_unlimited].
  pose proof (get_transactions_unlimited start_date end_date category_id s) as H.
  unfold get_transactions, query in *. injection H as H.
  f_equal. f_equal. cbv zeta. rewrite <- H.
  unfold int_true, Sql.limit.
  destruct (Z.eqb_spec n 0) as [-> | Hn]; [reflexivity |]. cbn [negb].
  destruct (Z.ltb_spec n 0) as [Hneg | Hpos].
  - replace (0 <? n) with false by (symmetry; apply Z.ltb_ge; lia). reflexivity.
  - replace (0 <? n) with true by (symmetry; apply Z.ltb_lt; lia).
    rewrite firstn_map. reflexivity.
Qed.

Lemma newest_first_total (a b : transaction * category) :
  newest_first a b = false -> newest_first b a = true.
Proof.
  unfold newest_first. rewrite (String.eqb_sym (transaction_date (fst b))).
  destruct (String.eqb (transaction_date (fst a)) (transaction_date (fst b)));
    apply text_leb_total.
Qed.

Lemma newest_first_dates (a b : transaction * category) :
  newest_first a b = true ->
  Sql.text_leb (row_date (select_row b)) (row_date (select_row a)) = true.
Proof.
  destruct a as [ta ca], b as [tb cb]. unfold newest_first. cbn [fst select_row row_date].
  destruct (String.eqb_spec (transaction_date ta) (transaction_date tb)) as [-> | _].
  - intros _. apply text_leb_refl.
  - intros H. exact H.
Qed.

(** X1.  On a ledger whose dates are texts [YYYY-MM-DD], with date
    arguments of that form (or none) and integer arguments within SQLite's
    integers, the rows of [get_transactions] come with the newest date
    first: every row's date is at least the date of every row after it.  A
    limit above 0 keeps the first [limit] rows of that order; a limit of 0
    or below keeps them all, and they are the joined rows that pass the
    filters, each once. *)
Theorem get_transactions_newest_first (start_date end_date : option string)
    (category_id limit : option Z) (s : db) :
  ledger_dates s = true ->
  date_argument start_date = true -> date_argument end_date = true ->
  int_argument category_id = true -> int_argument limit = true ->
  exists all rows : list transaction_row,
    get_transactions start_date end_date category_id None s = (s, Ok all) /\
    get_transactions start_date end_date category_id limit s = (s, Ok rows) /\
    StronglySorted (fun a b => Sql.text_leb (row_date b) (row_date a) = true) all /\
    StronglySorted (fun a b => Sql.text_leb (row_date b) (row_date a) = true) rows /\
    rows = match limit with
           | Some n => if 0 <? n then firstn (Z.to_nat n) all else all
           | None => all
           end /\
    Permutation all
      (map select_row
           (filter (matching start_date end_date category_id) (join_categories s))).
Proof.
  intros _ _ _ _ _.
  rewrite !get_transactions_limited. cbv zeta.
  set (all := map select_row _).
  assert (Hall : StronglySorted
                   (fun a b => Sql.text_leb (row_date b) (row_date a) = true) all).
  { apply Sorted_StronglySorted.
    - intros a b c Hab Hbc. exact (text_leb_trans _ _ _ Hbc Hab).
    - unfold all.
      apply (Sorted_map select_row (fun a b => newest_first a b = true)).
      + exact newest_first_dates.
      + apply order_by_sorted. exact newest_first_total. }
  eexists. eexists. split; [reflexivity |]. split; [reflexivity |].
  split; [exact Hall |]. split; [| split; [reflexivity |]].
  - destruct limit as [n |]; [| exact Hall].
    destruct (0 <? n); [| exact Hall].
    apply StronglySorted_firstn. exact Hall.
  - unfold all. apply Permutation_map. apply order_by_perm.
Qed.

Lemma get_transactions_newest_first_witness :
  exists rows : list transaction_row,
    get_transactions (Some "2024-06-01"%string) None (Some 5) (Some 1) two_expenses_db
    = (two_expenses_db, Ok rows) /\
    map row_date rows = ["2024-06-12"%string].
Proof.
  destruct (get_transactions_newest_first (Some "2024-06-01"%string) None (Some 5) (Some 1)
              two_expenses_db)
    as (all & rows & _ & Hrows & _ & _ & _ & _); try (vm_compute; reflexivity).
  exists rows. split; [exact Hrows |].
  assert (E : snd (get_transactions (Some "2024-06-01"%string) None (Some 5) (Some 1)
                                    two_expenses_db)
              = Ok [mkrow 2 (Float.of_Z 40) "bus" "Транспорт" expense "2024-06-12" "card"
                          blank blank])
    by (vm_compute; reflexivity).
  rewrite Hrows in E. cbn [snd] in E. injection E as ->. reflexivity.
Defined.

Lemma in_join_categories (s : db) (t : transaction) (c : category) :
  In (t, c) (join_categories s) <->
  In t (transactions s) /\ In c (categories s)
  /\ category_id c = transaction_category_id t.
Proof.
  unfold join_categories. rewrite in_flat_map. split.
  - intros (t' & Ht' & Hin). apply in_map_iff in Hin.
    destruct Hin as (c' & Heq & Hc'). injection Heq as -> ->.
    apply filter_In in Hc'. destruct Hc' as [Hc' Hid].
    apply Z.eqb_eq in Hid. auto.
  - intros (Ht & Hc & Hid). exists t. split; [exact Ht |].
    apply in_map. apply filter_In. split; [exact Hc |].
    apply Z.eqb_eq. exact Hid.
Qed.

(** X2.  On a ledger whose dates are texts [YYYY-MM-DD], with date
    arguments of that form (or none) and integer arguments within SQLite's
    integers, [get_transactions] invents no row and lets none through that
    a filter excludes: every row it returns, under any limit, is a stored
    transaction joined with the category it refers to; its date is not
    before a given non-empty [start_date] and not after a given non-empty
    [end_date], and its category is the one of a given non-zero
    [category_id]. *)
Theorem get_transactions_within_filters (start_date end_date : option string)
    (only_category limit : option Z) (s : db) :
  ledger_dates s = true ->
  date_argument start_date = true -> date_argument end_date = true ->
  int_argument only_category = true -> int_argument limit = true ->
  exists rows : list transaction_row,
    get_transactions start_date end_date only_category limit s = (s, Ok rows) /\
    Forall (fun r =>
              exists (t : transaction) (c : category),
                r = select_row (t, c) /\
                In t (transactions s) /\ In c (categories s) /\
                category_id c = transaction_category_id t /\
                (forall d, start_date = Some d -> d <> EmptyString ->
                           Sql.text_leb d (row_date r) = true) /\
                (forall d, end_date = Some d -> d <> EmptyString ->
                           Sql.text_leb (row_date r) d = true) /\
                (forall id, only_category = Some id -> id <> 0 ->
                            transaction_category_id t = id))
           rows.
Proof.
  intros _ _ _ _ _.
  rewrite get_transactions_limited. cbv zeta.
  set (matched := filter _ (join_categories s)).
  assert (Hall : Forall (fun r =>
              exists (t : transaction) (c : category),
                r = select_row (t, c) /\
                In t (transactions s) /\ In c (categories s) /\
                category_id c = transaction_category_id t /\
                (forall d, start_date = Some d -> d <> EmptyString ->
                           Sql.text_leb d (row_date r) = true) /\
                (forall d, end_date = Some d -> d <> EmptyString ->
                           Sql.text_leb (row_date r) d = true) /\
                (forall id, only_category = Some id -> id <> 0 ->
                            transaction_category_id t = id))
           (map select_row (Sql.order_by newest_first matched))).
  { apply Forall_forall. intros r Hr. apply in_map_iff in Hr.
    destruct Hr as ([t c] & <- & Hin).
    apply (Permutation_in _ (order_by_perm newest_first matched)) in Hin.
    apply filter_In in Hin. destruct Hin as [Hjoin Hmatch].
    apply in_join_categories in Hjoin. destruct Hjoin as (Ht & Hc & Hid).
    exists t, c. split; [reflexivity |]. split; [exact Ht |]. split; [exact Hc |].
    split; [exact Hid |].
    unfold matching, optional in Hmatch. cbn [fst select_row row_date] in *.
    apply andb_true_iff in Hmatch. destruct Hmatch as [Hmatch Hcat].
    apply andb_true_iff in Hmatch. destruct Hmatch as [Hstart Hend].
    repeat split.
    - intros d -> Hd. unfold str_true in Hstart.
      destruct (String.eqb_spec d EmptyString); [contradiction | exact Hstart].
    - intros d -> Hd. unfold str_true in Hend.
      destruct (String.eqb_spec d EmptyString); [contradiction | exact Hend].
    - intros id -> Hid0. unfold int_true in Hcat.
      destruct (Z.eqb_spec id 0); [contradiction |].
      apply Z.eqb_eq. exact Hcat. }
  eexists. split; [reflexivity |].
  destruct limit as [n |]; [| exact Hall].
  destruct (0 <? n); [| exact Hall].
  apply Forall_forall. intros r Hr. rewrite Forall_forall in Hall. apply Hall.
  rewrite <- (firstn_skipn (Z.to_nat n)). apply in_or_app. left. exact Hr.
Qed.

Lemma get_transactions_within_filters_witness :
  exists rows : list transaction_row,
    get_transactions (Some "2024-06-11"%string) (Some "2024-06-30"%string) None None
                     two_expenses_db
    = (two_expenses_db, Ok rows) /\
    map row_date rows = ["2024-06-12"%string].
Proof.
  destruct (get_transactions_within_filters (Some "2024-06-11"%string)
              (Some "2024-06-30"%string) None None two_expenses_db)
    as (rows & Hrows & _); try (vm_compute; reflexivity).
  exists rows. split; [exact Hrows |].
  assert (E : snd (get_transactions (Some "2024-06-11"%string) (Some "2024-06-30"%string)
                                    None None two_expenses_db)
              = Ok [mkrow 2 (Float.of_Z 40) "bus" "Транспорт" expense "2024-06-12" "card"
                          blank blank])
    by (vm_compute; reflexivity).
  rewrite Hrows in E. cbn [snd] in E. injection E as ->. reflexivity.
Defined.

(** ** Appending to the ledger *)

Lemma select_category_type_in (s : db) (c : category) :
  In c (categories s) ->
  exists k, fetchone (select_category_type (category_id c) s) = Some k.
Proof.
  intros Hin. unfold select_category_type.
  assert (Hf : In c (filter (fun c' => category_id c' =? category_id c) (categories s))).
  { apply filter_In. split; [exact Hin | apply Z.eqb_refl]. }
  destruct (filter _ (categories s)) as [| c' cs]; [destruct Hf |].
  exists (category_type c'). reflexivity.
Qed.

(** What [add_transaction] leaves of the database in each of its four
    outcomes. *)
Lemma add_transaction_cases (clk : clock) (amount : Float.float) (description : string)
    (category_id : Z) (date : option string) (payment_method location tags : string)
    (s : db) :
  let t := new_transaction clk amount description category_id date payment_method
                           location tags s in
  let run := add_transaction clk amount description category_id date payment_method
                             location tags s in
  (Sql.int64 category_id = false /\ run = (s, Raise OverflowError)) \/
  (Sql.int64 category_id = true /\ Float.is_nan amount = true /\
   run = (s, Raise IntegrityError)) \/
  (Sql.int64 category_id = true /\ Float.is_nan amount = false /\
   select_category_type category_id s = [] /\
   run = (with_new_transaction s t, Raise TypeError)) \/
  (Sql.int64 category_id = true /\ Float.is_nan amount = false /\
   exists k, fetchone (select_category_type category_id s) = Some k /\
             run = (appended k amount s t, Ok (transaction_id t))).
Proof.
  intros t run. destruct (Sql.int64 category_id) eqn:Hid.
  2: { left. split; [reflexivity |]. apply add_transaction_out_of_range. exact Hid. }
  right. destruct (Float.is_nan amount) eqn:Hnan.
  - left. split; [reflexivity |]. split; [reflexivity |].
    apply add_transaction_not_a_number; assumption.
  - right. destruct (select_category_type category_id s) as [| k ks] eqn:Hcat.
    + left. split; [reflexivity |]. split; [reflexivity |]. split; [reflexivity |].
      apply add_transaction_unknown_category; assumption.
    + right. split; [reflexivity |]. split; [reflexivity |].
      exists k. split; [reflexivity |].
      apply add_transaction_known_category; [exact Hid | exact Hnan |].
      rewrite Hcat. reflexivity.
Qed.

(** X3.  The ledger is append-only.  Whatever its arguments and whether it
    returns or raises, [add_transaction] leaves every stored transaction as
    it was and in place, adds at most one row after them, and changes no
    category, budget or goal.  The accounts stay the same accounts, row by
    row: no account gets another id, name, type, currency, bank or creation
    time; only balances can differ. *)
Theorem add_transaction_appends_only (clk : clock) (amount : Float.float)
    (description : string) (category_id : Z) (date : option string)
    (payment_method location tags : string) (s : db) :
  let s' := state_after (add_transaction clk amount description category_id date
                                         payment_method location tags) s in
  (transactions s' = transactions s \/
   exists t : transaction, transactions s' = (transactions s ++ [t])%list) /\
  categories s' = categories s /\
  budgets s' = budgets s /\
  goals s' = goals s /\
  Forall2 (fun a a' =>
             account_id a' = account_id a /\ account_name a' = account_name a /\
             account_type a' = account_type a /\
             account_currency a' = account_currency a /\
             account_bank a' = account_bank a /\
             account_created_at a' = account_created_at a)
          (accounts s) (accounts s').
Proof.
  intros s'. subst s'. unfold state_after.
  destruct (add_transaction_cases clk amount description category_id date payment_method
              location tags s)
    as [[_ ->] | [(_ & _ & ->) | [(_ & _ & _ & ->) | (_ & _ & k & _ & ->)]]];
    cbn [fst].
  - repeat split; try reflexivity; [left; reflexivity | apply same_account_refl].
  - repeat split; try reflexivity; [left; reflexivity | apply same_account_refl].
  - repeat split; try reflexivity; [right; eexists; reflexivity | apply same_account_refl].
  - destruct (appended_tables k amount s
                (new_transaction clk amount description category_id date payment_method
                                 location tags s)) as (Hts & Hcs & Hbs & Hgs).
    split; [right; eexists; exact Hts |].
    split; [exact Hcs |]. split; [exact Hbs |]. split; [exact Hgs |].
    destruct (appended_accounts k amount s
                (new_transaction clk amount description category_id date payment_method
                                 location tags s)) as [[Hnone ->] | (p & _ & Hposted)].
    + rewrite Hnone. constructor.
    + exact (posted_same_account _ _ _ _ _ Hposted).
Qed.

Lemma matching_nothing (r : transaction * category) : matching None None None r = true.
Proof. reflexivity. Qed.

(** X4.  What is appended can be read back.  When the amount is a number,
    the category exists and has an id within SQLite's integers, and the
    date (the one given, or today's for none) is a text [YYYY-MM-DD],
    [add_transaction] returns the id of the new row, and
    [get_transactions()] with no filter then holds a row with that id, the
    description, date, payment method, location and tags as given, the name
    and type of the category, and the amount as given, 0.0 standing for
    -0.0. *)
Theorem add_transaction_then_get_transactions (clk : clock) (amount : Float.float)
    (description : string) (c : category) (date : option string)
    (payment_method location tags : string) (s : db) :
  Float.is_nan amount = false ->
  In c (categories s) ->
  Sql.int64 (category_id c) = true ->
  Sql.iso_date (match date with
                | Some d => d
                | None => datetime.isoformat (today clk)
                end) = true ->
  let call := add_transaction clk amount description (category_id c) date
                              payment_method location tags in
  exists (id : Z) (rows : list transaction_row),
    result_of call s = Ok id /\
    get_transactions None None None None (state_after call s)
    = (state_after call s, Ok rows) /\
    In (mkrow id (Sql.store_real amount) description (category_name c) (category_type c)
              (match date with
               | Some d => d
               | None => datetime.isoformat (today clk)
               end)
              payment_method location tags)
       rows.
Proof.
  intros Hnum Hc Hid _ call.
  destruct (select_category_type_in s c Hc) as [k Hk].
  set (t := new_transaction clk amount description (category_id c) date payment_method
                            location tags s).
  assert (Hrun : call s = (appended k amount s t, Ok (transaction_id t)))
    by (apply add_transaction_known_category; assumption).
  unfold result_of, state_after. rewrite Hrun. cbn [fst snd].
  destruct (appended_tables k amount s t) as (Hts & Hcs & _).
  exists (transaction_id t). rewrite get_transactions_unlimited.
  eexists. split; [reflexivity |]. split; [reflexivity |].
  change (mkrow (transaction_id t) (Sql.store_real amount) description (category_name c)
                (category_type c)
                (match date with
                 | Some d => d
                 | None => datetime.isoformat (today clk)
                 end)
                payment_method location tags)
    with (select_row (t, c)).
  apply in_map.
  apply (Permutation_in _ (Permutation_sym (order_by_perm newest_first _))).
  apply filter_In. split; [| apply matching_nothing].
  apply in_join_categories. rewrite Hts, Hcs.
  split; [apply in_or_app; right; left; reflexivity |].
  split; [exact Hc | reflexivity].
Qed.

Lemma add_transaction_then_get_transactions_witness :
  exists (id : Z) (rows : list transaction_row),
    result_of (add_transaction clock0 (Float.of_Z 300) "lunch" 2 (Some "2024-06-10"%string)
                               "cash" blank blank) two_categories_db = Ok id /\
    get_transactions None None None None food_db = (food_db, Ok rows) /\
    In (mkrow id (Float.of_Z 300) "lunch" "Food" expense "2024-06-10" "cash" blank blank)
       rows.
Proof.
  apply (add_transaction_then_get_transactions clock0 (Float.of_Z 300) "lunch"
           (mkcategory 2 "Food" expense "#dc3545" (Some Float.zero) "2024-06-01 09:00:00")
           (Some "2024-06-10"%string) "cash" blank blank two_categories_db).
  - vm_compute. reflexivity.
  - vm_compute. right. left. reflexivity.
  - vm_compute. reflexivity.
  - vm_compute. reflexivity.
Defined.

(** ** Budgets *)

Lemma create_budget_eq (clk : clock) (category_id : Z) (amount : Float.float)
    (period start_date end_date : string) (s : db) :
  create_budget clk category_id amount period start_date end_date s
  = if negb (Sql.int64 category_id) then (s, Raise OverflowError)
    else if Float.is_nan amount || negb (period_ok period)
    then (s, Raise IntegrityError)
    else let b := new_budget clk category_id amount period start_date end_date s in
         (set_budgets s (budgets s ++ [b])%list (budget_id b), Ok (budget_id b)).
Proof.
  unfold create_budget, and_then, execute, insert_budget, Sql.of_float.
  destruct (negb (Sql.int64 category_id)); [reflexivity |].
  destruct (Float.is_nan amount); [reflexivity |]. cbn [orb].
  destruct (negb (period_ok period)); reflexivity.
Qed.

(** X5.  What [create_budget] checks.  A category id beyond SQLite's
    integers raises [OverflowError].  With an id within them, a period that
    is not ['weekly'], ['monthly'] or ['yearly'] and an amount that is not a
    number raise [IntegrityError].  Nothing is stored in these cases.
    Otherwise the call accepts what it is given (a category id that does not
    resolve, an amount of 0 or below, an end date before the start date): it
    appends one budget and returns its id, which no budget had before.  The
    budget holds the category id and the period given, the amount given
    (0.0 for -0.0), the start and the end date given when they are texts
    [YYYY-MM-DD], and the alert threshold 0.8. *)
Theorem create_budget_checks_period_only (clk : clock) (category_id : Z)
    (amount : Float.float) (period start_date end_date : string) (s : db) :
  let call := create_budget clk category_id amount period start_date end_date in
  (Sql.int64 category_id = false -> call s = (s, Raise OverflowError)) /\
  (Sql.int64 category_id = true ->
   (period <> "weekly"%string /\ period <> "monthly"%string /\ period <> "yearly"%string)
   \/ Float.is_nan amount = true ->
   call s = (s, Raise IntegrityError)) /\
  (Sql.int64 category_id = true ->
   (period = "weekly"%string \/ period = "monthly"%string \/ period = "yearly"%string)
   /\ Float.is_nan amount = false ->
   exists b : budget,
     call s = (set_budgets s (budgets s ++ [b])%list (budget_id b), Ok (budget_id b)) /\
     ~ In (budget_id b) (map budget_id (budgets s)) /\
     budget_category_id b = category_id /\
     budget_period b = period /\
     budget_amount b = Sql.store_real amount /\
     (Float.is_zero amount = false -> budget_amount b = amount) /\
     (Sql.iso_date start_date = true -> budget_start_date b = start_date) /\
     (Sql.iso_date end_date = true -> budget_end_date b = end_date) /\
     budget_alert_threshold b = default_alert_threshold /\
     Float.mul (budget_alert_threshold b) hundred = Float.of_Z 80).
Proof.
  intros call. subst call. split; [| split].
  - intros Hid. rewrite create_budget_eq, Hid. reflexivity.
  - intros Hid H. rewrite create_budget_eq, Hid. cbn [negb].
    destruct (Float.is_nan amount); [reflexivity |]. cbn [orb].
    destruct H as [(Hw & Hm & Hy) | H]; [| discriminate H].
    unfold period_ok.
    destruct (String.eqb_spec period "weekly"); [contradiction |].
    destruct (String.eqb_spec period "monthly"); [contradiction |].
    destruct (String.eqb_spec period "yearly"); [contradiction |].
    reflexivity.
  - intros Hid [Hperiod Hnum]. rewrite create_budget_eq, Hid, Hnum. cbn [negb orb].
    assert (Hok : period_ok period = true).
    { unfold period_ok. destruct Hperiod as [-> | [-> | ->]]; reflexivity. }
    rewrite Hok. cbn [negb].
    exists (new_budget clk category_id amount period start_date end_date s).
    split; [reflexivity |]. split.
    { intros Hin.
      pose proof (next_rowid_above (seq_budgets (sqlite_sequence s)) _ _ Hin) as Hlt.
      unfold new_budget in Hlt. cbn [budget_id] in Hlt. lia. }
    cbn [new_budget budget_category_id budget_period budget_amount budget_start_date
         budget_end_date budget_alert_threshold].
    split; [reflexivity |]. split; [reflexivity |]. split; [reflexivity |].
    split; [apply store_real_not_zero |].
    split; [intros _; reflexivity |]. split; [intros _; reflexivity |].
    split; [reflexivity | vm_compute; reflexivity].
Qed.

Lemma sub_zero (x : Float.float) : Float.sub x Float.zero = x.
Proof. destruct x as [[|] | [|] | | [|] m e]; reflexivity. Qed.

Lemma zero_percent (amount : Float.float) :
  Float.ltb Float.zero amount = true ->
  Float.mul (Float.div Float.zero amount) hundred = Float.zero.
Proof. destruct amount as [[|] | [|] | | [|] m e]; intros H; try discriminate H; reflexivity. Qed.

(** X6.  While category ids are unique and the dates of the ledger and of
    the budgets are texts [YYYY-MM-DD], [check_budget_status] returns one
    status for each budget whose end date is not before today and whose
    category id resolves to a category, in the order of the budgets; a
    budget whose category id resolves to no category gets no status.  A
    budget whose window holds no transaction of its category is reported as
    untouched: spent 0, percentage 0, the whole amount remaining; with the
    threshold 0.8 that [create_budget] gives, no alert. *)
Theorem check_budget_status_nothing_spent (clk : clock) (s : db) :
  category_ids_unique s ->
  ledger_dates s = true -> budget_dates s = true ->
  exists statuses : list budget_status,
    check_budget_status clk s = (s, Ok statuses) /\
    Forall2 (fun (row : budget * category) (status : budget_status) =>
               let (b, c) := row in
               ledger_amounts (category_name c) (budget_start_date b) (budget_end_date b) s
               = [] ->
               status_category status = category_name c /\
               status_spent status = Float.zero /\
               status_percentage status = Float.zero /\
               status_remaining status = budget_amount b /\
               (budget_alert_threshold b = default_alert_threshold ->
                status_alert status = false))
            (flat_map (fun b => match category_of s (budget_category_id b) with
                                | Some c => [(b, c)]
                                | None => []
                                end)
                      (filter (active clk) (budgets s)))
            statuses.
Proof.
  intros Hu _ _. unfold check_budget_status.
  rewrite (for_each_map (budget_status_of s)
                        (fun r => expected_status s (fst r) (snd r)))
    by (intros [b c] _; apply budget_status_of_expected; exact Hu).
  eexists. split; [reflexivity |].
  rewrite <- (select_active_budgets_by_id clk s Hu).
  induction (select_active_budgets clk s) as [| [b c] rows IH]; constructor; [| exact IH].
  intros Hnone. unfold expected_status. cbn [fst snd]. rewrite Hnone.
  change (Sql.coalesce_sum []) with Float.zero.
  cbn [status_category status_spent status_percentage status_remaining status_alert].
  split; [reflexivity |]. split; [reflexivity |].
  assert (Hpct : (if Float.ltb Float.zero (budget_amount b)
                  then Float.mul (Float.div Float.zero (budget_amount b)) hundred
                  else Float.zero) = Float.zero).
  { destruct (Float.ltb Float.zero (budget_amount b)) eqn:Hpos; [| reflexivity].
    apply zero_percent. exact Hpos. }
  rewrite Hpct. split; [reflexivity |]. split; [apply sub_zero |].
  intros ->. vm_compute. reflexivity.
Qed.

Lemma check_budget_status_nothing_spent_witness :
  ledger_amounts "Food" "2024-06-01" "2024-06-30" untouched_budget_db = [] /\
  exists status : budget_status,
    result_of (check_budget_status clock0) untouched_budget_db = Ok [status] /\
    status_spent status = Float.zero /\
    status_remaining status = Float.of_Z 200 /\
    status_alert status = false.
Proof.
  assert (Hu : category_ids_unique untouched_budget_db).
  { unfold category_ids_unique.
    change (map category_id (categories untouched_budget_db)) with [1; 2].
    repeat constructor; simpl; intuition discriminate. }
  assert (Hnone : ledger_amounts "Food" "2024-06-01" "2024-06-30" untouched_budget_db = [])
    by (vm_compute; reflexivity).
  split; [exact Hnone |].
  assert (Hledger : ledger_dates untouched_budget_db = true) by (vm_compute; reflexivity).
  assert (Hbudgets : budget_dates untouched_budget_db = true) by (vm_compute; reflexivity).
  destruct (check_budget_status_nothing_spent clock0 untouched_budget_db Hu Hledger Hbudgets)
    as (statuses & Hrun & Hall).
  rewrite <- (select_active_budgets_by_id clock0 untouched_budget_db Hu) in Hall.
  change (select_active_budgets clock0 untouched_budget_db)
    with [(mkbudget 1 2 (Float.of_Z 200) "monthly" "2024-06-01" "2024-06-30"
                    default_alert_threshold "2024-06-15 10:00:00",
           mkcategory 2 "Food" expense "#dc3545" (Some Float.zero) "2024-06-01 09:00:00")]
    in Hall.
  inversion Hall as [| row status rows rest Hrow Hrest Erow Estatuses]. subst.
  inversion Hrest. subst.
  destruct (Hrow Hnone) as (_ & Hspent & _ & Hremaining & Halert).
  exists status. unfold result_of. rewrite Hrun.
  split; [reflexivity |]. split; [exact Hspent |]. split; [exact Hremaining |].
  apply Halert. reflexivity.
Defined.

(** ** Goals *)

Lemma add_goal_eq (clk : clock) (name : string) (target_amount : Float.float)
    (target_date : option string) (description : string) (priority : Z) (s : db) :
  add_goal clk name target_amount target_date description priority s
  = if negb (Sql.int64 priority) then (s, Raise OverflowError)
    else if Float.is_nan target_amount
    then (s, Raise IntegrityError)
    else let g := new_goal clk name target_amount target_date description priority s in
         (set_goals s (goals s ++ [g])%list (goal_id g), Ok (goal_id g)).
Proof.
  unfold add_goal, and_then, execute, insert_goal, Sql.of_float.
  destruct (negb (Sql.int64 priority)); [reflexivity |].
  destruct (Float.is_nan target_amount); reflexivity.
Qed.

(** X7.  What [add_goal] refuses: a priority beyond SQLite's integers
    ([OverflowError]) and, with a priority within them, a target that is
    not a number ([IntegrityError]); nothing is stored then.  Every other
    goal is appended with a new id, the name, description and priority
    given, the target given (0.0 for -0.0), a current amount of 0 and the
    flag unset; when its target date is absent, empty or a text
    [YYYY-MM-DD], the goal holds that date and [get_goals] then returns the
    goal with its progress. *)
Theorem add_goal_then_get_goals (ROUND : Float.float -> Z -> Float.float) (clk : clock)
    (name : string) (target_amount : Float.float) (target_date : option string)
    (description : string) (priority : Z) (s : db) :
  let call := add_goal clk name target_amount target_date description priority in
  (Sql.int64 priority = false -> call s = (s, Raise OverflowError)) /\
  (Sql.int64 priority = true -> Float.is_nan target_amount = true ->
   call s = (s, Raise IntegrityError)) /\
  (Sql.int64 priority = true -> Float.is_nan target_amount = false ->
   exists g : goal,
     result_of call s = Ok (goal_id g) /\
     goals (state_after call s) = (goals s ++ [g])%list /\
     ~ In (goal_id g) (map goal_id (goals s)) /\
     goal_name g = name /\
     goal_description g = description /\
     goal_priority g = priority /\
     goal_target_amount g = Sql.store_real target_amount /\
     (Float.is_zero target_amount = false -> goal_target_amount g = target_amount) /\
     goal_current_amount g = Some Float.zero /\
     goal_achieved g = false /\
     (date_argument target_date = true ->
      goal_target_date g = target_date /\
      exists rows : list goal_row,
        get_goals ROUND (state_after call s) = (state_after call s, Ok rows) /\
        In (mkgoal_row g (progress ROUND g)) rows)).
Proof.
  intros call. subst call. unfold result_of, state_after. rewrite add_goal_eq.
  split; [intros ->; reflexivity |].
  split; [intros -> ->; reflexivity |].
  intros -> ->. cbv zeta. cbn [negb fst snd].
  exists (new_goal clk name target_amount target_date description priority s).
  split; [reflexivity |]. split; [reflexivity |]. split.
  { intros Hin.
    pose proof (next_rowid_above (seq_goals (sqlite_sequence s)) _ _ Hin) as Hlt.
    unfold new_goal in Hlt. cbn [goal_id] in Hlt. lia. }
  cbn [new_goal goal_name goal_description goal_priority goal_target_amount
       goal_current_amount goal_achieved goal_target_date].
  split; [reflexivity |]. split; [reflexivity |]. split; [reflexivity |].
  split; [reflexivity |]. split; [apply store_real_not_zero |].
  split; [reflexivity |]. split; [reflexivity |].
  intros _. split; [reflexivity |].
  eexists. split; [reflexivity |].
  apply (in_map (fun g => mkgoal_row g (progress ROUND g))).
  apply (Permutation_in _ (Permutation_sym (order_by_perm by_priority _))).
  cbn [goals set_goals]. apply in_or_app. right. left. reflexivity.
Qed.

Lemma progress_of_other (id : Z) (amount : Float.float) (gs : list goal) :
  ~ In id (map goal_id gs) -> map (progress_of id amount) gs = gs.
Proof.
  induction gs as [| g gs IH]; intros Hnot; [reflexivity |].
  cbn [map]. rewrite IH by (intros Hin; apply Hnot; right; exact Hin).
  unfold progress_of.
  destruct (Z.eqb_spec (goal_id g) id) as [Heq | _]; [| reflexivity].
  exfalso. apply Hnot. left. exact Heq.
Qed.

(** X8.  A progress update for an id within SQLite's integers that no goal
    has is not an error and changes nothing at all. *)
Theorem update_goal_progress_unknown_goal (id : Z) (amount : Float.float) (s : db) :
  Sql.int64 id = true ->
  ~ In id (map goal_id (goals s)) ->
  update_goal_progress id amount s = (s, Ok tt).
Proof.
  intros _ Hnot. rewrite update_goal_progress_eq, (progress_of_other id amount _ Hnot).
  destruct s as [cs ts bs gs acs [n1 n2 n3 n4]]. reflexivity.
Qed.

Lemma update_goal_progress_unknown_goal_witness :
  update_goal_progress 7 (Float.of_Z 50) goal_db = (goal_db, Ok tt).
Proof.
  apply (update_goal_progress_unknown_goal 7 (Float.of_Z 50) goal_db).
  - vm_compute. reflexivity.
  - vm_compute. intros [H | []]. discriminate H.
Defined.

Lemma same_goal_refl (g : goal) : same_goal g g.
Proof. unfold same_goal. repeat split. intros H. exact H. Qed.

Lemma same_goal_trans (a b c : goal) : same_goal a b -> same_goal b c -> same_goal a c.
Proof.
  unfold same_goal.
  intros (H1 & H2 & H3 & H4 & H5 & H6 & H7) (K1 & K2 & K3 & K4 & K5 & K6 & K7).
  repeat split; try congruence. intros Ha. apply K7. apply H7. exact Ha.
Qed.

Lemma update_goal_progress_same_goals (id : Z) (amount : Float.float) (s : db) :
  Forall2 same_goal (goals s) (goals (state_after (update_goal_progress id amount) s)).
Proof.
  unfold state_after. rewrite update_goal_progress_eq. cbn [fst goals set_goals].
  induction (goals s) as [| g gs IH]; constructor; [| exact IH].
  unfold same_goal, progress_of. destruct (goal_id g =? id); cbn.
  - repeat split. intros ->. reflexivity.
  - repeat split. intros H. exact H.
Qed.

Lemma Forall2_same_goal_trans (l1 l2 l3 : list goal) :
  Forall2 same_goal l1 l2 -> Forall2 same_goal l2 l3 -> Forall2 same_goal l1 l3.
Proof.
  intros H12. revert l3. induction H12 as [| a b l1 l2 Hab _ IH]; intros l3 H23.
  - inversion H23. constructor.
  - inversion H23 as [| ? c ? l3' Hbc Hrest]. subst.
    constructor; [exact (same_goal_trans a b c Hab Hbc) | apply IH; exact Hrest].
Qed.

(** X9.  Over any run of progress updates, to whatever goals and by whatever
    amounts, the goals stay the same goals in the same order: id, name,
    target, target date, description and priority never change, and a goal
    that was achieved before the run is achieved after it. *)
Theorem record_all_keeps_goals (updates : list (Z * Float.float)) (s : db) :
  Forall2 same_goal (goals s) (goals (record_all updates s)).
Proof.
  revert s. induction updates as [| [id amount] updates IH]; intros s.
  - cbn. induction (goals s) as [| g gs IHg]; constructor; [| exact IHg].
    apply same_goal_refl.
  - change (record_all ((id, amount) :: updates) s)
      with (record_all updates (state_after (update_goal_progress id amount) s)).
    exact (Forall2_same_goal_trans _ _ _
             (update_goal_progress_same_goals id amount s) (IH _)).
Qed.

Lemma by_priority_total (a b : goal) : by_priority a b = false -> by_priority b a = true.
Proof.
  unfold by_priority. rewrite (Z.eqb_sym (goal_priority b)).
  destruct (Z.eqb_spec (goal_priority a) (goal_priority b)) as [_ | Hne].
  - destruct (goal_target_date a), (goal_target_date b); try congruence.
    apply text_leb_total.
  - intros H. apply Z.ltb_ge in H. apply Z.ltb_lt. lia.
Qed.

Lemma by_priority_before (a b : goal) : by_priority a b = true <-> goal_before a b.
Proof.
  unfold by_priority, goal_before.
  destruct (Z.eqb_spec (goal_priority a) (goal_priority b)) as [Heq | Hne].
  - destruct (goal_target_date a), (goal_target_date b); split; intros H;
      try (right; split; [exact Heq |]); try tauto; try congruence;
      try (destruct H as [H | [_ H]]; [lia | tauto || congruence]).
  - rewrite Z.ltb_lt. split; [intros H; left; exact H |].
    intros [H | [H _]]; [exact H | contradiction].
Qed.

Lemma goal_before_trans (a b c : goal) : goal_before a b -> goal_before b c -> goal_before a c.
Proof.
  unfold goal_before. intros [Hab | [Hab Dab]] [Hbc | [Hbc Dbc]]; try (left; lia).
  right. split; [lia |].
  destruct (goal_target_date a), (goal_target_date b), (goal_target_date c);
    try tauto. exact (text_leb_trans _ _ _ Dab Dbc).
Qed.

(** X10.  While the target dates of the goals are texts [YYYY-MM-DD],
    [get_goals] lists the goals, each once, by ascending priority number;
    among goals of one priority those without a target date come first and
    the dated ones follow from the earliest date to the latest. *)
Theorem get_goals_by_priority (ROUND : Float.float -> Z -> Float.float) (s : db) :
  goal_dates s = true ->
  exists rows : list goal_row,
    get_goals ROUND s = (s, Ok rows) /\
    Permutation (map goal_of rows) (goals s) /\
    StronglySorted goal_before (map goal_of rows).
Proof.
  intros _. eexists. split; [reflexivity |].
  rewrite map_map. cbn [goal_of]. rewrite map_id.
  split; [apply order_by_perm |].
  apply Sorted_StronglySorted; [exact goal_before_trans |].
  rewrite <- (map_id (Sql.order_by by_priority (goals s))).
  apply (Sorted_map (fun g => g) (fun a b => by_priority a b = true)).
  - intros a b H. apply by_priority_before. exact H.
  - apply order_by_sorted. exact by_priority_total.
Qed.

Lemma get_goals_by_priority_witness :
  exists rows : list goal_row,
    get_goals (fun (x : Float.float) (_ : Z) => x) three_goals_db
    = (three_goals_db, Ok rows) /\
    map (fun r => goal_name (goal_of r)) rows = ["Car"; "Laptop"; "Vacation"]%string.
Proof.
  destruct (get_goals_by_priority (fun (x : Float.float) (_ : Z) => x) three_goals_db)
    as (rows & Hrows & _); [vm_compute; reflexivity |].
  exists rows. split; [exact Hrows |].
  assert (E : map (fun r => goal_name (goal_of r))
                  (match snd (get_goals (fun (x : Float.float) (_ : Z) => x) three_goals_db)
                   with
                   | Ok found => found
                   | Raise _ => []
                   end)
              = ["Car"; "Laptop"; "Vacation"]%string)
    by (vm_compute; reflexivity).
  rewrite Hrows in E. exact E.
Defined.

Lemma progress_zero_target (ROUND : Float.float -> Z -> Float.float) (g : goal) :
  Float.is_zero (goal_target_amount g) = true -> progress ROUND g = None.
Proof.
  intros Hzero. unfold progress, Sql.div.
  destruct (goal_current_amount g); [rewrite Hzero |]; reflexivity.
Qed.

(** X24.  [get_goals] divides inside the database, where a division by
    zero is NULL: it raises nothing, returns one row for each goal, and the
    progress of a goal whose target is 0 is [None]. *)
Theorem get_goals_zero_target (ROUND : Float.float -> Z -> Float.float) (s : db) :
  exists rows : list goal_row,
    get_goals ROUND s = (s, Ok rows) /\
    List.length rows = List.length (goals s) /\
    Forall (fun r => Float.is_zero (goal_target_amount (goal_of r)) = true ->
                     goal_progress r = None)
           rows.
Proof.
  eexists. split; [reflexivity |]. split.
  - rewrite length_map. apply Permutation_length. apply order_by_perm.
  - apply Forall_forall. intros r Hr. apply in_map_iff in Hr.
    destruct Hr as (g & <- & _). cbn [goal_of goal_progress].
    apply progress_zero_target.
Qed.

(** ** Keys stay keys *)

Lemma NoDup_snoc {A : Type} (l : list A) (x : A) :
  NoDup l -> ~ In x l -> NoDup (l ++ [x]).
Proof.
  intros Hl Hx. apply NoDup_app.
  - exact Hl.
  - repeat constructor. simpl. tauto.
  - intros y Hy [<- | []]. exact (Hx Hy).
Qed.

Lemma next_rowid_fresh (largest : Z) (ids : list Z) :
  ~ In (Sql.next_rowid largest ids) ids.
Proof. intros Hin. pose proof (next_rowid_above largest ids _ Hin). lia. Qed.

Lemma name_free (name : string) (cs : list category) :
  existsb (fun c => String.eqb (category_name c) name) cs = false ->
  ~ In name (map category_name cs).
Proof.
  intros Hfree Hin. apply in_map_iff in Hin. destruct Hin as (c & Hname & Hc).
  assert (Htaken : existsb (fun c => String.eqb (category_name c) name) cs = true).
  { apply existsb_exists. exists c. split; [exact Hc |]. apply String.eqb_eq. exact Hname. }
  congruence.
Qed.

Lemma insert_category_keys (now : string) (p : string * kind * string) (s s' : db) :
  insert_category now p s = Ok s' -> keys_unique s -> keys_unique s'.
Proof.
  destruct p as [[name type] color]. unfold insert_category, keys_unique.
  destruct (existsb _ (categories s)) eqn:Hfree; [discriminate |].
  intros H (Hc & Hn & Hrest). injection H as <-.
  cbn [categories transactions budgets goals accounts set_categories].
  rewrite !map_app. cbn [map category_id category_name].
  split; [apply NoDup_snoc; [exact Hc | apply next_rowid_fresh] |].
  split; [apply NoDup_snoc; [exact Hn | apply name_free; exact Hfree] |].
  exact Hrest.
Qed.

Lemma executemany_insert_category_keys (now : string)
    (ps : list (string * kind * string)) :
  forall s, keys_unique s ->
            keys_unique (state_after (executemany (insert_category now) ps) s).
Proof.
  unfold state_after.
  induction ps as [| p ps IH]; intros s Hk; [exact Hk |].
  cbn [executemany]. unfold and_then, execute.
  destruct (insert_category now p s) as [s1 | e] eqn:Hins; [| exact Hk].
  apply IH. exact (insert_category_keys now p s s1 Hins Hk).
Qed.

Lemma populate_default_categories_keys (clk : clock) (s : db) :
  keys_unique s -> keys_unique (state_after (populate_default_categories clk) s).
Proof.
  intros Hk. unfold state_after, populate_default_categories, and_then, query.
  destruct (count_categories s =? 0); [| exact Hk].
  apply (executemany_insert_category_keys _ _ s Hk).
Qed.

Lemma add_transaction_keys (clk : clock) (amount : Float.float) (description : string)
    (category_id : Z) (date : option string) (payment_method location tags : string)
    (s : db) :
  keys_unique s ->
  keys_unique (state_after (add_transaction clk amount description category_id date
                                            payment_method location tags) s).
Proof.
  intros (Hc & Hn & Ht & Hb & Hg & Ha). unfold state_after.
  assert (Hnew : NoDup (map transaction_id
                            (transactions s
                             ++ [new_transaction clk amount description category_id date
                                                 payment_method location tags s]))).
  { rewrite map_app. apply NoDup_snoc; [exact Ht | apply next_rowid_fresh]. }
  destruct (add_transaction_cases clk amount description category_id date payment_method
              location tags s)
    as [[_ ->] | [(_ & _ & ->) | [(_ & _ & _ & ->) | (_ & _ & k & _ & ->)]]];
    cbn [fst].
  - repeat split; assumption.
  - repeat split; assumption.
  - repeat split; assumption.
  - destruct (appended_tables k amount s
                (new_transaction clk amount description category_id date payment_method
                                 location tags s)) as (Hts & Hcs & Hbs & Hgs).
    unfold keys_unique. rewrite Hts, Hcs, Hbs, Hgs.
    repeat split; try assumption.
    replace (map account_id (accounts (appended k amount s
               (new_transaction clk amount description category_id date payment_method
                                location tags s))))
      with (map account_id (accounts s)); [exact Ha |].
    symmetry. apply same_account_ids.
    destruct (appended_accounts k amount s
                (new_transaction clk amount description category_id date payment_method
                                 location tags s)) as [[Hnone ->] | (p & _ & Hposted)].
    + rewrite Hnone. constructor.
    + exact (posted_same_account _ _ _ _ _ Hposted).
Qed.

Lemma create_budget_keys (clk : clock) (category_id : Z) (amount : Float.float)
    (period start_date end_date : string) (s : db) :
  keys_unique s ->
  keys_unique (state_after (create_budget clk category_id amount period start_date
                                          end_date) s).
Proof.
  intros (Hc & Hn & Ht & Hb & Hg & Ha). unfold state_after. rewrite create_budget_eq.
  destruct (negb (Sql.int64 category_id)); [repeat split; assumption |].
  destruct (Float.is_nan amount || negb (period_ok period)); cbn [fst].
  - repeat split; assumption.
  - unfold keys_unique. cbn [categories transactions budgets goals accounts set_budgets].
    rewrite map_app.
    repeat split; try assumption. apply NoDup_snoc; [exact Hb | apply next_rowid_fresh].
Qed.

Lemma add_goal_keys (clk : clock) (name : string) (target_amount : Float.float)
    (target_date : option string) (description : string) (priority : Z) (s : db) :
  keys_unique s ->
  keys_unique (state_after (add_goal clk name target_amount target_date description
                                     priority) s).
Proof.
  intros (Hc & Hn & Ht & Hb & Hg & Ha). unfold state_after. rewrite add_goal_eq.
  destruct (negb (Sql.int64 priority)); [repeat split; assumption |].
  destruct (Float.is_nan target_amount); cbn [fst].
  - repeat split; assumption.
  - unfold keys_unique. cbn [categories transactions budgets goals accounts set_goals].
    rewrite map_app.
    repeat split; try assumption. apply NoDup_snoc; [exact Hg | apply next_rowid_fresh].
Qed.

Lemma update_goal_progress_keys (id : Z) (amount : Float.float) (s : db) :
  keys_unique s -> keys_unique (state_after (update_goal_progress id amount) s).
Proof.
  intros (Hc & Hn & Ht & Hb & Hg & Ha). unfold state_after.
  rewrite update_goal_progress_eq.
  unfold keys_unique. cbn [fst categories transactions budgets goals accounts set_goals].
  repeat split; try assumption.
  replace (map goal_id (map (progress_of id amount) (goals s)))
    with (map goal_id (goals s)); [exact Hg |].
  rewrite map_map. apply map_ext. intros g. unfold progress_of.
  destruct (goal_id g =? id); reflexivity.
Qed.

Section ImportKeys.

Variable float_of_text : string -> option Float.float.

Lemma import_transaction_keys (clk : clock) (row : csv_row) (category_id : Z) (s : db) :
  keys_unique s ->
  keys_unique (fst (import_transaction float_of_text clk row category_id s)).
Proof.
  intros Hk. unfold import_transaction.
  destruct (row "Amount"%string) as [amount_text |]; [| exact Hk].
  destruct (float_of_text amount_text) as [amount |]; [| exact Hk].
  destruct (row "Description"%string) as [description |]; [| exact Hk].
  destruct (row "Date"%string) as [date |]; [| exact Hk].
  pose proof (add_transaction_keys clk amount description category_id (Some date)
                (row_get row "Payment Method" "cash") (row_get row "Location" blank)
                (row_get row "Tags" blank) s Hk) as H.
  unfold state_after in H.
  destruct (add_transaction _ _ _ _ _ _ _ _ s) as [s' [id | e]]; exact H.
Qed.

Lemma import_row_keys (clk : clock) (row : csv_row) (s : db) :
  keys_unique s -> keys_unique (fst (import_row float_of_text clk row s)).
Proof.
  intros Hk. unfold import_row.
  destruct (row "Category"%string) as [name |]; [| exact Hk].
  destruct (fetchone (select_category_id name s)) as [id |].
  - apply import_transaction_keys. exact Hk.
  - unfold insert_imported_category.
    destruct (kind_of_text (row_get row "Type" "expense")) as [k |]; [| exact Hk].
    destruct (insert_category (current_timestamp clk) (name, k, default_color) s)
      as [s' | e] eqn:Hins; [| exact Hk].
    apply import_transaction_keys.
    exact (insert_category_keys _ _ s s' Hins Hk).
Qed.

Lemma import_data_keys (clk : clock) (rows : list csv_row) :
  forall s, keys_unique s -> keys_unique (fst (import_data float_of_text clk rows s)).
Proof.
  induction rows as [| row rows IH]; intros s Hk; [exact Hk |].
  cbn [import_data].
  pose proof (import_row_keys clk row s Hk) as H.
  destruct (import_row float_of_text clk row s) as [s' [e |]]; [exact H |].
  apply IH. exact H.
Qed.

End ImportKeys.

(** X11.  Ids stay keys.  A new database has no two rows with one id in
    any table and no two categories with one name, and every operation that
    writes (seeding, appending a transaction, creating a budget or a goal,
    recording progress, importing rows) keeps it so, whether it returns or
    raises. *)
Theorem keys_stay_unique :
  keys_unique empty_db /\
  forall s : db,
    keys_unique s ->
    (forall clk, keys_unique (state_after (init_database clk) s)) /\
    (forall clk amount description category_id date payment_method location tags,
        keys_unique (state_after (add_transaction clk amount description category_id date
                                                  payment_method location tags) s)) /\
    (forall clk category_id amount period start_date end_date,
        keys_unique (state_after (create_budget clk category_id amount period start_date
                                                end_date) s)) /\
    (forall clk name target_amount target_date description priority,
        keys_unique (state_after (add_goal clk name target_amount target_date
                                           description priority) s)) /\
    (forall id amount, keys_unique (state_after (update_goal_progress id amount) s)) /\
    (forall float_of_text clk rows,
        keys_unique (fst (import_data float_of_text clk rows s))).
Proof.
  split; [unfold keys_unique; cbn; repeat split; constructor |].
  intros s Hk.
  split; [intros; apply populate_default_categories_keys; exact Hk |].
  split; [intros; apply add_transaction_keys; exact Hk |].
  split; [intros; apply create_budget_keys; exact Hk |].
  split; [intros; apply add_goal_keys; exact Hk |].
  split; [intros; apply update_goal_progress_keys; exact Hk |].
  intros. apply import_data_keys. exact Hk.
Qed.

(** ** The summary after an append *)

Lemma select_total_kind_amounts (k : kind) (s : db) :
  category_ids_unique s ->
  select_total k s = Sql.coalesce_sum (kind_amounts k None s).
Proof.
  intros Hu. unfold select_total, kind_amounts. f_equal.
  rewrite (join_categories_by_id s Hu).
  induction (transactions s) as [| t ts IH]; [reflexivity |].
  cbn [flat_map]. rewrite filter_app, map_app, IH. cbn [filter].
  destruct (category_of s (transaction_category_id t)) as [c |]; [| reflexivity].
  cbn [filter fst snd]. rewrite andb_true_r.
  destruct (kind_eqb (category_type c) k); reflexivity.
Qed.

Lemma select_total_since_kind_amounts (k : kind) (since : string) (s : db) :
  category_ids_unique s ->
  select_total_since k since s = Sql.coalesce_sum (kind_amounts k (Some since) s).
Proof.
  intros Hu. unfold select_total_since, kind_amounts. f_equal.
  rewrite (join_categories_by_id s Hu).
  induction (transactions s) as [| t ts IH]; [reflexivity |].
  cbn [flat_map]. rewrite filter_app, map_app, IH. cbn [filter].
  destruct (category_of s (transaction_category_id t)) as [c |]; [| reflexivity].
  cbn [filter fst snd].
  destruct (kind_eqb (category_type c) k && Sql.text_leb since (transaction_date t));
    reflexivity.
Qed.

Lemma kind_amounts_append (k : kind) (since : option string) (s s' : db) (t : transaction) :
  categories s' = categories s ->
  transactions s' = (transactions s ++ [t])%list ->
  kind_amounts k since s'
  = (kind_amounts k since s
     ++ match category_of s (transaction_category_id t) with
        | Some c => if kind_eqb (category_type c) k
                       && match since with
                          | Some d => Sql.text_leb d (transaction_date t)
                          | None => true
                          end
                    then [transaction_amount t]
                    else []
        | None => []
        end)%list.
Proof.
  intros Hcs Hts. unfold kind_amounts, category_of. rewrite Hcs, Hts.
  rewrite filter_app, map_app. f_equal. cbn [filter].
  destruct (find _ (categories s)) as [c |]; [| reflexivity].
  destruct (kind_eqb (category_type c) k && _); reflexivity.
Qed.

Lemma kind_eqb_refl (k : kind) : kind_eqb k k = true.
Proof. destruct k; reflexivity. Qed.

Lemma kind_eqb_other (k : kind) : kind_eqb k (other_kind k) = false.
Proof. destruct k; reflexivity. Qed.

Lemma coalesce_sum_snoc (xs : list Float.float) (a : Float.float) :
  Float.is_nan (fold_left Float.add xs Float.zero) = false ->
  Float.is_nan (Float.add (Sql.coalesce_sum xs) a) = false ->
  Sql.coalesce_sum (xs ++ [a]) = Float.add (Sql.coalesce_sum xs) a.
Proof.
  intros Hold.
  assert (Hxs : Sql.coalesce_sum xs = fold_left Float.add xs Float.zero).
  { unfold Sql.coalesce_sum, Sql.sum. destruct xs as [| x xs]; [reflexivity |].
    unfold Sql.of_float. rewrite Hold. reflexivity. }
  rewrite Hxs. intros Hnew.
  unfold Sql.coalesce_sum, Sql.sum.
  destruct (xs ++ [a])%list as [| y ys] eqn:E; [destruct xs; discriminate E |].
  rewrite <- E, fold_left_app. cbn [fold_left].
  unfold Sql.of_float. rewrite Hnew. reflexivity.
Qed.

Lemma text_leb_prefix (p a b : string) :
  Sql.text_leb (p ++ a) (p ++ b) = Sql.text_leb a b.
Proof.
  unfold Sql.text_leb, String.leb.
  induction p as [| c p IH]; [reflexivity |].
  cbn [append String.compare].
  replace (Ascii.compare c c) with Eq by (symmetry; apply ascii_compare_eq; reflexivity).
  exact IH.
Qed.

Lemma in_days (d : Z) : 1 <= d <= 31 -> In d days.
Proof.
  intros Hd. unfold days. replace d with (Z.of_nat (Z.to_nat d)) by lia.
  apply in_map. apply in_seq. lia.
Qed.

Lemma first_day_first (d : Z) :
  1 <= d <= 31 -> Sql.text_leb (fmt_0d 2 1) (fmt_0d 2 d) = true.
Proof.
  intros Hd.
  assert (H : forallb (fun d => Sql.text_leb (fmt_0d 2 1) (fmt_0d 2 d)) days = true)
    by (vm_compute; reflexivity).
  rewrite forallb_forall in H. exact (H d (in_days d Hd)).
Qed.

Lemma current_month_today (clk : clock) :
  1 <= datetime.day (today clk) <= 31 ->
  Sql.text_leb (current_month clk) (datetime.isoformat (today clk)) = true.
Proof.
  intros Hd. unfold current_month, datetime.isoformat, datetime.replace_day1.
  cbn [datetime.year datetime.month datetime.day].
  rewrite !text_leb_prefix. apply first_day_first. exact Hd.
Qed.

(** X12.  The summary follows the ledger.  Take a ledger whose dates are
    texts [YYYY-MM-DD], as is the first day of the month of the clock, and
    append a transaction with such a date (the one given, or today's for
    none) to an existing category with an id within SQLite's integers.
    Then the total of that category's kind is the sum over the amounts
    counted before and the new amount (0.0 for -0.0), which is the old
    total plus the amount as long as both sums are numbers; the figures of
    the other kind are what they were.  A transaction appended without a
    date, so dated today, is counted in this month's figure as well. *)
Theorem add_transaction_then_summary (clk : clock) (amount : Float.float)
    (description : string) (c : category) (date : option string)
    (payment_method location tags : string) (s : db) :
  category_ids_unique s ->
  category_of s (category_id c) = Some c ->
  Float.is_nan amount = false ->
  Sql.int64 (category_id c) = true ->
  ledger_dates s = true ->
  Sql.iso_date (current_month clk) = true ->
  Sql.iso_date (match date with
                | Some d => d
                | None => datetime.isoformat (today clk)
                end) = true ->
  let k := category_type c in
  let s' := state_after (add_transaction clk amount description (category_id c) date
                                         payment_method location tags) s in
  exists r r' : summary,
    get_balance_summary clk s = (s, Ok r) /\
    get_balance_summary clk s' = (s', Ok r') /\
    total_of k r = Sql.coalesce_sum (kind_amounts k None s) /\
    total_of k r' = Sql.coalesce_sum (kind_amounts k None s ++ [Sql.store_real amount]) /\
    (Float.is_nan (fold_left Float.add (kind_amounts k None s) Float.zero) = false ->
     Float.is_nan (Float.add (total_of k r) (Sql.store_real amount)) = false ->
     total_of k r' = Float.add (total_of k r) (Sql.store_real amount)) /\
    total_of (other_kind k) r' = total_of (other_kind k) r /\
    monthly_of (other_kind k) r' = monthly_of (other_kind k) r /\
    (date = None -> 1 <= datetime.day (today clk) <= 31 ->
     monthly_of k r'
     = Sql.coalesce_sum
         (kind_amounts k (Some (current_month clk)) s ++ [Sql.store_real amount])).
Proof.
  intros Hu Hc Hnum Hid _ _ _ k s'.
  set (t := new_transaction clk amount description (category_id c) date payment_method
                            location tags s).
  assert (Hk : fetchone (select_category_type (category_id c) s) = Some k).
  { unfold select_category_type. rewrite (filter_by_id _ _ Hu).
    unfold category_of in Hc. rewrite Hc. reflexivity. }
  assert (Hs' : s' = appended k amount s t).
  { unfold s', state_after.
    rewrite (add_transaction_known_category clk amount description (category_id c) date
               payment_method location tags s k Hid Hnum Hk).
    reflexivity. }
  assert (Hts : transactions s' = (transactions s ++ [t])%list)
    by (rewrite Hs'; apply appended_tables).
  assert (Hcs : categories s' = categories s)
    by (rewrite Hs'; apply appended_tables).
  assert (Hu' : category_ids_unique s')
    by (unfold category_ids_unique; rewrite Hcs; exact Hu).
  assert (Happ : forall k0 since,
             kind_amounts k0 since s'
             = (kind_amounts k0 since s
                ++ (if kind_eqb k k0
                       && match since with
                          | Some d => Sql.text_leb d (transaction_date t)
                          | None => true
                          end
                    then [Sql.store_real amount] else []))%list).
  { intros k0 since. rewrite (kind_amounts_append k0 since s s' t Hcs Hts).
    change (transaction_category_id t) with (category_id c). rewrite Hc. reflexivity. }
  rewrite !get_balance_summary_eq. cbv zeta.
  eexists. eexists. split; [reflexivity |]. split; [reflexivity |].
  fold (current_month clk).
  assert (Htotal : forall k0, total_of k0 (mksummary
             (select_total income s) (select_total expense s)
             (Float.sub (select_total income s) (select_total expense s))
             (select_total_since income (current_month clk) s)
             (select_total_since expense (current_month clk) s)
             (Float.sub (select_total_since income (current_month clk) s)
                        (select_total_since expense (current_month clk) s)))
           = Sql.coalesce_sum (kind_amounts k0 None s)).
  { intros [|]; apply select_total_kind_amounts; exact Hu. }
  assert (Htotal' : forall k0, total_of k0 (mksummary
             (select_total income s') (select_total expense s')
             (Float.sub (select_total income s') (select_total expense s'))
             (select_total_since income (current_month clk) s')
             (select_total_since expense (current_month clk) s')
             (Float.sub (select_total_since income (current_month clk) s')
                        (select_total_since expense (current_month clk) s')))
           = Sql.coalesce_sum (kind_amounts k0 None s')).
  { intros [|]; apply select_total_kind_amounts; exact Hu'. }
  assert (Hmonth : forall k0, monthly_of k0 (mksummary
             (select_total income s) (select_total expense s)
             (Float.sub (select_total income s) (select_total expense s))
             (select_total_since income (current_month clk) s)
             (select_total_since expense (current_month clk) s)
             (Float.sub (select_total_since income (current_month clk) s)
                        (select_total_since expense (current_month clk) s)))
           = Sql.coalesce_sum (kind_amounts k0 (Some (current_month clk)) s)).
  { intros [|]; apply select_total_since_kind_amounts; exact Hu. }
  assert (Hmonth' : forall k0, monthly_of k0 (mksummary
             (select_total income s') (select_total expense s')
             (Float.sub (select_total income s') (select_total expense s'))
             (select_total_since income (current_month clk) s')
             (select_total_since expense (current_month clk) s')
             (Float.sub (select_total_since income (current_month clk) s')
                        (select_total_since expense (current_month clk) s')))
           = Sql.coalesce_sum (kind_amounts k0 (Some (current_month clk)) s')).
  { intros [|]; apply select_total_since_kind_amounts; exact Hu'. }
  rewrite !Htotal, !Htotal', !Hmonth, !Hmonth', !Happ.
  rewrite kind_eqb_refl, kind_eqb_other. cbn [andb]. rewrite !app_nil_r.
  split; [reflexivity |]. split; [reflexivity |].
  split; [intros Hold Hnew; apply coalesce_sum_snoc; assumption |].
  split; [reflexivity |]. split; [reflexivity |].
  intros -> Hday. change (transaction_date t) with (datetime.isoformat (today clk)).
  rewrite (current_month_today clk Hday). reflexivity.
Qed.

Lemma add_transaction_then_summary_witness :
  exists r r' : summary,
    get_balance_summary clock0 food_db = (food_db, Ok r) /\
    get_balance_summary clock0 two_expenses_in_food_db = (two_expenses_in_food_db, Ok r') /\
    total_expenses r' = Sql.coalesce_sum [Float.of_Z 300; Float.of_Z 40] /\
    total_income r' = total_income r.
Proof.
  assert (Hu : category_ids_unique food_db).
  { unfold category_ids_unique.
    change (map category_id (categories food_db)) with [1; 2].
    repeat constructor; simpl; intuition discriminate. }
  destruct (add_transaction_then_summary clock0 (Float.of_Z 40) "bus"
              (mkcategory 2 "Food" expense "#dc3545" (Some Float.zero) "2024-06-01 09:00:00")
              None "card" blank blank food_db Hu)
    as (r & r' & Hr & Hr' & _ & Htotal & _ & Hother & _).
  - vm_compute. reflexivity.
  - vm_compute. reflexivity.
  - vm_compute. reflexivity.
  - vm_compute. reflexivity.
  - vm_compute. reflexivity.
  - vm_compute. reflexivity.
  - exists r, r'. split; [exact Hr |]. split; [exact Hr' |].
    split; [| exact Hother].
    etransitivity; [exact Htotal | vm_compute; reflexivity].
Defined.

(** ** The monthly report *)








(** *** Grouping *)

Section Distinct.

Context {K : Type} (eqb : K -> K -> bool).
Hypothesis eqb_eq : forall a b, eqb a b = true <-> a = b.

Lemma distinct_in (k : K) (ks : list K) : In k (distinct eqb ks) <-> In k ks.
Proof.
  induction ks as [| a rest IH]; simpl; [tauto |].
  rewrite filter_In, IH. split.
  - intros [H | [H _]]; auto.
  - intros [H | H]; [left; exact H |].
    destruct (eqb k a) eqn:E.
    + left. symmetry. apply eqb_eq. exact E.
    + right. split; [exact H | reflexivity].
Qed.

Lemma distinct_NoDup (ks : list K) : NoDup (distinct eqb ks).
Proof.
  induction ks as [| a rest IH]; simpl; constructor.
  - rewrite filter_In. intros [_ H].
    rewrite (proj2 (eqb_eq a a) eq_refl) in H. discriminate H.
  - apply NoDup_filter. exact IH.
Qed.

Lemma filter_distinct (k : K) (ks : list K) :
  filter (fun k' => eqb k' k) (distinct eqb ks)
  = if existsb (fun k' => eqb k' k) ks then [k] else [].
Proof.
  induction ks as [| a rest IH]; simpl; [reflexivity |].
  destruct (eqb a k) eqn:E; simpl.
  - apply eqb_eq in E. subst a. f_equal. clear IH.
    induction (distinct eqb rest) as [| b l IHl]; simpl; [reflexivity |].
    destruct (eqb b k) eqn:Eb; simpl; [exact IHl |].
    rewrite Eb. exact IHl.
  - rewrite <- IH. clear IH.
    induction (distinct eqb rest) as [| b l IHl]; simpl; [reflexivity |].
    destruct (eqb b a) eqn:Eb; simpl.
    + apply eqb_eq in Eb. subst b. rewrite E. apply IHl.
    + destruct (eqb b k); [f_equal |]; apply IHl.
Qed.

End Distinct.

Lemma kind_eqb_eq (a b : kind) : kind_eqb a b = true <-> a = b.
Proof. destruct a, b; simpl; split; congruence. Qed.

Lemma filter_map_comm {A B : Type} (p : B -> bool) (f : A -> B) (l : list A) :
  filter p (map f l) = map f (filter (fun a => p (f a)) l).
Proof.
  induction l as [| a l IH]; simpl; [reflexivity |].
  destruct (p (f a)); simpl; rewrite IH; reflexivity.
Qed.

Lemma existsb_map_comm {A B : Type} (p : B -> bool) (f : A -> B) (l : list A) :
  existsb p (map f l) = existsb (fun a => p (f a)) l.
Proof.
  induction l as [| a l IH]; simpl; [reflexivity |].
  rewrite IH. reflexivity.
Qed.

Lemma existsb_filter_nil {A : Type} (p : A -> bool) (l : list A) :
  existsb p l = false <-> filter p l = [].
Proof.
  induction l as [| a l IH]; simpl; [tauto |].
  destruct (p a); simpl; [split; discriminate | exact IH].
Qed.

Lemma totals_get_window_total (k : kind) (rows : list (transaction * category)) :
  totals_get k rows = window_total k rows.
Proof.
  unfold totals_get, window_total, group_by.
  rewrite filter_map_comm. cbn [fst].
  rewrite (filter_distinct kind_eqb kind_eqb_eq).
  rewrite existsb_map_comm.
  destruct (filter (fun r => kind_eqb (category_type (snd r)) k) rows) as [| r of_kind] eqn:E.
  - apply existsb_filter_nil in E. rewrite E. reflexivity.
  - destruct (existsb (fun r => kind_eqb (category_type (snd r)) k) rows) eqn:Ex.
    + cbn [map snd hd]. rewrite E. reflexivity.
    + apply existsb_filter_nil in Ex. rewrite Ex in E. discriminate E.
Qed.

Lemma new_raises (y m d : Z) (e : exn) :
  datetime.new y m d = Raise e -> e = ValueError \/ e = OverflowError.
Proof.
  unfold datetime.new. intros H.
  repeat match type of H with
         | (if ?b then _ else _) = _ => destruct b
         end; try discriminate H; injection H as <-; auto.
Qed.

Lemma report_window_raises_only (year month : Z) (e : exn) :
  report_window year month = Raise e -> e = ValueError \/ e = OverflowError.
Proof.
  unfold report_window. intros H.
  destruct (if month =? 12 then datetime.new (year + 1) 1 1
            else datetime.new year (month + 1) 1) as [d | e'] eqn:E; cbn [bind] in H.
  - unfold datetime.sub_days in H.
    destruct ((0 <? datetime.toordinal d - 1)
              && (datetime.toordinal d - 1 <=? datetime.MAXORDINAL));
      cbn [bind] in H; [discriminate H | right; congruence].
  - injection H as <-.
    destruct (month =? 12); apply new_raises in E; exact E.
Qed.

Lemma truediv_positive (x i : Float.float) :
  Float.ltb Float.zero i = true -> Float.truediv x i = Ok (Float.div x i).
Proof.
  intros H. unfold Float.truediv.
  rewrite (ltb_zero_not_zero i H). reflexivity.
Qed.

Lemma monthly_report_of_eq (year month : Z) (s : db) (start_date end_date : string) :
  report_window year month = Ok (start_date, end_date) ->
  monthly_report_of year month s
  = (i <- number (window_total income (in_window start_date end_date s)) ;;
     e <- number (window_total expense (in_window start_date end_date s)) ;;
     Ok (mkreport (str_of_Z year ++ "-" ++ fmt_0d 2 month) i e (Float.sub i e)
                  (select_categories (in_window start_date end_date s))
                  (select_daily (in_window start_date end_date s))
                  (if Float.ltb Float.zero i
                   then Float.mul (Float.div (Float.sub i e) i) hundred
                   else Float.zero))).
Proof.
  intros H. unfold monthly_report_of. rewrite H. cbn [bind].
  rewrite !totals_get_window_total.
  destruct (number (window_total income (in_window start_date end_date s))) as [i |];
    cbn [bind]; [| reflexivity].
  destruct (number (window_total expense (in_window start_date end_date s))) as [e |];
    cbn [bind]; [| reflexivity].
  destruct (Float.ltb Float.zero i) eqn:Hi; cbn [bind]; [| reflexivity].
  rewrite (truediv_positive _ _ Hi). reflexivity.
Qed.

Lemma monthly_report_ok (year month : Z) (s : db) (r : report) :
  result_of (generate_monthly_report year month) s = Ok r ->
  exists start_date end_date : string,
    report_window year month = Ok (start_date, end_date) /\
    Some (report_income r) = window_total income (in_window start_date end_date s) /\
    Some (report_expenses r) = window_total expense (in_window start_date end_date s) /\
    report_savings r = Float.sub (report_income r) (report_expenses r) /\
    report_savings_rate r
    = (if Float.ltb Float.zero (report_income r)
       then Float.mul (Float.div (report_savings r) (report_income r)) hundred
       else Float.zero) /\
    report_categories r = select_categories (in_window start_date end_date s) /\
    report_daily_data r = select_daily (in_window start_date end_date s).
Proof.
  unfold result_of, generate_monthly_report. cbn [snd]. intros H.
  destruct (report_window year month) as [[start_date end_date] | e] eqn:Hw.
  - exists start_date, end_date. split; [reflexivity |].
    rewrite (monthly_report_of_eq year month s start_date end_date Hw) in H.
    destruct (window_total income (in_window start_date end_date s)) as [i |];
      cbn [number bind] in H; [| discriminate H].
    destruct (window_total expense (in_window start_date end_date s)) as [e |];
      cbn [number bind] in H; [| discriminate H].
    injection H as <-. cbn. repeat split; reflexivity.
  - unfold monthly_report_of in H. rewrite Hw in H. discriminate H.
Qed.

(** X14.  What the figures of a monthly report are.  In a report that is
    returned, income and expenses are the sums of the amounts of the income
    rows and of the expense rows dated within the window, taken in ledger
    order, and 0 where the window has no row of the kind; savings are income
    minus expenses; the savings rate is savings / income * 100 for an income
    above 0 and 0 otherwise.  A report that is not returned raised
    [ValueError] or [OverflowError] for the month, or [TypeError] for a sum
    that is no number: it never divides by zero. *)
Theorem generate_monthly_report_figures (year month : Z) (s : db) :
  match result_of (generate_monthly_report year month) s with
  | Ok r =>
      exists start_date end_date : string,
        report_window year month = Ok (start_date, end_date) /\
        Some (report_income r) = window_total income (in_window start_date end_date s) /\
        Some (report_expenses r) = window_total expense (in_window start_date end_date s) /\
        report_savings r = Float.sub (report_income r) (report_expenses r) /\
        report_savings_rate r
        = (if Float.ltb Float.zero (report_income r)
           then Float.mul (Float.div (report_savings r) (report_income r)) hundred
           else Float.zero)
  | Raise e => e = ValueError \/ e = OverflowError \/ e = TypeError
  end.
Proof.
  destruct (result_of (generate_monthly_report year month) s) as [r | e] eqn:H.
  - destruct (monthly_report_ok year month s r H) as (a & b & Hw & Hi & He & Hs & Hr & _).
    exists a, b. repeat split; assumption.
  - unfold result_of, generate_monthly_report in H. cbn [snd] in H.
    destruct (report_window year month) as [[a b] | e'] eqn:Hw.
    + rewrite (monthly_report_of_eq year month s a b Hw) in H.
      right. right.
      destruct (window_total income (in_window a b s)); cbn [number bind] in H;
        [| congruence].
      destruct (window_total expense (in_window a b s)); cbn [number bind] in H;
        [discriminate H | congruence].
    + unfold monthly_report_of in H. rewrite Hw in H. cbn [bind] in H.
      injection H as <-.
      destruct (report_window_raises_only year month e' Hw); tauto.
Qed.

(** X15.  The report of a month in which nothing is dated: when no joined
    ledger row lies within the window, income, expenses, savings and the
    savings rate are 0 and the category and daily lists are empty. *)
Theorem generate_monthly_report_empty_month (year month : Z) (s : db)
    (start_date end_date : string) :
  report_window year month = Ok (start_date, end_date) ->
  in_window start_date end_date s = [] ->
  generate_monthly_report year month s
  = (s, Ok (mkreport (str_of_Z year ++ "-" ++ fmt_0d 2 month)
                     Float.zero Float.zero Float.zero [] [] Float.zero)).
Proof.
  intros Hw Hrows. unfold generate_monthly_report.
  rewrite (monthly_report_of_eq year month s start_date end_date Hw), Hrows.
  reflexivity.
Qed.

Lemma generate_monthly_report_empty_month_witness :
  generate_monthly_report 2024 2 food_db
  = (food_db, Ok (mkreport "2024-02" Float.zero Float.zero Float.zero [] [] Float.zero)).
Proof.
  apply (generate_monthly_report_empty_month 2024 2 food_db "2024-02-01" "2024-02-29").
  - vm_compute. reflexivity.
  - vm_compute. reflexivity.
Defined.

Lemma group_by_keys {R K : Type} (eqb : K -> K -> bool) (key : R -> K) (rows : list R) :
  map fst (group_by eqb key rows) = distinct eqb (map key rows).
Proof. unfold group_by. rewrite map_map. cbn [fst]. apply map_id. Qed.

Lemma select_daily_dates (rows : list (transaction * category)) :
  Permutation (map daily_date (select_daily rows))
              (distinct String.eqb (map (fun r => transaction_date (fst r)) rows)).
Proof.
  unfold select_daily. rewrite order_by_perm.
  rewrite <- group_by_keys. rewrite map_map. reflexivity.
Qed.

(** X16.  The daily rows of a monthly report: one row for each date on
    which a joined ledger row of the window is dated, no row for any other
    date, and the rows stand in ascending order of the date text. *)
Theorem generate_monthly_report_daily_data (year month : Z) (s : db) (r : report) :
  result_of (generate_monthly_report year month) s = Ok r ->
  exists start_date end_date : string,
    report_window year month = Ok (start_date, end_date) /\
    NoDup (map daily_date (report_daily_data r)) /\
    StronglySorted (fun a b => Sql.text_leb a b = true)
                   (map daily_date (report_daily_data r)) /\
    (forall d : string,
        In d (map daily_date (report_daily_data r)) <->
        exists row, In row (in_window start_date end_date s)
                    /\ transaction_date (fst row) = d).
Proof.
  intros H.
  destruct (monthly_report_ok year month s r H) as (a & b & Hw & _ & _ & _ & _ & _ & Hd).
  exists a, b. split; [exact Hw |]. rewrite Hd. split; [| split].
  - apply (Permutation_NoDup (Permutation_sym (select_daily_dates _))).
    apply distinct_NoDup. exact String.eqb_eq.
  - apply Sorted_StronglySorted; [exact text_leb_trans |].
    unfold select_daily.
    apply (Sorted_map daily_date
             (fun x y => Sql.text_leb (fst (fst x)) (fst (fst y)) = true)).
    + intros x y Hxy. exact Hxy.
    + apply (order_by_sorted (fun x y : string * Sql.real * Sql.real =>
                                Sql.text_leb (fst (fst x)) (fst (fst y)))).
      intros x y. apply text_leb_total.
  - intros d. split.
    + intros Hin.
      apply (Permutation_in _ (select_daily_dates _)) in Hin.
      apply (proj1 (distinct_in String.eqb String.eqb_eq _ _)) in Hin.
      apply in_map_iff in Hin. destruct Hin as (row & Hrow & Hin).
      exists row. split; assumption.
    + intros (row & Hin & Hrow).
      apply (Permutation_in _ (Permutation_sym (select_daily_dates _))).
      apply (proj2 (distinct_in String.eqb String.eqb_eq _ _)).
      apply in_map_iff. exists row. split; assumption.
Qed.

Lemma generate_monthly_report_daily_data_witness :
  exists start_date end_date : string,
    report_window 2024 6 = Ok (start_date, end_date) /\
    NoDup (map daily_date (report_daily_data june_report)) /\
    StronglySorted (fun a b => Sql.text_leb a b = true)
                   (map daily_date (report_daily_data june_report)) /\
    (forall d : string,
        In d (map daily_date (report_daily_data june_report)) <->
        exists row, In row (in_window start_date end_date salary_food_db)
                    /\ transaction_date (fst row) = d).
Proof.
  apply (generate_monthly_report_daily_data 2024 6 salary_food_db june_report).
  vm_compute. reflexivity.
Defined.

(** ** Spending by category *)

Lemma spending_key_eqb_eq (a b : Z * string * string * kind) :
  spending_key_eqb a b = true <-> a = b.
Proof.
  destruct a as [[[i n] c] k], b as [[[j m] d] l]. unfold spending_key_eqb.
  rewrite !andb_true_iff, Z.eqb_eq, !String.eqb_eq, kind_eqb_eq.
  split; [intros [[[-> ->] ->] ->]; reflexivity | intros H; injection H; auto].
Qed.

Lemma same_id_same_category (cs : list category) (c c' : category) :
  NoDup (map category_id cs) -> In c cs -> In c' cs ->
  category_id c = category_id c' -> c = c'.
Proof.
  induction cs as [| x cs IH]; simpl; intros Hnd Hc Hc' Hid; [contradiction |].
  apply NoDup_cons_iff in Hnd. destruct Hnd as [Hx Hnd].
  destruct Hc as [-> | Hc], Hc' as [-> | Hc'].
  - reflexivity.
  - exfalso. apply Hx. rewrite Hid. apply in_map. exact Hc'.
  - exfalso. apply Hx. rewrite <- Hid. apply in_map. exact Hc.
  - apply IH; assumption.
Qed.

Lemma leb_total_numbers (x y : Float.float) :
  Float.is_nan x = false -> Float.is_nan y = false ->
  Float.leb y x = false -> Float.leb x y = true.
Proof.
  unfold Float.leb, SFleb, Float.is_nan.
  destruct x as [sx | sx | | sx mx ex], y as [sy | sy | | sy my ey];
    simpl; try discriminate; try (destruct sx; discriminate);
    try (destruct sy; discriminate); try (destruct sx, sy; discriminate);
    try (destruct sx, sy; reflexivity || discriminate).
  intros _ _.
  change (PosDef.Pos.compare_cont Eq mx my) with (Pos.compare mx my).
  change (PosDef.Pos.compare_cont Eq my mx) with (Pos.compare my mx).
  rewrite (Z.compare_antisym ey ex), (Pos.compare_antisym my mx).
  destruct sx, sy; try discriminate; try reflexivity;
    destruct (ey ?= ex); simpl; try discriminate; try reflexivity;
    destruct (my ?= mx)%positive; simpl; try discriminate; reflexivity.
Qed.

Lemma sum_number (xs : list Float.float) (x : Float.float) :
  Sql.sum xs = Some x -> Float.is_nan x = false.
Proof.
  unfold Sql.sum, Sql.of_float. destruct xs; [discriminate |].
  destruct (Float.is_nan (fold_left Float.add (f :: xs) Float.zero)) eqn:E;
    [discriminate |].
  intros H. injection H as <-. exact E.
Qed.

Section OrderByOn.

Context {A : Type} (leb : A -> A -> bool) (P : A -> Prop).
Hypothesis leb_total_on : forall a b, P a -> P b -> leb a b = false -> leb b a = true.

Lemma insert_row_sorted_on (x : A) (rows : list A) :
  P x -> Forall P rows ->
  Sorted (fun a b => leb a b = true) rows ->
  Sorted (fun a b => leb a b = true) (Sql.insert_row leb x rows).
Proof.
  intros Hx. induction rows as [| y rows IH]; simpl; intros Hall Hs.
  - repeat constructor.
  - inversion Hall as [| ? ? Hy Hrows]. subst.
    destruct (leb x y) eqn:Hxy.
    + constructor; [exact Hs |]. constructor. exact Hxy.
    + inversion Hs as [| ? ? Hsorted Hhd]. subst.
      constructor; [apply IH; assumption |].
      apply insert_row_hd; [apply leb_total_on; assumption | exact Hhd].
Qed.

Lemma order_by_sorted_on (rows : list A) :
  Forall P rows -> Sorted (fun a b => leb a b = true) (Sql.order_by leb rows).
Proof.
  unfold Sql.order_by. induction rows as [| x rows IH]; simpl; intros Hall.
  - constructor.
  - inversion Hall as [| ? ? Hx Hrows]. subst.
    apply insert_row_sorted_on; [exact Hx | | apply IH; exact Hrows].
    exact (Permutation_Forall (Permutation_sym (order_by_perm leb rows)) Hrows).
Qed.

End OrderByOn.

Lemma dated_since_joined (start_date : string) (s : db) (c : category) :
  category_ids_unique s -> In c (categories s) ->
  map (fun r => transaction_amount (fst r))
      (filter (fun r => spending_key_eqb
                          (category_id (snd r), category_name (snd r),
                           category_color (snd r), category_type (snd r))
                          (category_id c, category_name c, category_color c,
                           category_type c))
              (filter (fun r => Sql.text_leb start_date (transaction_date (fst r)))
                      (join_categories s)))
  = map transaction_amount (dated_since start_date s c).
Proof.
  intros Hu Hc. rewrite (join_categories_by_id s Hu). unfold dated_since.
  induction (transactions s) as [| t ts IH]; [reflexivity |].
  cbn [flat_map]. rewrite !filter_app, map_app, IH. clear IH. cbn [filter].
  destruct (category_of s (transaction_category_id t)) as [c' |] eqn:Hfind.
  - apply find_some in Hfind. destruct Hfind as [Hc' Hid]. apply Z.eqb_eq in Hid.
    cbn [filter fst snd].
    destruct (Sql.text_leb start_date (transaction_date t)); cbn [filter fst snd].
    + destruct (Z.eqb_spec (transaction_category_id t) (category_id c)) as [Heq | Hne].
      * assert (c' = c) as ->
          by (apply (same_id_same_category (categories s)); try assumption; congruence).
        rewrite (proj2 (spending_key_eqb_eq _ _) eq_refl). reflexivity.
      * destruct (spending_key_eqb _ _) eqn:Hk; [| reflexivity].
        apply spending_key_eqb_eq in Hk. exfalso. apply Hne. congruence.
    + rewrite andb_false_r. reflexivity.
  - cbn [filter map app].
    destruct (Z.eqb_spec (transaction_category_id t) (category_id c)) as [Heq | Hne];
      [| reflexivity].
    pose proof (find_none _ _ Hfind c Hc) as Hno. cbn beta in Hno.
    rewrite Heq, Z.eqb_refl in Hno. discriminate Hno.
Qed.

Lemma has_spending_iff (start_date : string) (s : db) (c : category) :
  has_spending start_date s c = true <->
  exists t, In t (transactions s)
            /\ transaction_category_id t = category_id c
            /\ Sql.text_leb start_date (transaction_date t) = true.
Proof.
  unfold has_spending.
  destruct (dated_since start_date s c) as [| t l] eqn:E; split.
  - discriminate.
  - intros (t & Ht & Hid & Hd). exfalso.
    assert (Hin : In t (dated_since start_date s c)).
    { unfold dated_since. apply filter_In. split; [exact Ht |].
      rewrite Hid, Z.eqb_refl, Hd. reflexivity. }
    rewrite E in Hin. exact Hin.
  - intros _. assert (Hin : In t (dated_since start_date s c)) by (rewrite E; left; reflexivity).
    unfold dated_since in Hin. apply filter_In in Hin. destruct Hin as [Ht Hb].
    apply andb_true_iff in Hb. destruct Hb as [Hid Hd]. apply Z.eqb_eq in Hid.
    exists t. auto.
  - reflexivity.
Qed.

Lemma spending_keys (start_date : string) (s : db) :
  category_ids_unique s ->
  Permutation
    (distinct spending_key_eqb
       (map (fun r => (category_id (snd r), category_name (snd r),
                       category_color (snd r), category_type (snd r)))
            (filter (fun r => Sql.text_leb start_date (transaction_date (fst r)))
                    (join_categories s))))
    (map (fun c => (category_id c, category_name c, category_color c, category_type c))
         (filter (has_spending start_date s) (categories s))).
Proof.
  intros Hu. apply NoDup_Permutation.
  - apply distinct_NoDup. exact spending_key_eqb_eq.
  - apply (NoDup_map_inv (fun k : Z * string * string * kind => fst (fst (fst k)))).
    rewrite map_map. cbn [fst].
    unfold category_ids_unique in Hu.
    induction (categories s) as [| c cs IH]; simpl; [constructor |].
    apply NoDup_cons_iff in Hu. destruct Hu as [Hc Hu].
    destruct (has_spending start_date s c); simpl; [| apply IH; exact Hu].
    constructor; [| apply IH; exact Hu].
    intros Hin. apply Hc. apply in_map_iff in Hin. destruct Hin as (c' & Hid & Hin).
    apply filter_In in Hin. rewrite <- Hid. apply in_map. tauto.
  - intros k. rewrite (distinct_in spending_key_eqb spending_key_eqb_eq).
    rewrite !in_map_iff. split.
    + intros ([t c] & Hk & Hin). apply filter_In in Hin. destruct Hin as [Hin Hd].
      apply in_join_categories in Hin. destruct Hin as (Ht & Hc & Hid).
      exists c. split; [exact Hk |]. apply filter_In. split; [exact Hc |].
      apply has_spending_iff. exists t. cbn [fst] in Hd. auto.
    + intros (c & Hk & Hin). apply filter_In in Hin. destruct Hin as [Hc Hs].
      apply has_spending_iff in Hs. destruct Hs as (t & Ht & Hid & Hd).
      exists (t, c). split; [exact Hk |]. apply filter_In. split; [| exact Hd].
      apply in_join_categories. auto.
Qed.

Lemma select_spending_rows (start_date : string) (s : db) :
  category_ids_unique s ->
  Permutation (select_spending start_date s)
              (map (spending_of start_date s)
                   (filter (has_spending start_date s) (categories s))).
Proof.
  intros Hu. unfold select_spending. rewrite order_by_perm.
  unfold group_by. rewrite map_map. cbn [fst snd].
  rewrite (Permutation_map _ (spending_keys start_date s Hu)).
  rewrite map_map. apply Permutation_refl'.
  apply map_ext_in. intros c Hc. apply filter_In in Hc. destruct Hc as [Hc _].
  unfold spending_of, sum_amounts. f_equal.
  f_equal. apply dated_since_joined; assumption.
Qed.

Lemma total_geb_total (a b : spending_row) :
  (forall x, spending_total a = Some x -> Float.is_nan x = false) ->
  (forall x, spending_total b = Some x -> Float.is_nan x = false) ->
  total_geb a b = false -> total_geb b a = true.
Proof.
  unfold total_geb, real_geb. intros Ha Hb.
  destruct (spending_total a) as [x |], (spending_total b) as [y |];
    try reflexivity; try discriminate.
  apply leb_total_numbers; [apply Ha | apply Hb]; reflexivity.
Qed.

(** X17.  The rows of [get_category_spending], category ids being unique
    and the dates of the ledger and the start of the period being texts
    [YYYY-MM-DD]: one row for each category that has a transaction dated
    from the start of the period on, none for any other category; the row
    carries the name, the colour and the type of the category and the sum
    of those transactions in ledger order; the rows stand in descending
    order of the total.  The period starts on the first day of the month
    for 'monthly', on 1 January of the year for 'yearly' and on 1900-01-01
    for every other text. *)
Theorem get_category_spending_rows (clk : clock) (period : string) (s : db) :
  category_ids_unique s ->
  ledger_dates s = true ->
  Sql.iso_date (period_start clk period) = true ->
  exists rows : list spending_row,
    get_category_spending clk period s = (s, Ok rows) /\
    Permutation rows
      (map (spending_of (period_start clk period) s)
           (filter (has_spending (period_start clk period) s) (categories s))) /\
    Sorted (fun a b => total_geb a b = true) rows.
Proof.
  intros Hu _ _. exists (select_spending (period_start clk period) s).
  split; [reflexivity |]. split; [apply select_spending_rows; exact Hu |].
  unfold select_spending.
  apply (order_by_sorted_on total_geb
           (fun r => forall x, spending_total r = Some x -> Float.is_nan x = false)).
  - exact total_geb_total.
  - apply Forall_forall. intros r Hr.
    apply in_map_iff in Hr. destruct Hr as ([[[[i n] c] k] rows] & <- & _).
    cbn [fst snd spending_total]. intros x Hx.
    exact (sum_number _ x Hx).
Qed.

Lemma get_category_spending_rows_witness :
  exists rows : list spending_row,
    get_category_spending clock0 "monthly" two_expenses_db = (two_expenses_db, Ok rows) /\
    Permutation rows
      (map (spending_of (period_start clock0 "monthly") two_expenses_db)
           (filter (has_spending (period_start clock0 "monthly") two_expenses_db)
                   (categories two_expenses_db))) /\
    Sorted (fun a b => total_geb a b = true) rows.
Proof.
  apply (get_category_spending_rows clock0 "monthly" two_expenses_db).
  - unfold category_ids_unique. vm_compute.
    repeat (constructor; [simpl; intuition discriminate |]). constructor.
  - vm_compute. reflexivity.
  - vm_compute. reflexivity.
Defined.

(** ** Insights *)

Lemma max_from_raises (best : spending_row) (rows : list spending_row) (e : exn) :
  max_from best rows = Raise e -> e = TypeError.
Proof.
  revert best. induction rows as [| x rows IH]; simpl; intros best H; [discriminate H |].
  unfold total_gt in H.
  destruct (spending_total x), (spending_total best); cbn [bind] in H;
    try (injection H as <-; reflexivity).
  exact (IH _ H).
Qed.

Lemma number_raises (x : Sql.real) (e : exn) : number x = Raise e -> e = TypeError.
Proof. destruct x; simpl; congruence. Qed.

Lemma filter_nonempty {A : Type} (p : A -> bool) (l : list A) :
  filter p l <> [] <-> exists x, In x l /\ p x = true.
Proof.
  split.
  - destruct (filter p l) as [| x rest] eqn:E; [congruence |]. intros _.
    exists x. apply filter_In. rewrite E. left. reflexivity.
  - intros (x & Hx & Hp) E.
    assert (Hin : In x (filter p l)) by (apply filter_In; auto).
    rewrite E in Hin. exact Hin.
Qed.

Section InsightRules.

Variable format_f : nat -> Float.float -> string.

Lemma insights_of_rules (r : summary) (rows : list spending_row) :
  match insights_of format_f r rows with
  | Ok i =>
      (warnings i <> [] <-> Float.ltb (monthly_income r) (monthly_expenses r) = true) /\
      (List.length (warnings i) <= 1)%nat /\
      (List.length (recommendations i) + List.length (achievements i)
       = List.length (warnings i)
         + (if Float.ltb Float.zero (monthly_income r) then 1 else 0))%nat /\
      (spending_habits i <> [] <->
       exists row, In row rows /\ spending_type row = expense) /\
      (List.length (spending_habits i) <= 1)%nat
  | Raise e => e = TypeError
  end.
Proof.
  unfold insights_of.
  assert (Hrows : (exists row, In row rows /\ spending_type row = expense) <->
                  filter (fun cat => kind_eqb (spending_type cat) expense) rows <> []).
  { rewrite filter_nonempty. split; intros (row & Hin & Hk); exists row; split;
      try exact Hin; apply kind_eqb_eq; exact Hk. }
  set (first :=
         if Float.ltb (monthly_income r) (monthly_expenses r)
         then append_recommendation
                (append_warning (mkinsights [] [] [] []) _) _
         else mkinsights [] [] [] []).
  assert (Hfirst :
            (warnings first <> [] <->
             Float.ltb (monthly_income r) (monthly_expenses r) = true) /\
            (List.length (warnings first) <= 1)%nat /\
            List.length (recommendations first) = List.length (warnings first) /\
            achievements first = [] /\ spending_habits first = []).
  { subst first. destruct (Float.ltb (monthly_income r) (monthly_expenses r)); cbn;
      repeat split; try congruence; try lia. }
  destruct Hfirst as (Hw & Hw1 & Hr & Ha & Hh).
  set (second := if Float.ltb Float.zero (monthly_income r) then _ else Ok first).
  assert (Hsecond :
            exists i, second = Ok i /\ warnings i = warnings first /\
                      spending_habits i = [] /\
                      (List.length (recommendations i) + List.length (achievements i)
                       = List.length (warnings first)
                         + (if Float.ltb Float.zero (monthly_income r) then 1 else 0))%nat).
  { subst second. destruct (Float.ltb Float.zero (monthly_income r)) eqn:Hpos.
    - rewrite (truediv_positive _ _ Hpos). cbn [bind].
      destruct (Float.leb (Float.of_Z 20) _);
        [| destruct (Float.leb (Float.of_Z 10) _)];
        eexists; (split; [reflexivity |]); cbn;
        rewrite ?Ha, ?length_app; cbn; repeat split; try assumption; lia.
    - exists first. rewrite Ha. cbn. repeat split; try assumption; lia. }
  destruct Hsecond as (i & -> & Hiw & Hih & Hcount). cbn [bind].
  destruct rows as [| row rows'] eqn:Erows.
  - rewrite Hiw, Hih. repeat split; try assumption; try tauto; try (cbn; lia);
      try (intros H; contradiction); try (intros (row & [] & _)).
  - rewrite <- Erows in *. clear Erows.
    unfold max_total.
    destruct (filter (fun cat => kind_eqb (spending_type cat) expense) rows)
      as [| x rest] eqn:Ef; cbn [bind].
    + rewrite Hiw, Hih. repeat split; try assumption; try tauto; try (cbn; lia);
        try (intros H; contradiction); try (intros H; apply Hrows in H; congruence).
    + destruct (max_from x rest) as [top | e] eqn:Emax; cbn [bind].
      * destruct (number (spending_total top)) as [total | e] eqn:En; cbn [bind].
        -- cbn. rewrite Hiw, Hih. repeat split; try assumption; try (cbn; lia);
             try (apply Hw); try (intros _; apply Hrows; congruence);
             try (intros _; discriminate).
        -- exact (number_raises _ _ En).
      * exact (max_from_raises _ _ _ Emax).
Qed.

End InsightRules.

(** X18.  The rules of [get_financial_insights], read against the summary
    and the monthly category spending of the same state.  Insights that
    are returned hold a warning exactly when this month's expenses exceed
    this month's income, and at most one; beside the recommendation that
    comes with the warning there is exactly one savings message, an
    achievement or a recommendation, when this month's income is above 0,
    and none otherwise; there is a spending habit exactly when some row of
    the monthly category spending is an expense, and at most one.  The call
    raises nothing but [TypeError], so it never divides by zero. *)
Theorem get_financial_insights_rules (format_f : nat -> Float.float -> string)
    (clk : clock) (s : db) :
  exists (r : summary) (rows : list spending_row),
    get_balance_summary clk s = (s, Ok r) /\
    get_category_spending clk "monthly" s = (s, Ok rows) /\
    match result_of (get_financial_insights format_f clk) s with
    | Ok i =>
        (warnings i <> [] <-> Float.ltb (monthly_income r) (monthly_expenses r) = true) /\
        (List.length (warnings i) <= 1)%nat /\
        (List.length (recommendations i) + List.length (achievements i)
         = List.length (warnings i)
           + (if Float.ltb Float.zero (monthly_income r) then 1 else 0))%nat /\
        (spending_habits i <> [] <->
         exists row, In row rows /\ spending_type row = expense) /\
        (List.length (spending_habits i) <= 1)%nat
    | Raise e => e = TypeError
    end.
Proof.
  eexists. eexists. split; [apply get_balance_summary_eq |]. split; [reflexivity |].
  apply insights_of_rules.
Qed.

(** X19.  On a ledger without transactions [get_financial_insights] returns
    four empty lists: no warning, no recommendation, no achievement and no
    spending habit. *)
Theorem get_financial_insights_no_transactions (format_f : nat -> Float.float -> string)
    (clk : clock) (s : db) :
  transactions s = [] ->
  get_financial_insights format_f clk s = (s, Ok (mkinsights [] [] [] [])).
Proof.
  intros Hts. unfold get_financial_insights, and_then.
  rewrite get_balance_summary_eq.
  unfold get_category_spending, query, select_spending, select_total, select_total_since.
  rewrite (join_categories_no_transactions s Hts). reflexivity.
Qed.

Lemma get_financial_insights_no_transactions_witness :
  get_financial_insights (fun _ _ => blank) clock0 seeded_db
  = (seeded_db, Ok (mkinsights [] [] [] [])).
Proof.
  apply (get_financial_insights_no_transactions (fun _ _ => blank) clock0 seeded_db).
  reflexivity.
Defined.

(** ** Import *)

Lemma select_category_id_named (s : db) (c : category) :
  NoDup (category_names s) -> In c (categories s) ->
  fetchone (select_category_id (category_name c) s) = Some (category_id c).
Proof.
  unfold category_names, select_category_id.
  induction (categories s) as [| x cs IH]; simpl; intros Hnd Hin; [contradiction |].
  apply NoDup_cons_iff in Hnd. destruct Hnd as [Hx Hnd].
  destruct Hin as [-> | Hin].
  - rewrite String.eqb_refl. reflexivity.
  - destruct (String.eqb_spec (category_name x) (category_name c)) as [Heq | Hne].
    + exfalso. apply Hx. rewrite Heq. apply in_map. exact Hin.
    + apply IH; assumption.
Qed.

Lemma select_category_id_unknown (s : db) (name : string) :
  ~ In name (category_names s) -> select_category_id name s = [].
Proof.
  unfold category_names, select_category_id.
  induction (categories s) as [| x cs IH]; simpl; intros Hno; [reflexivity |].
  destruct (String.eqb_spec (category_name x) name) as [Heq | Hne].
  - exfalso. apply Hno. left. exact Heq.
  - apply IH. intros Hin. apply Hno. right. exact Hin.
Qed.

(** X20.  The import goes row by row and keeps what it has done: importing
    two lists of rows one after the other is importing the first and, if no
    row of it failed, the second from the state that the first left.  So the
    rows before the first failing row stay imported, and no row after it is
    read. *)
Theorem import_data_row_by_row (float_of_text : string -> option Float.float)
    (clk : clock) (rows1 rows2 : list csv_row) (s : db) :
  import_data float_of_text clk (rows1 ++ rows2) s
  = match import_data float_of_text clk rows1 s with
    | (s', None) => import_data float_of_text clk rows2 s'
    | (s', Some e) => (s', Some e)
    end.
Proof.
  revert s. induction rows1 as [| row rows1 IH]; intros s; [reflexivity |].
  cbn [app import_data].
  destruct (import_row float_of_text clk row s) as [s' [e |]]; [reflexivity |].
  apply IH.
Qed.

(** X21.  A row whose category exists.  With category names unique, a row
    that names an existing category and holds an amount that [float] reads,
    a description, a date, a payment method, a location and tags is imported
    as one call of [add_transaction] on the id of that category with the
    texts of the row; no category is created. *)
Theorem import_row_existing_category (float_of_text : string -> option Float.float)
    (clk : clock) (row : csv_row) (c : category)
    (amount_text description date payment_method location tags : string)
    (amount : Float.float) (s : db) :
  NoDup (category_names s) -> In c (categories s) ->
  row "Category"%string = Some (category_name c) ->
  row "Amount"%string = Some amount_text ->
  float_of_text amount_text = Some amount ->
  row "Description"%string = Some description ->
  row "Date"%string = Some date ->
  row "Payment Method"%string = Some payment_method ->
  row "Location"%string = Some location ->
  row "Tags"%string = Some tags ->
  import_row float_of_text clk row s
  = imported (add_transaction clk amount description (category_id c) (Some date)
                              payment_method location tags s).
Proof.
  intros Hnd Hin Hcat Hamount Hfloat Hdesc Hdate Hmethod Hlocation Htags.
  unfold import_row. rewrite Hcat, (select_category_id_named s c Hnd Hin).
  unfold import_transaction, row_get.
  rewrite Hamount, Hfloat, Hdesc, Hdate, Hmethod, Hlocation, Htags.
  unfold imported. destruct (add_transaction _ _ _ _ _ _ _ _ s) as [s' [id | e]];
    reflexivity.
Qed.

Lemma import_row_existing_category_witness :
  import_row read_twelve clock0 cafe_row two_categories_db
  = imported (add_transaction clock0 (Float.of_Z 12) "tea" 2 (Some "2024-06-11"%string)
                              "card" "cafe" "drinks" two_categories_db).
Proof.
  apply (import_row_existing_category read_twelve clock0 cafe_row
           (mkcategory 2 "Food" expense "#dc3545" (Some Float.zero) "2024-06-01 09:00:00")
           "12" "tea" "2024-06-11" "card" "cafe" "drinks" (Float.of_Z 12)
           two_categories_db).
  - unfold category_names.
    change (map category_name (categories two_categories_db)) with ["Salary"; "Food"]%string.
    repeat constructor; simpl; intuition discriminate.
  - vm_compute. right. left. reflexivity.
  - reflexivity.
  - reflexivity.
  - reflexivity.
  - reflexivity.
  - reflexivity.
  - reflexivity.
  - reflexivity.
  - reflexivity.
Defined.

Lemma add_transaction_categories (clk : clock) (amount : Float.float)
    (description : string) (category_id : Z) (date : option string)
    (payment_method location tags : string) (s : db) :
  categories (fst (add_transaction clk amount description category_id date payment_method
                                   location tags s))
  = categories s.
Proof.
  destruct (add_transaction_cases clk amount description category_id date payment_method
              location tags s)
    as [[_ ->] | [(_ & _ & ->) | [(_ & _ & _ & ->) | (_ & _ & k & _ & ->)]]];
    cbn [fst]; try reflexivity.
  apply appended_tables.
Qed.

Lemma import_transaction_categories (float_of_text : string -> option Float.float)
    (clk : clock) (row : csv_row) (category_id : Z) (s : db) :
  categories (fst (import_transaction float_of_text clk row category_id s)) = categories s.
Proof.
  unfold import_transaction.
  destruct (row "Amount"%string) as [amount_text |]; [| reflexivity].
  destruct (float_of_text amount_text) as [amount |]; [| reflexivity].
  destruct (row "Description"%string) as [description |]; [| reflexivity].
  destruct (row "Date"%string) as [date |]; [| reflexivity].
  pose proof (add_transaction_categories clk amount description category_id (Some date)
                (row_get row "Payment Method" "cash") (row_get row "Location" blank)
                (row_get row "Tags" blank) s) as H.
  destruct (add_transaction _ _ _ _ _ _ _ _ s) as [s' [id | e]]; exact H.
Qed.

(** X22.  A row whose category is not known and that holds a type.  The
    import creates the category before it reads the rest of the row, and
    the category stays whatever becomes of the row: it has a new id, the
    name given, the type that the Type cell names, the colour #007bff and a
    budget limit of 0.  When the row also holds an amount that [float]
    reads, a description, a date, a payment method, a location and tags,
    the transaction is then added under the new id by one call of
    [add_transaction].  A Type text other than 'income' and 'expense' raises
    [IntegrityError] and stores nothing. *)
Theorem import_row_unknown_category (float_of_text : string -> option Float.float)
    (clk : clock) (row : csv_row) (name type : string) (s : db) :
  row "Category"%string = Some name ->
  row "Type"%string = Some type ->
  ~ In name (category_names s) ->
  match kind_of_text type with
  | Some k =>
      exists c : category,
        categories (fst (import_row float_of_text clk row s)) = (categories s ++ [c])%list /\
        ~ In (category_id c) (map category_id (categories s)) /\
        category_name c = name /\
        category_type c = k /\
        category_color c = "#007bff"%string /\
        category_budget_limit c = Some Float.zero /\
        (forall (amount_text description date payment_method location tags : string)
                (amount : Float.float),
            row "Amount"%string = Some amount_text ->
            float_of_text amount_text = Some amount ->
            row "Description"%string = Some description ->
            row "Date"%string = Some date ->
            row "Payment Method"%string = Some payment_method ->
            row "Location"%string = Some location ->
            row "Tags"%string = Some tags ->
            import_row float_of_text clk row s
            = imported (add_transaction clk amount description (category_id c) (Some date)
                                        payment_method location tags
                                        (with_imported_category clk name k s)))
  | None => import_row float_of_text clk row s = (s, Some (Raised IntegrityError))
  end.
Proof.
  intros Hcat Htype Hno.
  assert (Hrow : import_row float_of_text clk row s
                 = match kind_of_text type with
                   | Some k =>
                       import_transaction float_of_text clk row
                         (category_id (imported_category clk name k s))
                         (with_imported_category clk name k s)
                   | None => (s, Some (Raised IntegrityError))
                   end).
  { unfold import_row.
    rewrite Hcat, (select_category_id_unknown s name Hno). cbn [fetchone hd_error].
    unfold insert_imported_category, row_get. rewrite Htype.
    destruct (kind_of_text type) as [k |]; [| reflexivity].
    unfold insert_category.
    rewrite (name_taken_false name (categories s) Hno). reflexivity. }
  destruct (kind_of_text type) as [k |]; [| exact Hrow].
  exists (imported_category clk name k s).
  split; [rewrite Hrow; apply import_transaction_categories |].
  split.
  { intros Hin.
    pose proof (next_rowid_above (seq_categories (sqlite_sequence s)) _ _ Hin) as Hlt.
    unfold imported_category in Hlt. cbn [category_id] in Hlt. lia. }
  split; [reflexivity |]. split; [reflexivity |]. split; [reflexivity |].
  split; [reflexivity |].
  intros amount_text description date payment_method location tags amount
         Hamount Hfloat Hdesc Hdate Hmethod Hlocation Htags.
  rewrite Hrow. unfold import_transaction, row_get.
  rewrite Hamount, Hfloat, Hdesc, Hdate, Hmethod, Hlocation, Htags.
  unfold imported.
  destruct (add_transaction _ _ _ _ _ _ _ _ _) as [s' [id | e]]; reflexivity.
Qed.

Lemma import_row_unknown_category_witness :
  exists c : category,
    categories (fst (import_row read_twelve clock0 cafe_row empty_db)) = [c] /\
    category_name c = "Food"%string /\
    category_type c = expense.
Proof.
  assert (Hno : ~ In "Food"%string (category_names empty_db)) by (intros []).
  destruct (import_row_unknown_category read_twelve clock0 cafe_row "Food" "expense"
              empty_db eq_refl eq_refl Hno)
    as (c & Hcs & _ & Hname & Htype & _).
  exists c. split; [exact Hcs |]. split; [exact Hname | exact Htype].
Defined.

(** X23.  A failed row is not undone.  When a row names an unknown
    category and its amount is a text that [float] does not read, the
    import stops at this row with [ValueError]: no transaction is added,
    but the category that was created for the row stays in the table as
    the tracker's connection sees it. *)
Theorem import_data_keeps_created_category
    (float_of_text : string -> option Float.float) (clk : clock) (row : csv_row)
    (rest : list csv_row) (name amount_text : string) (k : kind) (s : db) :
  row "Category"%string = Some name ->
  ~ In name (category_names s) ->
  kind_of_text (row_get row "Type" "expense") = Some k ->
  row "Amount"%string = Some amount_text ->
  float_of_text amount_text = None ->
  let s' := fst (import_data float_of_text clk (row :: rest) s) in
  import_data float_of_text clk (row :: rest) s = (s', Some (Raised ValueError)) /\
  transactions s' = transactions s /\
  categories s' = (categories s ++ [imported_category clk name k s])%list /\
  In name (category_names s').
Proof.
  intros Hcat Hno Hk Hamount Hfloat.
  assert (Hrow : import_row float_of_text clk row s
                 = (with_imported_category clk name k s, Some (Raised ValueError))).
  { unfold import_row.
    rewrite Hcat, (select_category_id_unknown s name Hno). cbn [fetchone hd_error].
    unfold insert_imported_category. rewrite Hk.
    unfold insert_category. rewrite (name_taken_false name (categories s) Hno).
    unfold import_transaction. rewrite Hamount, Hfloat. reflexivity. }
  cbn [import_data]. rewrite Hrow. cbn [fst].
  split; [reflexivity |]. split; [reflexivity |]. split; [reflexivity |].
  unfold category_names, with_imported_category. cbn [categories set_categories].
  rewrite map_app. apply in_or_app. right. left. reflexivity.
Qed.

Lemma import_data_keeps_created_category_witness :
  import_data read_nothing clock0 [tea_row] empty_db
  = (fst (import_data read_nothing clock0 [tea_row] empty_db), Some (Raised ValueError)) /\
  transactions (fst (import_data read_nothing clock0 [tea_row] empty_db)) = [] /\
  In "Food"%string (category_names (fst (import_data read_nothing clock0 [tea_row] empty_db))).
Proof.
  assert (Hno : ~ In "Food"%string (category_names empty_db)) by (intros []).
  destruct (import_data_keeps_created_category read_nothing clock0 tea_row [] "Food" "12"
              expense empty_db eq_refl Hno eq_refl eq_refl eq_refl)
    as (Hrun & Hts & _ & Hin).
  split; [exact Hrun |]. split; [exact Hts | exact Hin].
Defined.
